(** * QuickScope_V2: the flow execution engine

    A shallow embedding of [src/engine/flow_runner.py] (path resolver,
    slot writer, template renderer, stage advancer) and of the control
    loop of [src/nodes/interview_nodes.py] (ingest, auto-advance, loop
    detection, render), with the properties of the engine's
    specification stated and settled against it.

    Modelling conventions.
    - Python [str] is [string]; a character is a code point below 256.
      [lower], [strip] and [int] follow Python on that range.
    - Slot data is the type [value]: None, bool, int, str, list, dict.
      Floating-point numbers are not modelled.  A dict is an association
      list in insertion order; its keys are strings, or integers (which
      only an indexed write into a dict can create).
    - Slot data is a tree: no list or dict object is reachable along two
      paths.  In-place mutation of the tree is modelled by rebuilding
      the path to the mutated node.
    - A Python exception is a value of [exn]; code that can raise
      returns [result].  A mutating call that raises returns the state
      of the container at the time of the raise. *)

From Stdlib Require Import ZArith List String Ascii Bool Lia.
From Stdlib Require Import DecimalString.
Import ListNotations.
Local Open Scope string_scope.
Local Open Scope Z_scope.
Set Warnings "-register-all".

(** ** Python strings *)

Module PyStr.

Definition code (c : ascii) : N := N_of_ascii c.

Definition in_range (lo hi : N) (c : ascii) : bool :=
  (N.leb lo (code c) && N.leb (code c) hi)%bool.

(** [str.isspace] on code points below 256. *)
Definition is_space (c : ascii) : bool :=
  (in_range 9 13 c || in_range 28 32 c
   || N.eqb (code c) 133 || N.eqb (code c) 160)%bool.

Definition is_digit (c : ascii) : bool := in_range 48 57 c.

(** The class [a-z0-9] of the classifier's regular expression. *)
Definition is_lower_alnum (c : ascii) : bool :=
  (in_range 97 122 c || is_digit c)%bool.

(** [str.lower] on one code point below 256. *)
Definition lower_char (c : ascii) : ascii :=
  if (in_range 65 90 c
      || (in_range 192 222 c && negb (N.eqb (code c) 215)))%bool
  then ascii_of_N (code c + 32)
  else c.

Fixpoint lower (s : string) : string :=
  match s with
  | EmptyString => EmptyString
  | String c s' => String (lower_char c) (lower s')
  end.

Fixpoint lstrip_with (p : ascii -> bool) (s : string) : string :=
  match s with
  | EmptyString => EmptyString
  | String c s' => if p c then lstrip_with p s' else s
  end.

Fixpoint rstrip_with (p : ascii -> bool) (s : string) : string :=
  match s with
  | EmptyString => EmptyString
  | String c s' =>
      match rstrip_with p s' with
      | EmptyString => if p c then EmptyString else String c EmptyString
      | r => String c r
      end
  end.

(** [s.strip()] *)
Definition strip (s : string) : string :=
  lstrip_with is_space (rstrip_with is_space s).

(** [s.rstrip(c)] for a one-character argument. *)
Definition rstrip_char (c : ascii) (s : string) : string :=
  rstrip_with (Ascii.eqb c) s.

Fixpoint contains (c : ascii) (s : string) : bool :=
  match s with
  | EmptyString => false
  | String a s' => (Ascii.eqb a c || contains c s')%bool
  end.

(** [s.split(c)] for a one-character separator: never empty. *)
Fixpoint split_on (c : ascii) (s : string) : list string :=
  match s with
  | EmptyString => [EmptyString]
  | String a s' =>
      let r := split_on c s' in
      if Ascii.eqb a c then EmptyString :: r
      else match r with
           | h :: t => String a h :: t
           | [] => [String a EmptyString]
           end
  end.

(** [s.split()]: the maximal runs of non-whitespace characters. *)
Fixpoint words_aux (cur : option string) (s : string) : list string :=
  match s with
  | EmptyString => match cur with Some w => [w] | None => [] end
  | String c s' =>
      if is_space c
      then match cur with
           | Some w => w :: words_aux None s'
           | None => words_aux None s'
           end
      else match cur with
           | Some w => words_aux (Some (w ++ String c EmptyString)) s'
           | None => words_aux (Some (String c EmptyString)) s'
           end
  end.

Definition words (s : string) : list string := words_aux None s.

(** [needle in hay] on strings. *)
Fixpoint is_infix (needle hay : string) : bool :=
  match hay with
  | EmptyString => String.prefix needle EmptyString
  | String _ hay' => (String.prefix needle hay || is_infix needle hay')%bool
  end.

(** [re.sub(r"[^a-z0-9]+", " ", s)]: every maximal run of characters
    outside the class becomes one space. *)
Fixpoint sub_non_alnum (in_run : bool) (s : string) : string :=
  match s with
  | EmptyString => EmptyString
  | String c s' =>
      if is_lower_alnum c then String c (sub_non_alnum false s')
      else if in_run then sub_non_alnum true s'
      else String " "%char (sub_non_alnum true s')
  end.

(** The digits of [int(s)] after sign and whitespace: decimal digits,
    single underscores allowed between two digits. *)
Fixpoint int_digits (acc : Z) (after_us : bool) (s : string) : option Z :=
  match s with
  | EmptyString => if after_us then None else Some acc
  | String c s' =>
      if is_digit c
      then int_digits (10 * acc + (Z.of_N (code c) - 48)) false s'
      else if Ascii.eqb c "_"%char
           then if after_us then None else int_digits acc true s'
           else None
  end.

Definition int_unsigned (s : string) : option Z :=
  match s with
  | String c _ => if is_digit c then int_digits 0 false s else None
  | EmptyString => None
  end.

(** The whitespace [int] skips around a number. *)
Definition is_int_space (c : ascii) : bool :=
  (in_range 9 13 c || N.eqb (code c) 32
   || N.eqb (code c) 133 || N.eqb (code c) 160)%bool.

(** [int(s)]: [None] stands for ValueError. *)
Definition py_int (s : string) : option Z :=
  match lstrip_with is_int_space (rstrip_with is_int_space s) with
  | String "+"%char r => int_unsigned r
  | String "-"%char r => option_map Z.opp (int_unsigned r)
  | r => int_unsigned r
  end.

(** [str(n)] for an integer. *)
Definition of_Z (z : Z) : string := NilZero.string_of_int (Z.to_int z).

Definition nonempty (s : string) : bool :=
  match s with EmptyString => false | _ => true end.

End PyStr.

(** ** Python values and exceptions *)

Module Py.

Inductive exn : Type :=
| TypeError
| KeyError
| IndexError
| AttributeError
| ValueError
| FlowRunnerError (msg : string).

Inductive result (A : Type) : Type :=
| Ok (a : A)
| Raise (e : exn).
Arguments Ok {A} a.
Arguments Raise {A} e.

Definition bind {A B : Type} (r : result A) (k : A -> result B) : result B :=
  match r with
  | Ok a => k a
  | Raise e => Raise e
  end.

Notation "x <- r ;; k" := (bind r (fun x => k))
  (at level 61, r at next level, right associativity).

Inductive key : Type :=
| KStr (s : string)
| KInt (z : Z).

Inductive value : Type :=
| VNone
| VBool (b : bool)
| VInt (z : Z)
| VStr (s : string)
| VList (l : list value)
| VDict (d : list (key * value)).

Definition key_eqb (a b : key) : bool :=
  match a, b with
  | KStr s, KStr t => String.eqb s t
  | KInt x, KInt y => Z.eqb x y
  | _, _ => false
  end.

(** *** Dictionaries in insertion order *)

Section Assoc.
Context {K V : Type} (eqb : K -> K -> bool).

Fixpoint assoc_get (k : K) (d : list (K * V)) : option V :=
  match d with
  | [] => None
  | (k', v) :: d' => if eqb k' k then Some v else assoc_get k d'
  end.

Definition assoc_mem (k : K) (d : list (K * V)) : bool :=
  match assoc_get k d with Some _ => true | None => false end.

(** [d[k] = v]: an existing key keeps its position, a new one goes last. *)
Fixpoint assoc_set (k : K) (v : V) (d : list (K * V)) : list (K * V) :=
  match d with
  | [] => [(k, v)]
  | (k', v') :: d' =>
      if eqb k' k then (k', v) :: d' else (k', v') :: assoc_set k v d'
  end.

(** [d.pop(k, None)] *)
Fixpoint assoc_pop (k : K) (d : list (K * V)) : list (K * V) :=
  match d with
  | [] => []
  | (k', v') :: d' => if eqb k' k then d' else (k', v') :: assoc_pop k d'
  end.

End Assoc.

Definition dict : Type := list (key * value).

Definition dict_get (k : string) (d : dict) : option value :=
  assoc_get key_eqb (KStr k) d.

Definition dict_mem (k : string) (d : dict) : bool :=
  assoc_mem key_eqb (KStr k) d.

Definition dict_set (k : string) (v : value) (d : dict) : dict :=
  assoc_set key_eqb (KStr k) v d.

(** [d.get(k)] *)
Definition dict_get_none (k : string) (d : dict) : value :=
  match dict_get k d with Some v => v | None => VNone end.

Definition is_list (v : value) : bool :=
  match v with VList _ => true | _ => false end.

(** [isinstance(v, int)]: a bool is an int. *)
Definition as_int (v : value) : option Z :=
  match v with
  | VInt z => Some z
  | VBool true => Some 1
  | VBool false => Some 0
  | _ => None
  end.

(** *** The operators the engine applies to slot data *)

(** [k in c] for a string [k]. *)
Definition py_contains (k : string) (c : value) : result bool :=
  match c with
  | VDict d => Ok (dict_mem k d)
  | VList l =>
      Ok (existsb (fun x => match x with
                            | VStr s => String.eqb s k
                            | _ => false
                            end) l)
  | VStr s => Ok (PyStr.is_infix k s)
  | _ => Raise TypeError
  end.

(** [c[k]] for a string [k]. *)
Definition py_getitem (k : string) (c : value) : result value :=
  match c with
  | VDict d =>
      match dict_get k d with
      | Some v => Ok v
      | None => Raise KeyError
      end
  | _ => Raise TypeError
  end.

(** [c[k] = v] for a string [k]. *)
Definition py_setitem (k : string) (v : value) (c : value) : result value :=
  match c with
  | VDict d => Ok (VDict (dict_set k v d))
  | _ => Raise TypeError
  end.

(** [len(x)] *)
Definition py_len (x : value) : result Z :=
  match x with
  | VList l => Ok (Z.of_nat (List.length l))
  | VDict d => Ok (Z.of_nat (List.length d))
  | VStr s => Ok (Z.of_nat (String.length s))
  | _ => Raise TypeError
  end.

(** The position a sequence of length [n] gives to index [i]. *)
Definition seq_pos (n : nat) (i : Z) : option nat :=
  let j := if i <? 0 then i + Z.of_nat n else i in
  if (0 <=? j) && (j <? Z.of_nat n) then Some (Z.to_nat j) else None.

Fixpoint list_set {A : Type} (n : nat) (a : A) (l : list A) : list A :=
  match l, n with
  | [], _ => []
  | _ :: t, O => a :: t
  | h :: t, S n' => h :: list_set n' a t
  end.

(** [x[i]] for an integer [i]. *)
Definition py_getidx (i : Z) (x : value) : result value :=
  match x with
  | VList l =>
      match seq_pos (List.length l) i with
      | Some n => match nth_error l n with
                  | Some v => Ok v
                  | None => Raise IndexError
                  end
      | None => Raise IndexError
      end
  | VDict d =>
      match assoc_get key_eqb (KInt i) d with
      | Some v => Ok v
      | None => Raise KeyError
      end
  | VStr s =>
      match seq_pos (String.length s) i with
      | Some n => match String.get n s with
                  | Some c => Ok (VStr (String c EmptyString))
                  | None => Raise IndexError
                  end
      | None => Raise IndexError
      end
  | _ => Raise TypeError
  end.

(** [x[i] = v] for an integer [i]. *)
Definition py_setidx (i : Z) (v : value) (x : value) : result value :=
  match x with
  | VList l =>
      match seq_pos (List.length l) i with
      | Some n => Ok (VList (list_set n v l))
      | None => Raise IndexError
      end
  | VDict d => Ok (VDict (assoc_set key_eqb (KInt i) v d))
  | _ => Raise TypeError
  end.

(** [x.append(v)] *)
Definition py_append (v : value) (x : value) : result value :=
  match x with
  | VList l => Ok (VList (l ++ [v]))
  | _ => Raise AttributeError
  end.

(** [len(x) <= idx] *)
Definition py_len_le (x idx : value) : result bool :=
  n <- py_len x ;;
  match as_int idx with
  | Some i => Ok (n <=? i)
  | None => Raise TypeError
  end.

(** [x.copy()]: the same tree; only lists and dicts have the method. *)
Definition py_copy (x : value) : result value :=
  match x with
  | VList _ | VDict _ => Ok x
  | _ => Raise AttributeError
  end.

(** [a == b] on slot values: booleans compare as the integers 0 and 1,
    lists pointwise, dicts as finite maps. *)
Fixpoint py_eq (a b : value) {struct a} : bool :=
  match a, b with
  | VNone, VNone => true
  | VStr s, VStr t => String.eqb s t
  | VList l, VList m =>
      (fix all2 (l : list value) (m : list value) {struct l} : bool :=
         match l, m with
         | [], [] => true
         | x :: l', y :: m' => (py_eq x y && all2 l' m')%bool
         | _, _ => false
         end) l m
  | VDict d, VDict e =>
      (Nat.eqb (List.length d) (List.length e)
       && (fix sub (d : list (key * value)) {struct d} : bool :=
             match d with
             | [] => true
             | (k, x) :: d' =>
                 (match assoc_get key_eqb k e with
                  | Some y => py_eq x y
                  | None => false
                  end && sub d')%bool
             end) d)%bool
  | (VBool _ | VInt _), (VBool _ | VInt _) =>
      match as_int a, as_int b with
      | Some x, Some y => x =? y
      | _, _ => false
      end
  | _, _ => false
  end.

End Py.

(** ** [src/engine/flow_runner.py] *)

Module FlowRunner.
Import Py.

(** *** Path grammar *)

(** [parts = path.split(".")] *)
Definition path_parts (path : string) : list string :=
  PyStr.split_on "."%char path.

(** ["[" in part and "]" in part] *)
Definition is_indexed (part : string) : bool :=
  (PyStr.contains "["%char part && PyStr.contains "]"%char part)%bool.

(** [key, idx_str = part.split("[")]: unpacking anything but two pieces
    is a ValueError, here [None]. *)
Definition split_bracket (part : string) : option (string * string) :=
  match PyStr.split_on "["%char part with
  | [key; idx_str] => Some (key, idx_str)
  | _ => None
  end.

(** [f"current_{key.rstrip('s')}_index"] *)
Definition idx_key1 (key : string) : string :=
  "current_" ++ PyStr.rstrip_char "s"%char key ++ "_index".

(** [f"{key}_current_index"] *)
Definition idx_key2 (key : string) : string := key ++ "_current_index".

(** *** TemplateRenderer._get_nested_value *)

(** The index of one bracketed segment of a read; [None] is the
    function's early [return None]. *)
Definition read_index (idx_str key : string) (current : value) : option value :=
  if String.eqb idx_str "current" then
    let idx :=
      match current with
      | VDict d =>
          if dict_mem (idx_key1 key) d then dict_get_none (idx_key1 key) d
          else if dict_mem (idx_key2 key) d then dict_get_none (idx_key2 key) d
          else VNone
      | _ => VNone
      end in
    match idx with
    | VNone => None
    | _ => Some idx
    end
  else
    match PyStr.py_int idx_str with
    | Some z => Some (VInt z)
    | None => None
    end.

(** The body of the [for part in parts] loop, one part per call. *)
Fixpoint get_parts (parts : list string) (current : value) : result value :=
  match parts with
  | [] => Ok current
  | part :: rest =>
      match current with
      | VNone => Ok VNone
      | _ =>
          if is_indexed part then
            match split_bracket part with
            | None => Raise ValueError
            | Some (key, idx_str0) =>
                let idx_str := PyStr.rstrip_char "]"%char idx_str0 in
                match read_index idx_str key current with
                | None => Ok VNone
                | Some idx =>
                    let current1 :=
                      match current with
                      | VDict d => dict_get_none key d
                      | _ => current
                      end in
                    match current1, as_int idx with
                    | VList l, Some i =>
                        if ((0 <=? i) && (i <? Z.of_nat (List.length l)))%bool
                        then match nth_error l (Z.to_nat i) with
                             | Some v => get_parts rest v
                             | None => Ok VNone
                             end
                        else Ok VNone
                    | _, _ => Ok VNone
                    end
                end
            end
          else
            match current with
            | VDict d => get_parts rest (dict_get_none part d)
            | _ => Ok VNone
            end
      end
  end.

Definition _get_nested_value (data : value) (path : string) : result value :=
  get_parts (path_parts path) data.

(** *** SlotWriter.write *)

(** How a mutating call ended. *)
Inductive outcome : Type :=
| Returned
| Raised (e : exn).

(** [resolve_index(idx_str, key, context)] *)
Definition resolve_index (idx_str key : string) (context : value) : result value :=
  if String.eqb idx_str "current" then
    b1 <- py_contains (idx_key1 key) context ;;
    if b1 : bool then py_getitem (idx_key1 key) context
    else
      b2 <- py_contains (idx_key2 key) context ;;
      if b2 : bool then py_getitem (idx_key2 key) context
      else Raise ValueError
  else
    match PyStr.py_int idx_str with
    | Some z => Ok (VInt z)
    | None => Raise ValueError
    end.

(** [if key not in current: current[key] = dflt] *)
Definition ensure_key (key : string) (dflt : value) (current : value) : result value :=
  b <- py_contains key current ;;
  if b : bool then Ok current else py_setitem key dflt current.

(** [while len(x) <= idx: x.append(filler)], where [x] is
    [current[key]].  The number of iterations is bounded by [n]. *)
Fixpoint extend_loop (n : nat) (filler idx : value) (x : value) : result value :=
  b <- py_len_le x idx ;;
  if b : bool then
    match n with
    | O => Ok x
    | S n' => x' <- py_append filler x ;; extend_loop n' filler idx x'
    end
  else Ok x.

(** The iterations the loop can need: [idx + 1 - len(x)]. *)
Definition extend_bound (idx : value) (x : value) : nat :=
  match as_int idx, py_len x with
  | Some i, Ok n => Z.to_nat (i + 1 - n)
  | _, _ => O
  end.

Definition extend (filler idx : value) (x : value) : result value :=
  extend_loop (extend_bound idx x) filler idx x.

(** [x[idx]] and [x[idx] = v] for an index that is a slot value. *)
Definition py_getidx_v (idx : value) (x : value) : result value :=
  match as_int idx with
  | Some i => py_getidx i x
  | None => Raise TypeError
  end.

Definition py_setidx_v (idx : value) (v : value) (x : value) : result value :=
  match as_int idx with
  | Some i => py_setidx i v x
  | None => Raise TypeError
  end.

(** The child [current[key][idx]] after it was mutated in place. *)
Definition put_child (key : string) (idx : value) (child : value) (x current : value) : value :=
  match py_setidx_v idx child x with
  | Ok x' => match py_setitem key x' current with
             | Ok current' => current'
             | Raise _ => current
             end
  | Raise _ => current
  end.

(** What a bracketed segment does before it uses [current[key][idx]]:
    split, resolve the index, create the list, extend it. *)
Inductive opened : Type :=
| Stop (o : outcome) (current : value)
| Open (key : string) (idx : value) (x : value) (current : value).

Definition open_index (filler : value) (part : string) (current : value) : opened :=
  match split_bracket part with
  | None => Stop (Raised ValueError) current
  | Some (key, idx_str0) =>
      let idx_str := PyStr.rstrip_char "]"%char idx_str0 in
      match resolve_index idx_str key current with
      | Raise ValueError => Stop Returned current
      | Raise e => Stop (Raised e) current
      | Ok idx =>
          match ensure_key key (VList []) current with
          | Raise e => Stop (Raised e) current
          | Ok current1 =>
              match py_getitem key current1 with
              | Raise e => Stop (Raised e) current1
              | Ok x =>
                  match extend filler idx x with
                  | Raise e => Stop (Raised e) current1
                  | Ok x' =>
                      match py_setitem key x' current1 with
                      | Raise e => Stop (Raised e) current1
                      | Ok current2 => Open key idx x' current2
                      end
                  end
              end
          end
      end
  end.

(** The last part: [current[key][idx] = value], or append, or set. *)
Definition write_final (final_key : string) (v : value) (current : value) : outcome * value :=
  if is_indexed final_key then
    match open_index VNone final_key current with
    | Stop o c => (o, c)
    | Open key idx x current2 =>
        match py_setidx_v idx v x with
        | Raise e => (Raised e, current2)
        | Ok x' =>
            match py_setitem key x' current2 with
            | Raise e => (Raised e, current2)
            | Ok current3 => (Returned, current3)
            end
        end
    end
  else
    match py_contains final_key current with
    | Raise e => (Raised e, current)
    | Ok false =>
        match py_setitem final_key v current with
        | Raise e => (Raised e, current)
        | Ok c => (Returned, c)
        end
    | Ok true =>
        match py_getitem final_key current with
        | Raise e => (Raised e, current)
        | Ok x =>
            if (is_list x && negb (is_list v))%bool then
              match py_append v x with
              | Raise e => (Raised e, current)
              | Ok x' =>
                  match py_setitem final_key x' current with
                  | Raise e => (Raised e, current)
                  | Ok c => (Returned, c)
                  end
              end
            else
              match py_setitem final_key v current with
              | Raise e => (Raised e, current)
              | Ok c => (Returned, c)
              end
        end
    end.

(** [for i, part in enumerate(parts[:-1])], then the final part.  The
    result is how the call ended and the container as it then is. *)
Fixpoint write_parts (parts : list string) (v : value) (current : value) : outcome * value :=
  match parts with
  | [] => (Returned, current)
  | [final_key] => write_final final_key v current
  | part :: (next_part :: _) as rest =>
      if is_indexed part then
        match open_index (VDict []) part current with
        | Stop o c => (o, c)
        | Open key idx x current2 =>
            match py_getidx_v idx x with
            | Raise e => (Raised e, current2)
            | Ok child =>
                let (o, child') := write_parts rest v child in
                (o, put_child key idx child' x current2)
            end
        end
      else
        let dflt :=
          if (PyStr.nonempty next_part && PyStr.contains "["%char next_part)%bool
          then VList [] else VDict [] in
        match ensure_key part dflt current with
        | Raise e => (Raised e, current)
        | Ok current1 =>
            match py_getitem part current1 with
            | Raise e => (Raised e, current1)
            | Ok child =>
                let (o, child') := write_parts rest v child in
                (o, match py_setitem part child' current1 with
                    | Ok c => c
                    | Raise _ => current1
                    end)
            end
        end
  end.

(** [SlotWriter.write(slots, save_to, value)] *)
Definition write (slots : value) (save_to : string) (v : value) : outcome * value :=
  if PyStr.nonempty save_to
  then write_parts (path_parts save_to) v slots
  else (Returned, slots).

(** *** TemplateRenderer.render *)

Definition hex_digit (n : N) : ascii :=
  if N.ltb n 10 then ascii_of_N (48 + n) else ascii_of_N (87 + n).

(** One character inside a JSON string, as [json.dumps] escapes it. *)
Definition json_char (c : ascii) : string :=
  let n := PyStr.code c in
  if N.eqb n 34 then String "\"%char (String c EmptyString)
  else if N.eqb n 92 then "\\"
  else if N.eqb n 10 then "\n"
  else if N.eqb n 13 then "\r"
  else if N.eqb n 9 then "\t"
  else if N.eqb n 8 then "\b"
  else if N.eqb n 12 then "\f"
  else if (N.ltb n 32 || N.ltb 126 n)%bool
       then "\u00" ++ String (hex_digit (N.div n 16))
                        (String (hex_digit (N.modulo n 16)) EmptyString)
       else String c EmptyString.

Fixpoint json_chars (s : string) : string :=
  match s with
  | EmptyString => EmptyString
  | String c s' => json_char c ++ json_chars s'
  end.

Definition json_string (s : string) : string :=
  String "034"%char (json_chars s) ++ String "034"%char EmptyString.

Definition json_key (k : key) : string :=
  match k with
  | KStr s => json_string s
  | KInt z => json_string (PyStr.of_Z z)
  end.

(** [json.dumps(v)] with the default separators. *)
Fixpoint json_dumps (v : value) : string :=
  match v with
  | VNone => "null"
  | VBool true => "true"
  | VBool false => "false"
  | VInt z => PyStr.of_Z z
  | VStr s => json_string s
  | VList l =>
      "[" ++ (fix items (l : list value) : string :=
                match l with
                | [] => EmptyString
                | [x] => json_dumps x
                | x :: l' => json_dumps x ++ ", " ++ items l'
                end) l ++ "]"
  | VDict d =>
      "{" ++ (fix items (d : list (key * value)) : string :=
                match d with
                | [] => EmptyString
                | [(k, x)] => json_key k ++ ": " ++ json_dumps x
                | (k, x) :: d' => json_key k ++ ": " ++ json_dumps x ++ ", " ++ items d'
                end) d ++ "}"
  end.

(** [str(v)] *)
Definition py_str (v : value) : string :=
  match v with
  | VNone => "None"
  | VBool true => "True"
  | VBool false => "False"
  | VInt z => PyStr.of_Z z
  | VStr s => s
  | _ => json_dumps v
  end.

(** [replacer(match)], given the text of group 1. *)
Definition replacer (slots : value) (group : string) : result string :=
  let path := PyStr.strip group in
  v <- _get_nested_value slots path ;;
  match v with
  | VNone => Ok ("[" ++ path ++ "]")
  | VList _ | VDict _ => Ok (json_dumps v)
  | _ => Ok (py_str v)
  end.

(** The longest prefix without a closing brace, and what follows it. *)
Fixpoint span_group (s : string) : string * string :=
  match s with
  | EmptyString => (EmptyString, EmptyString)
  | String c s' =>
      if Ascii.eqb c "}"%char then (EmptyString, s)
      else let (g, r) := span_group s' in (String c g, r)
  end.

(** A match of [\{\{([^}]+)\}\}] at the start of [s]: group 1 and the
    length of the whole match. *)
Definition match_here (s : string) : option (string * nat) :=
  match s with
  | String "{"%char (String "{"%char s') =>
      match span_group s' with
      | (String c g, String "}"%char (String "}"%char _)) =>
          Some (String c g, (String.length (String c g) + 4)%nat)
      | _ => None
      end
  | _ => None
  end.

(** [re.sub(pattern, replacer, template)]: leftmost matches, left to
    right, not overlapping; [skip] characters of a match remain. *)
Fixpoint sub_scan (slots : value) (skip : nat) (s : string) : result string :=
  match s with
  | EmptyString => Ok EmptyString
  | String c s' =>
      match skip with
      | S k => sub_scan slots k s'
      | O =>
          match match_here s with
          | Some (group, len) =>
              r <- replacer slots group ;;
              rest <- sub_scan slots (len - 1) s' ;;
              Ok (r ++ rest)
          | None =>
              rest <- sub_scan slots 0 s' ;;
              Ok (String c rest)
          end
      end
  end.

Definition render (template : string) (slots : value) : result string :=
  if PyStr.nonempty template then sub_scan slots 0 template else Ok EmptyString.

(** *** StageAdvancer._parse_yes_no *)

Definition yes_tokens : list string :=
  ["yes"; "y"; "yeah"; "yep"; "yup"; "sure"; "ok"; "okay";
   "k"; "great"; "good"; "fine"; "alright"; "right";
   "correct"; "true"; "accurate"; "affirmative"; "confirmed";
   "generally"; "mostly"].

Definition no_tokens : list string :=
  ["no"; "n"; "nope"; "nah"; "negative"; "incorrect"; "false"].

Definition mem (t : string) (l : list string) : bool :=
  existsb (String.eqb t) l.

(** [bool(a & b)] on token sets. *)
Definition intersects (a b : list string) : bool :=
  existsb (fun t => mem t b) a.

(** [Some true] is yes, [Some false] is no, [None] is unclear. *)
Definition _parse_yes_no (user_response : string) : option bool :=
  if negb (PyStr.nonempty user_response) then None else
  let raw := PyStr.lower (PyStr.strip user_response) in
  let cleaned := PyStr.strip (PyStr.sub_non_alnum false raw) in
  if negb (PyStr.nonempty cleaned) then None else
  let tokens := PyStr.words cleaned in
  let token_set := tokens in
  let t0 := hd EmptyString tokens in
  if mem t0 yes_tokens then Some true
  else if mem t0 no_tokens then Some false
  else if match tokens with
          | a :: b :: _ => (String.eqb a "i" && mem b ["guess"; "think"])%bool
          | _ => false
          end then Some true
  else if (String.eqb t0 "sounds" && mem "good" token_set)%bool then Some true
  else if (String.eqb t0 "looks" && mem "good" token_set)%bool then Some true
  else if (mem "not" token_set
           && (mem "accurate" token_set || mem "correct" token_set
               || mem "true" token_set))%bool then Some false
  else
    let yes_hits := intersects token_set yes_tokens in
    let no_hits := intersects token_set no_tokens in
    if (yes_hits && negb no_hits)%bool then Some true
    else if (no_hits && negb yes_hits)%bool then Some false
    else None.

(** *** Stage definitions

    A stage is the JSON object of the flow file, read through [.get]:
    a field is [None] when the key is absent.  Fields hold the types the
    flow schema gives them. *)

Record criterion : Type := {
  c_slot : option string;
  c_required : option bool;
  c_min_items : option Z;
  c_max_items : option Z
}.

(** [b_equals] is [when["action_result_equals"].get("value")] when the
    branch has that condition. *)
Record branch : Type := {
  b_equals : option value;
  b_next : option string
}.

Record clarify_rule : Type := {
  r_condition : option string;
  r_follow_up : option string
}.

Record question : Type := {
  q_id : option string;
  q_ask : option string;
  q_save_to : option string;
  q_clarify_if : option (list clarify_rule)
}.

Record stage : Type := {
  s_id : option string;
  s_type : option string;
  s_next : option string;
  s_on_yes : option string;
  s_on_no : option string;
  s_on_pass : option string;
  s_on_fail : option string;
  s_on_stop : option string;
  s_criteria : list criterion;
  s_branches : list branch;
  s_questions : list question;
  s_action : option string;
  s_save_to : option string;
  s_prompt : option string;
  s_ask : option string;
  s_summary_template : option string;
  s_signal_slot : option string
}.

(** [d.get(k, dflt)] on an optional field. *)
Definition get_or {A : Type} (dflt : A) (o : option A) : A :=
  match o with Some a => a | None => dflt end.

(** Python's [str(x)] of an optional string field. *)
Definition str_opt (o : option string) : string := get_or "None" o.

(** *** StageAdvancer._check_gate_criteria *)

Fixpoint _check_gate_criteria (criteria : list criterion) (slots : value) : result bool :=
  match criteria with
  | [] => Ok true
  | criterion :: rest =>
      let required := get_or true (c_required criterion) in
      value <- match c_slot criterion with
               | Some slot_path => _get_nested_value slots slot_path
               | None => Raise AttributeError
               end ;;
      if (required && match value with VNone => true | _ => false end)%bool
      then Ok false
      else if match c_min_items criterion with
              | Some min_items =>
                  match value with
                  | VList l => Z.of_nat (List.length l) <? min_items
                  | _ => true
                  end
              | None => false
              end then Ok false
      else if match c_max_items criterion with
              | Some max_items =>
                  match value with
                  | VList l => max_items <? Z.of_nat (List.length l)
                  | _ => false
                  end
              | None => false
              end then Ok false
      else _check_gate_criteria rest slots
  end.

(** *** StageAdvancer.get_next_stage *)

Definition get_next_stage (stage : stage) (slots : value)
    (user_response : option string) : result string :=
  let stage_type := s_type stage in
  if match stage_type with
     | Some t => mem t ["message"; "questions"; "action"; "output"]
     | None => false
     end then
    match s_next stage with
    | Some next_stage =>
        if PyStr.nonempty next_stage then Ok next_stage
        else Raise (FlowRunnerError
                      ("Stage " ++ str_opt (s_id stage) ++ " missing 'next' field"))
    | None => Raise (FlowRunnerError
                       ("Stage " ++ str_opt (s_id stage) ++ " missing 'next' field"))
    end
  else if match stage_type with Some t => String.eqb t "confirm" | None => false end then
    let response :=
      match user_response with
      | Some r => if PyStr.nonempty r then r else EmptyString
      | None => EmptyString
      end in
    match _parse_yes_no response with
    | Some true => Ok (get_or "end" (s_on_yes stage))
    | Some false => Ok (get_or "end" (s_on_no stage))
    | None => Ok (get_or "end" (s_id stage))
    end
  else if match stage_type with Some t => String.eqb t "gate" | None => false end then
    passed <- _check_gate_criteria (s_criteria stage) slots ;;
    if passed : bool then Ok (get_or "end" (s_on_pass stage))
    else Ok (get_or "end" (s_on_fail stage))
  else if match stage_type with Some t => String.eqb t "branch" | None => false end then
    match s_branches stage with
    | b :: _ => Ok (get_or "end" (b_next b))
    | [] => Ok "end"
    end
  else if match stage_type with Some t => String.eqb t "loop" | None => false end then
    Ok (get_or "end" (s_next stage))
  else Ok "end".

End FlowRunner.

(** ** [src/nodes/interview_nodes.py] *)

Module Nodes.
Import Py FlowRunner.

(** *** Session state ([src/state/interview_state.py]) *)

Inductive message : Type :=
| HumanMessage (content : string)
| AIMessage (content : string)
| OtherMessage (content : string).

(** The pending question or confirm: a dict, one optional field per
    key.  [p_save_to] is [Some None] when the key holds [None]. *)
Record pending : Type := {
  p_question_id : option (option string);
  p_save_to : option (option string);
  p_ask : option string;
  p_clarify_if : option (list clarify_rule);
  p_question_index : option Z;
  p_is_clarifying : option bool;
  p_original_answer : option string;
  p_confirm_id : option (option string);
  p_summary_template : option string;
  p_on_yes : option (option string);
  p_on_no : option (option string)
}.

Definition some {A : Type} (o : option A) : bool :=
  match o with Some _ => true | None => false end.

(** Truth value of the pending dict: it has a key. *)
Definition pending_truthy (p : pending) : bool :=
  (some (p_question_id p) || some (p_save_to p) || some (p_ask p)
   || some (p_clarify_if p) || some (p_question_index p)
   || some (p_is_clarifying p) || some (p_original_answer p)
   || some (p_confirm_id p) || some (p_summary_template p)
   || some (p_on_yes p) || some (p_on_no p))%bool.

Definition cursor : Type := list (string * Z).

Definition cursor_get (k : string) (dflt : Z) (c : cursor) : Z :=
  match assoc_get String.eqb k c with Some z => z | None => dflt end.

Definition cursor_set (k : string) (z : Z) (c : cursor) : cursor :=
  assoc_set String.eqb k z c.

Definition cursor_pop (k : string) (c : cursor) : cursor :=
  assoc_pop String.eqb k c.

Definition cursor_mem (k : string) (c : cursor) : bool :=
  assoc_mem String.eqb k c.

Record state : Type := {
  messages : list message;
  flow_id : string;
  active_stage_id : string;
  slots : value;
  st_pending : option pending;
  question_cursor : cursor;
  retry_count : option Z;
  auto_advance_count : option Z;
  max_auto_advance_steps : option Z
}.

(** Trace events, one constructor per [kind]. *)
Inductive event : Type :=
| clarify_requested (stage_id : string) (save_to : option string)
    (condition : string) (follow_up : string)
| answer_ingested (stage_id : string) (stage_type : option string)
    (save_to : option string) (advanced_within_stage : bool)
    (next_question_index : option Z) (next_stage_id : option string)
| confirm_ingested (stage_id : string) (user_text : string) (next_stage_id : string)
| answer_ignored (stage_id : string)
| auto_advance_stop (stage_id : string) (stage_type : option string)
| stage_advanced (stage_id : string) (stage_type : option string)
    (next_stage_id : string) (note : option string)
| action_executed (stage_id : string) (action : string)
    (action_result : value) (save_to : option string)
| question_cursors_reset (stage_id : string)
| gate_routed (stage_id : string) (next_stage_id : string)
| branch_routed (stage_id : string) (last_action_result : value)
    (next_stage_id : string)
| loop_exit (stage_id : string)
| auto_advance_summary (steps max_steps : Z)
| loop_detected_force_advance (stage_id : string) (next_stage_id : string)
| prompt_rendered (stage_id : string) (pending_type : option string)
    (note : option string).

(** The session's error field: [f"{what}: {str(e)}"], or a message. *)
Inductive error : Type :=
| Failed (what : string) (e : exn)
| Message (msg : string).

(** The dict a node returns: the keys it sets. *)
Record update : Type := {
  u_messages : list message;
  u_events : list event;
  u_pending : option (option pending);
  u_slots : option value;
  u_question_cursor : option cursor;
  u_active_stage_id : option string;
  u_auto_advance_count : option Z;
  u_error : option error;
  u_retry_count : option Z
}.

Definition no_update : update :=
  {| u_messages := []; u_events := []; u_pending := None; u_slots := None;
     u_question_cursor := None; u_active_stage_id := None;
     u_auto_advance_count := None; u_error := None; u_retry_count := None |}.

(** [except Exception as e: return {"error": ..., "retry_count": ...}] *)
Definition on_exception (what : string) (st : state) (r : result update) : update :=
  match r with
  | Ok u => u
  | Raise e =>
      {| u_messages := []; u_events := []; u_pending := None; u_slots := None;
         u_question_cursor := None; u_active_stage_id := None;
         u_auto_advance_count := None;
         u_error := Some (Failed what e);
         u_retry_count := Some (get_or 0 (retry_count st) + 1) |}
  end.

(** *** FlowLoader *)

Record flow_def : Type := {
  stages : list stage;
  context_slots : value
}.

(** A flow file as the loader finds it. *)
Inductive flow_file : Type :=
| Missing
| Invalid (err : string)
| Parsed (f : flow_def).

(** [l[idx]] on a Python list: negative indices count from the end. *)
Definition py_index_list {A : Type} (idx : Z) (l : list A) : result A :=
  match seq_pos (List.length l) idx with
  | Some n => match nth_error l n with
              | Some a => Ok a
              | None => Raise IndexError
              end
  | None => Raise IndexError
  end.

Definition flow_files : list (string * string) :=
  [("intake_sipoc_v1", "Flow_A_intake_sipoc_v1.json");
   ("current_state_mapping_v1", "Flow_B_current_state_mapping_v1.json");
   ("outputs_v1", "Flow_C_outputs_v1.json");
   ("current_state_discovery_complete_v1", "composed_master_flow.json")].

Section Engine.

(** The flow directory, and the action registry of
    [src/actions/workflow_actions.py]: [execute_action name slots
    user_response] returns the updated slots and a result code. *)
Variable disk : string -> flow_file.
Variable execute_action : string -> value -> string -> result (value * value).

Definition load_flow (flow_id : string) : result flow_def :=
  match assoc_get String.eqb flow_id flow_files with
  | None => Raise (FlowRunnerError ("Unknown flow_id: " ++ flow_id))
  | Some filename =>
      match disk filename with
      | Missing => Raise (FlowRunnerError ("Flow file not found: flows/" ++ filename))
      | Invalid err =>
          Raise (FlowRunnerError ("Invalid JSON in flows/" ++ filename ++ ": " ++ err))
      | Parsed f => Ok f
      end
  end.

Fixpoint find_stage (stage_id : string) (l : list stage) : option stage :=
  match l with
  | [] => None
  | stage :: l' =>
      match s_id stage with
      | Some i => if String.eqb i stage_id then Some stage else find_stage stage_id l'
      | None => find_stage stage_id l'
      end
  end.

Definition get_stage (flow_id stage_id : string) : result stage :=
  flow <- load_flow flow_id ;;
  match find_stage stage_id (stages flow) with
  | Some stage => Ok stage
  | None => Raise (FlowRunnerError
                     ("Stage '" ++ stage_id ++ "' not found in flow '" ++ flow_id ++ "'"))
  end.

(** *** _should_clarify *)

Definition vague_words : list string :=
  ["maybe"; "sort of"; "kind of"; "i think"; "not sure"; "dunno"; "idk"; "probably"].

Definition clear_responses : list string :=
  ["no"; "yes"; "y"; "n"; "nope"; "yep"; "yeah"; "nah";
   "no."; "yes."; "no decision"; "none"; "n/a"; "na";
   "not applicable"; "there is no"; "there's no"].

Definition _should_clarify (user_text condition : string) : bool :=
  if negb (PyStr.nonempty user_text) then true else
  let text := PyStr.strip user_text in
  if String.eqb condition "empty_or_too_short" then
    (Z.of_nat (String.length text) <? 5)
  else if String.eqb condition "vague" then
    let lower_text := PyStr.lower text in
    if (mem lower_text clear_responses
        || existsb (fun resp => PyStr.is_infix resp lower_text) clear_responses)%bool
    then false
    else existsb (fun word => PyStr.is_infix word lower_text) vague_words
  else if String.eqb condition "unclear_yes_no" then
    match _parse_yes_no text with
    | None => true
    | Some _ => false
    end
  else false.

(** *** ingest_user_answer_node *)

(** The [for clarify_rule in clarify_if] loop: the condition and the
    follow-up of the first rule that asks for clarification. *)
Fixpoint first_clarify (user_text : string) (rules : list clarify_rule)
    : option (string * string) :=
  match rules with
  | [] => None
  | clarify_rule :: rest =>
      let condition := get_or EmptyString (r_condition clarify_rule) in
      if _should_clarify user_text condition
      then Some (condition,
                 get_or "Can you provide more detail?" (r_follow_up clarify_rule))
      else first_clarify user_text rest
  end.

(** [SlotWriter.write(slots, save_to, value)] from the node: a raise
    leaves the node through its [except]. *)
Definition write_slot (slots : value) (save_to : option string) (v : value) : result value :=
  match save_to with
  | None => Ok slots
  | Some path =>
      match write slots path v with
      | (Returned, slots') => Ok slots'
      | (Raised e, _) => Raise e
      end
  end.

Definition set_clarifying (p : pending) (flag : bool) (original : option string) : pending :=
  {| p_question_id := p_question_id p; p_save_to := p_save_to p;
     p_ask := p_ask p; p_clarify_if := p_clarify_if p;
     p_question_index := p_question_index p;
     p_is_clarifying := Some flag; p_original_answer := original;
     p_confirm_id := p_confirm_id p;
     p_summary_template := p_summary_template p;
     p_on_yes := p_on_yes p; p_on_no := p_on_no p |}.

(** The part of the node after the answer was written. *)
Definition ingest_advance (st : state) (stage : stage) (p : pending)
    (save_to : option string) (slots : value) : update :=
  let active_stage_id := active_stage_id st in
  let question_cursor := question_cursor st in
  let stage_type := s_type stage in
  if match stage_type with Some t => String.eqb t "questions" | None => false end then
    let idx := get_or (cursor_get active_stage_id 0 question_cursor)
                      (p_question_index p) in
    let next_idx := idx + 1 in
    let questions := s_questions stage in
    if next_idx <? Z.of_nat (List.length questions) then
      {| u_messages := [];
         u_events := [answer_ingested active_stage_id stage_type save_to true
                        (Some next_idx) None];
         u_pending := Some None;
         u_slots := Some slots;
         u_question_cursor := Some (cursor_set active_stage_id next_idx question_cursor);
         u_active_stage_id := None;
         u_auto_advance_count := None; u_error := None; u_retry_count := None |}
    else
      let next_stage := get_or "end" (s_next stage) in
      {| u_messages := [];
         u_events := [answer_ingested active_stage_id stage_type save_to false
                        None (Some next_stage)];
         u_pending := Some None;
         u_slots := Some slots;
         u_question_cursor := Some (cursor_set active_stage_id next_idx question_cursor);
         u_active_stage_id := Some next_stage;
         u_auto_advance_count := None; u_error := None; u_retry_count := None |}
  else
    {| u_messages := [];
       u_events := [answer_ingested active_stage_id stage_type save_to false None None];
       u_pending := Some None;
       u_slots := Some slots;
       u_question_cursor := Some question_cursor;
       u_active_stage_id := None;
       u_auto_advance_count := None; u_error := None; u_retry_count := None |}.

Definition ingest_body (st : state) : result update :=
  match last (map Some (messages st)) None with
  | Some (HumanMessage user_text) =>
      match st_pending st with
      | None => Ok no_update
      | Some p =>
          if negb (pending_truthy p) then Ok no_update else
          slots <- py_copy (slots st) ;;
          let active_stage_id := active_stage_id st in
          let question_cursor := question_cursor st in
          stage <- get_stage (flow_id st) active_stage_id ;;
          let stage_type := s_type stage in
          match p_save_to p with
          | Some save_to =>
              if get_or false (p_is_clarifying p) then
                let original_answer := get_or EmptyString (p_original_answer p) in
                let combined_answer :=
                  if PyStr.nonempty original_answer
                  then original_answer ++ String "010"%char user_text
                  else user_text in
                slots' <- write_slot slots save_to (VStr combined_answer) ;;
                Ok (ingest_advance st stage p save_to slots')
              else
                match first_clarify user_text (get_or [] (p_clarify_if p)) with
                | Some (condition, follow_up) =>
                    if PyStr.nonempty follow_up then
                      Ok {| u_messages := [AIMessage follow_up];
                            u_events := [clarify_requested active_stage_id save_to
                                           condition follow_up];
                            u_pending := Some (Some (set_clarifying p true (Some user_text)));
                            u_slots := Some slots;
                            u_question_cursor := Some question_cursor;
                            u_active_stage_id := None;
                            u_auto_advance_count := None;
                            u_error := None; u_retry_count := None |}
                    else
                      slots' <- write_slot slots save_to (VStr user_text) ;;
                      Ok (ingest_advance st stage p save_to slots')
                | None =>
                    slots' <- write_slot slots save_to (VStr user_text) ;;
                    Ok (ingest_advance st stage p save_to slots')
                end
          | None =>
              if match stage_type with Some t => String.eqb t "confirm" | None => false end then
                next_stage <- get_next_stage stage slots (Some user_text) ;;
                Ok {| u_messages := [];
                      u_events := [confirm_ingested active_stage_id user_text next_stage];
                      u_pending := Some None;
                      u_slots := Some slots;
                      u_question_cursor := Some question_cursor;
                      u_active_stage_id := Some next_stage;
                      u_auto_advance_count := None;
                      u_error := None; u_retry_count := None |}
              else
                Ok {| u_messages := [];
                      u_events := [answer_ignored active_stage_id];
                      u_pending := Some None;
                      u_slots := Some slots;
                      u_question_cursor := Some question_cursor;
                      u_active_stage_id := None;
                      u_auto_advance_count := None;
                      u_error := None; u_retry_count := None |}
          end
      end
  | _ => Ok no_update
  end.

Definition ingest_user_answer_node (st : state) : update :=
  on_exception "Failed to ingest answer" st (ingest_body st).

(** *** auto_advance_node *)

Definition stages_to_reset : list string :=
  ["workflow_ask_next_step";
   "workflow_step_capture__step_description";
   "workflow_step_capture__owner";
   "workflow_step_capture__inputs";
   "workflow_step_capture__outputs";
   "workflow_step_capture__systems";
   "workflow_step_capture__decision_wait_exception";
   "workflow_step_capture__wait_exception";
   "workflow_step_capture__decision_outcomes"].

(** [for stage_id in stages_to_reset: question_cursor.pop(stage_id, None)] *)
Definition reset_cursors (c : cursor) : cursor :=
  fold_left (fun c stage_id => cursor_pop stage_id c) stages_to_reset c.

(** [slots.get(k)] on the slots object. *)
Definition slots_get (k : string) (slots : value) : result value :=
  match slots with
  | VDict d => Ok (dict_get_none k d)
  | _ => Raise AttributeError
  end.

(** The [for branch in branches] loop of a branch stage. *)
Fixpoint route_branch (last_action_result : value) (branches : list branch)
    : option string :=
  match branches with
  | [] => None
  | branch :: rest =>
      match b_equals branch with
      | Some expected =>
          if py_eq expected last_action_result
          then Some (get_or "end" (b_next branch))
          else route_branch last_action_result rest
      | None => route_branch last_action_result rest
      end
  end.

(** What one iteration of the [while] loop does. *)
Inductive iteration : Type :=
| Break (events : list event)
| Continue (active_stage_id : string) (slots : value) (events : list event).

Definition is_type (t : string) (stage_type : option string) : bool :=
  match stage_type with Some u => String.eqb u t | None => false end.

Definition last_user_response (st : state) : string :=
  match last (map Some (messages st)) None with
  | Some (HumanMessage content) => content
  | _ => EmptyString
  end.

Definition loop_body (st : state) (active_stage_id : string) (slots : value)
    : result iteration :=
  stage <- get_stage (flow_id st) active_stage_id ;;
  let stage_type := s_type stage in
  if (is_type "questions" stage_type || is_type "confirm" stage_type)%bool then
    Ok (Break [auto_advance_stop active_stage_id stage_type])
  else if String.eqb active_stage_id "end" then
    Ok (Break [auto_advance_stop "end" (Some "end")])
  else if is_type "message" stage_type then
    let next_stage := get_or "end" (s_next stage) in
    Ok (Continue next_stage slots
          [stage_advanced active_stage_id stage_type next_stage None])
  else if is_type "action" stage_type then
    let save_to := s_save_to stage in
    let user_response := last_user_response st in
    acted <-
      match s_action stage with
      | Some action_name =>
          if PyStr.nonempty action_name then
            r <- execute_action action_name slots user_response ;;
            let (updated_slots, action_result) := r : value * value in
            slots' <- py_setitem "_last_action_result" action_result updated_slots ;;
            Ok (slots',
                action_executed active_stage_id action_name action_result save_to
                :: (if String.eqb action_name "copy_next_step_to_buffer"
                    then [question_cursors_reset active_stage_id] else []))
          else Ok (slots, [])
      | None => Ok (slots, [])
      end ;;
    let (slots', events) := acted : value * list event in
    let next_stage := get_or "end" (s_next stage) in
    Ok (Continue next_stage slots'
          (events ++ [stage_advanced active_stage_id stage_type next_stage None]))
  else if is_type "gate" stage_type then
    next_stage <- get_next_stage stage slots None ;;
    Ok (Continue next_stage slots [gate_routed active_stage_id next_stage])
  else if is_type "branch" stage_type then
    last_action_result <- slots_get "_last_action_result" slots ;;
    let branches := s_branches stage in
    let next_stage :=
      match route_branch last_action_result branches with
      | Some n => n
      | None =>
          match branches with
          | b :: _ => get_or "end" (b_next b)
          | [] => "end"
          end
      end in
    Ok (Continue next_stage slots
          [branch_routed (get_or next_stage (s_id stage))
             last_action_result next_stage])
  else if is_type "loop" stage_type then
    should_exit_loop <-
      match s_signal_slot stage with
      | Some signal_slot =>
          if (PyStr.nonempty signal_slot
              && PyStr.is_infix "data_elements" signal_slot)%bool then
            params <- match slots with
                      | VDict d =>
                          Ok (match dict_get "process_parameters" d with
                              | Some v => v
                              | None => VDict []
                              end)
                      | _ => Raise AttributeError
                      end ;;
            current_idx <- slots_get "current_data_element_index" params ;;
            Ok (match current_idx with VNone => true | _ => false end)
          else Ok false
      | None => Ok false
      end ;;
    if should_exit_loop : bool then
      let next_stage := get_or "end" (s_on_stop stage) in
      Ok (Continue next_stage slots
            [loop_exit active_stage_id;
             stage_advanced active_stage_id stage_type next_stage (Some "loop_exited")])
    else
      let next_stage := get_or "end" (s_next stage) in
      Ok (Continue next_stage slots
            [stage_advanced active_stage_id stage_type next_stage (Some "loop_continue")])
  else if is_type "output" stage_type then
    let next_stage := get_or "end" (s_next stage) in
    Ok (Continue next_stage slots
          [stage_advanced active_stage_id stage_type next_stage None])
  else
    Ok (Break [auto_advance_stop active_stage_id stage_type]).

(** The outcome of the [while steps < max_steps] loop. *)
Record loop_end : Type := {
  le_active_stage_id : string;
  le_slots : value;
  le_events : list event;
  le_steps : Z
}.

(** [while steps < max_steps]: [budget] is [max_steps - steps], the
    iterations the guard still allows. *)
Fixpoint advance_loop (st : state) (budget : nat) (active_stage_id : string)
    (slots : value) (events : list event) (steps : Z) : result loop_end :=
  match budget with
  | O => Ok {| le_active_stage_id := active_stage_id; le_slots := slots;
               le_events := events; le_steps := steps |}
  | S budget' =>
      it <- loop_body st active_stage_id slots ;;
      match it with
      | Break evs =>
          Ok {| le_active_stage_id := active_stage_id; le_slots := slots;
                le_events := events ++ evs; le_steps := steps |}
      | Continue active' slots' evs =>
          advance_loop st budget' active' slots' (events ++ evs) (steps + 1)
      end
  end.

Definition is_reset (e : event) : bool :=
  match e with question_cursors_reset _ => true | _ => false end.

Definition max_steps_message (max_steps : Z) : string :=
  "Auto-advance exceeded max steps (" ++ PyStr.of_Z max_steps ++ ")".

Definition auto_advance_body (st : state) : result update :=
  let active_stage_id := active_stage_id st in
  slots <- py_copy (slots st) ;;
  let auto_advance_count := get_or 0 (auto_advance_count st) in
  let max_steps := get_or 50 (max_auto_advance_steps st) in
  le <- advance_loop st (Z.to_nat max_steps) active_stage_id slots [] 0 ;;
  let steps := le_steps le in
  if max_steps <=? steps then
    Ok {| u_messages := []; u_events := []; u_pending := None; u_slots := None;
          u_question_cursor := None; u_active_stage_id := None;
          u_auto_advance_count := None;
          u_error := Some (Message (max_steps_message max_steps));
          u_retry_count := Some (get_or 0 (retry_count st) + 1) |}
  else
    let events := le_events le in
    let reset_done := existsb is_reset events in
    Ok {| u_messages := [];
          u_events := events ++ [auto_advance_summary steps max_steps];
          u_pending := None;
          u_slots := Some (le_slots le);
          u_question_cursor :=
            if reset_done then Some (reset_cursors (question_cursor st)) else None;
          u_active_stage_id := Some (le_active_stage_id le);
          u_auto_advance_count := Some (auto_advance_count + steps);
          u_error := None; u_retry_count := None |}.

Definition auto_advance_node (st : state) : update :=
  on_exception "Auto-advance failed" st (auto_advance_body st).

(** *** _detect_loop *)

(** [messages[-n:]] *)
Definition last_n {A : Type} (n : nat) (l : list A) : list A :=
  skipn (List.length l - n) l.

(** The [for msg in reversed(messages[-20:])] loop: stripped contents
    of bot messages, newest first, at most [room] more of them. *)
Fixpoint collect_ai (room : nat) (msgs : list message) : list string :=
  match room with
  | O => []
  | S room' =>
      match msgs with
      | [] => []
      | AIMessage content :: rest => PyStr.strip content :: collect_ai room' rest
      | _ :: rest => collect_ai room rest
      end
  end.

Definition recent_ai_messages (st : state) : list string :=
  collect_ai 10 (rev (last_n 20 (messages st))).

(** [Counter(l)[m]] *)
Definition count_msg (m : string) (l : list string) : nat :=
  List.length (filter (String.eqb m) l).

Definition _detect_loop (st : state) : bool :=
  if (List.length (messages st) <? 6)%nat then false else
  let recent := recent_ai_messages st in
  if (List.length recent <? 3)%nat then false else
  existsb (fun msg => ((20 <? String.length msg)%nat
                       && (3 <=? count_msg msg recent)%nat)%bool) recent.

(** *** render_prompt_node *)

(** The transition message, 19 characters.  Its dash is U+2014, one
    character outside the modelled range; the code 151 stands for it. *)
Definition moving_on : string :=
  "Thanks " ++ String "151"%char " moving on.".

Definition render_body (st : state) : result update :=
  if _detect_loop st then
    let active_stage_id := active_stage_id st in
    stage <- get_stage (flow_id st) active_stage_id ;;
    let next_stage := get_or "end" (s_next stage) in
    Ok {| u_messages := [AIMessage moving_on];
          u_events := [loop_detected_force_advance active_stage_id next_stage];
          u_pending := Some None;
          u_slots := None; u_question_cursor := None;
          u_active_stage_id := Some next_stage;
          u_auto_advance_count := None; u_error := None; u_retry_count := None |}
  else
    let active_stage_id := active_stage_id st in
    let slots := slots st in
    let question_cursor := question_cursor st in
    if String.eqb active_stage_id "end" then
      stage <- get_stage (flow_id st) active_stage_id ;;
      let prompt := get_or "Interview complete. Thank you!" (s_prompt stage) in
      rendered <- render prompt slots ;;
      Ok {| u_messages := [AIMessage rendered];
            u_events := [prompt_rendered "end" None None];
            u_pending := Some None;
            u_slots := None; u_question_cursor := None; u_active_stage_id := None;
            u_auto_advance_count := None; u_error := None; u_retry_count := None |}
    else
      stage <- get_stage (flow_id st) active_stage_id ;;
      let stage_type := s_type stage in
      let unexpected :=
        {| u_messages := [AIMessage "Unexpected stage type. Please continue."];
           u_events := [prompt_rendered active_stage_id None (Some "unexpected")];
           u_pending := Some None;
           u_slots := None; u_question_cursor := None; u_active_stage_id := None;
           u_auto_advance_count := None; u_error := None; u_retry_count := None |} in
      if is_type "questions" stage_type then
        let questions := s_questions stage in
        match questions with
        | [] => Ok unexpected
        | _ =>
            let idx := cursor_get active_stage_id 0 question_cursor in
            if Z.of_nat (List.length questions) <=? idx then
              Ok {| u_messages := [AIMessage moving_on];
                    u_events := [prompt_rendered active_stage_id None
                                   (Some "questions_exhausted_safety_net")];
                    u_pending := Some None;
                    u_slots := None; u_question_cursor := None;
                    u_active_stage_id := Some (get_or "end" (s_next stage));
                    u_auto_advance_count := None;
                    u_error := None; u_retry_count := None |}
            else
              q <- py_index_list idx questions ;;
              let ask := get_or EmptyString (q_ask q) in
              rendered <- render ask slots ;;
              let pending :=
                {| p_question_id := Some (q_id q);
                   p_save_to := Some (q_save_to q);
                   p_ask := Some rendered;
                   p_clarify_if := Some (get_or [] (q_clarify_if q));
                   p_question_index := Some idx;
                   p_is_clarifying := None; p_original_answer := None;
                   p_confirm_id := None; p_summary_template := None;
                   p_on_yes := None; p_on_no := None |} in
              Ok {| u_messages := [AIMessage rendered];
                    u_events := [prompt_rendered active_stage_id (Some "question") None];
                    u_pending := Some (Some pending);
                    u_slots := None; u_question_cursor := None;
                    u_active_stage_id := None;
                    u_auto_advance_count := None;
                    u_error := None; u_retry_count := None |}
        end
      else if is_type "confirm" stage_type then
        let summary_template := get_or EmptyString (s_summary_template stage) in
        let ask := get_or "Is this correct?" (s_ask stage) in
        summary <- render summary_template slots ;;
        let nl := String "010"%char EmptyString in
        let full_prompt := summary ++ nl ++ nl ++ ask in
        let pending :=
          {| p_question_id := None; p_save_to := None;
             p_ask := Some ask;
             p_clarify_if := None; p_question_index := None;
             p_is_clarifying := None; p_original_answer := None;
             p_confirm_id := Some (s_id stage);
             p_summary_template := Some summary_template;
             p_on_yes := Some (s_on_yes stage);
             p_on_no := Some (s_on_no stage) |} in
        Ok {| u_messages := [AIMessage full_prompt];
              u_events := [prompt_rendered active_stage_id (Some "confirm") None];
              u_pending := Some (Some pending);
              u_slots := None; u_question_cursor := None; u_active_stage_id := None;
              u_auto_advance_count := None; u_error := None; u_retry_count := None |}
      else Ok unexpected.

Definition render_prompt_node (st : state) : update :=
  on_exception "Failed to render prompt" st (render_body st).

(** *** The state after a node: its update merged in *)

Definition apply_update (st : state) (u : update) : state :=
  {| messages := messages st ++ u_messages u;
     flow_id := flow_id st;
     active_stage_id := get_or (active_stage_id st) (u_active_stage_id u);
     slots := get_or (slots st) (u_slots u);
     st_pending := get_or (st_pending st) (u_pending u);
     question_cursor := get_or (question_cursor st) (u_question_cursor u);
     retry_count := match u_retry_count u with
                    | Some n => Some n
                    | None => retry_count st
                    end;
     auto_advance_count := match u_auto_advance_count u with
                           | Some n => Some n
                           | None => auto_advance_count st
                           end;
     max_auto_advance_steps := max_auto_advance_steps st |}.

End Engine.

End Nodes.

(** ** Sample data for the scenarios of the specification *)

Module Samples.
Import Py FlowRunner Nodes.

Definition with_kind (id type : string) (next : option string) : stage :=
  {| s_id := Some id; s_type := Some type; s_next := next;
     s_on_yes := None; s_on_no := None; s_on_pass := None; s_on_fail := None;
     s_on_stop := None; s_criteria := []; s_branches := []; s_questions := [];
     s_action := None; s_save_to := None; s_prompt := None; s_ask := None;
     s_summary_template := None; s_signal_slot := None |}.

(** The confirm stage of the first boundary scenario. *)
Definition confirm_stage : stage :=
  {| s_id := Some "sipoc_confirm"; s_type := Some "confirm"; s_next := None;
     s_on_yes := Some "end"; s_on_no := Some "retry";
     s_on_pass := None; s_on_fail := None;
     s_on_stop := None; s_criteria := []; s_branches := []; s_questions := [];
     s_action := None; s_save_to := None; s_prompt := None; s_ask := None;
     s_summary_template := None; s_signal_slot := None |}.

(** A gate whose single criterion names a slot and nothing else. *)
Definition bare_criterion : criterion :=
  {| c_slot := Some "engagement.process_name"; c_required := None;
     c_min_items := None; c_max_items := None |}.

Definition gate_stage : stage :=
  {| s_id := Some "name_gate"; s_type := Some "gate"; s_next := None;
     s_on_yes := None; s_on_no := None;
     s_on_pass := Some "summary"; s_on_fail := Some "engagement_context";
     s_on_stop := None; s_criteria := [bare_criterion]; s_branches := [];
     s_questions := [];
     s_action := None; s_save_to := None; s_prompt := None; s_ask := None;
     s_summary_template := None; s_signal_slot := None |}.

(** A flow directory with one flow: a welcome message, then a
    three-question stage, then a confirm. *)
Definition question_n (id save_to : string) : question :=
  {| q_id := Some id; q_ask := Some ("Tell me about " ++ id);
     q_save_to := Some save_to; q_clarify_if := None |}.

Definition context_stage : stage :=
  {| s_id := Some "engagement_context"; s_type := Some "questions";
     s_next := Some "sipoc_confirm";
     s_on_yes := None; s_on_no := None; s_on_pass := None; s_on_fail := None;
     s_on_stop := None; s_criteria := []; s_branches := [];
     s_questions := [question_n "process_name" "engagement.process_name";
                     question_n "organization_type" "engagement.organization_type";
                     question_n "sponsor" "engagement.sponsor"];
     s_action := None; s_save_to := None; s_prompt := None; s_ask := None;
     s_summary_template := None; s_signal_slot := None |}.

Definition intake_flow : flow_def :=
  {| stages := [with_kind "welcome" "message" (Some "engagement_context");
                context_stage; confirm_stage;
                with_kind "end" "message" None];
     context_slots := VDict [(KStr "engagement", VDict [])] |}.

(** A flow whose two message stages point at each other. *)
Definition cyclic_flow : flow_def :=
  {| stages := [with_kind "welcome" "message" (Some "again");
                with_kind "again" "message" (Some "welcome")];
     context_slots := VDict [] |}.

Definition disk (filename : string) : flow_file :=
  if String.eqb filename "Flow_A_intake_sipoc_v1.json" then Parsed intake_flow
  else if String.eqb filename "Flow_C_outputs_v1.json" then Parsed cyclic_flow
  else Missing.

Definition execute_action (name : string) (slots : value) (user_response : string)
    : result (value * value) :=
  Ok (slots, VStr "success").

Definition start_state (flow : string) : state :=
  {| messages := []; flow_id := flow; active_stage_id := "welcome";
     slots := VDict [(KStr "engagement", VDict [])];
     st_pending := None; question_cursor := [];
     retry_count := Some 0; auto_advance_count := Some 0;
     max_auto_advance_steps := Some 50 |}.

Definition question_pending (save_to : string) (index : Z)
    (rules : list clarify_rule) : pending :=
  {| p_question_id := Some (Some "sponsor");
     p_save_to := Some (Some save_to);
     p_ask := Some "Tell me about sponsor";
     p_clarify_if := Some rules;
     p_question_index := Some index;
     p_is_clarifying := None; p_original_answer := None;
     p_confirm_id := None; p_summary_template := None;
     p_on_yes := None; p_on_no := None |}.

(** The session in the questions stage, its cursor at [index], the
    question of that index pending, [history] as its messages. *)
Definition asking (history : list message) (index : Z)
    (rules : list clarify_rule) : state :=
  {| messages := history; flow_id := "intake_sipoc_v1";
     active_stage_id := "engagement_context";
     slots := VDict [(KStr "engagement", VDict [])];
     st_pending := Some (question_pending "engagement.sponsor" index rules);
     question_cursor := [("engagement_context", index)];
     retry_count := Some 0; auto_advance_count := Some 0;
     max_auto_advance_steps := Some 50 |}.

Definition too_short (follow_up : string) : clarify_rule :=
  {| r_condition := Some "empty_or_too_short"; r_follow_up := Some follow_up |}.

(** The prompt of the first question, 26 characters. *)
Definition stuck_prompt : string := "Tell me about process_name".

End Samples.

(** ** Vocabulary of the properties *)

Module Spec.
Import Py FlowRunner Nodes.

(** The events that record one processed non-interactive stage. *)
Definition is_step (e : event) : bool :=
  match e with
  | stage_advanced _ _ _ _ | gate_routed _ _ | branch_routed _ _ _ => true
  | _ => false
  end.

Definition count_steps (events : list event) : nat :=
  List.length (filter is_step events).

(** The text ingest writes to [save_to] for a pending question: the
    combined answer in clarification mode, the raw answer otherwise;
    [None] when the turn asks for clarification instead. *)
Definition answer_written (p : pending) (user_text : string) : option string :=
  if get_or false (p_is_clarifying p) then
    let original_answer := get_or EmptyString (p_original_answer p) in
    Some (if PyStr.nonempty original_answer
          then original_answer ++ String "010"%char user_text
          else user_text)
  else
    match first_clarify user_text (get_or [] (p_clarify_if p)) with
    | Some (_, follow_up) =>
        if PyStr.nonempty follow_up then None else Some user_text
    | None => Some user_text
    end.

(** The integer that the index of a bracketed segment resolves to in
    the mapping [d]: a literal, or the sibling key's value for
    [current]. *)
Definition segment_index (idx_str key : string) (d : dict) : option Z :=
  match resolve_index idx_str key (VDict d) with
  | Ok idx => as_int idx
  | Raise _ => None
  end.

(** The paths a write can follow to its leaf.  From a mapping, a part
    is a plain key or a bracketed key whose index resolves to an
    integer that is not negative; under a bracketed key there is a list,
    or nothing yet; every value met before the leaf is a mapping; a
    plain key that is missing is not followed by a part with a bracket.
    A missing part stands for the empty mapping the write creates. *)
Fixpoint navigable (parts : list string) (current : value) : bool :=
  match current with
  | VDict d =>
      match parts with
      | [] => false
      | part :: rest =>
          if is_indexed part then
            match split_bracket part with
            | Some (key, idx_str0) =>
                match segment_index (PyStr.rstrip_char "]"%char idx_str0) key d with
                | Some i =>
                    ((0 <=? i)
                     && match dict_get key d with
                        | None =>
                            match rest with
                            | [] => true
                            | _ => navigable rest (VDict [])
                            end
                        | Some (VList l) =>
                            match rest with
                            | [] => true
                            | _ => navigable rest (nth (Z.to_nat i) l (VDict []))
                            end
                        | Some _ => false
                        end)%bool
                | None => false
                end
            | None => false
            end
          else
            match rest with
            | [] => true
            | next_part :: _ =>
                match dict_get part d with
                | Some child => navigable rest child
                | None =>
                    if (PyStr.nonempty next_part
                        && PyStr.contains "["%char next_part)%bool
                    then false
                    else navigable rest (VDict [])
                end
            end
      end
  | _ => false
  end.

(** [d'] is [d] except, perhaps, at [key]. *)
Definition same_off (key : string) (d d' : dict) : Prop :=
  forall k, k <> key -> dict_get k d' = dict_get k d.

(** A list after [while len(x) <= i: x.append(filler)]. *)
Definition extended (filler : value) (i : Z) (l : list value) : list value :=
  (l ++ repeat filler (Z.to_nat (i + 1 - Z.of_nat (List.length l))))%list.

(** The container that a prefix of plain keys, all present, leads to. *)
Fixpoint resolve_plain (prefix : list string) (current : value) : option value :=
  match prefix with
  | [] => Some current
  | part :: rest =>
      match current with
      | VDict d =>
          if is_indexed part then None
          else match dict_get part d with
               | Some child => resolve_plain rest child
               | None => None
               end
      | _ => None
      end
  end.

(** What a read finds at the leaf after [v] was written there, [old]
    being what it found before: a list under a plain last part takes
    a value that is not a list as a new element. *)
Definition leaf_after (parts : list string) (old v : value) : value :=
  match old with
  | VList l =>
      if (negb (is_indexed (last parts EmptyString)) && negb (is_list v))%bool
      then VList (l ++ [v])
      else v
  | _ => v
  end.

(** The write returns; the path stays navigable; the read that found
    [old] before the write now finds [leaf_after parts old v]. *)
Definition round_trip (v : value) (parts : list string) (current : value) : Prop :=
  exists old current',
    get_parts parts current = Ok old
    /\ write_parts parts v current = (Returned, current')
    /\ navigable parts current' = true
    /\ get_parts parts current' = Ok (leaf_after parts old v).

(** [n] writes of [v] to the same path, one after the other. *)
Fixpoint write_n (n : nat) (slots : value) (save_to : string) (v : value) : value :=
  match n with
  | O => slots
  | S n' => write_n n' (snd (write slots save_to v)) save_to v
  end.


End Spec.

(** ** [src/graphs/interview_graph.py] and the nodes around the turn *)

Module Graph.
Import Py FlowRunner Nodes.

(** Python's truth value of a slot value. *)
Definition truthy (v : value) : bool :=
  match v with
  | VNone => false
  | VBool b => b
  | VInt z => negb (z =? 0)
  | VStr s => PyStr.nonempty s
  | VList l => match l with [] => false | _ => true end
  | VDict d => match d with [] => false | _ => true end
  end.

(** The session as the graph keeps it: the fields the nodes read, the
    [error] field and the event log.  [error] and [events] are written
    by the nodes and read by none of them. *)
Record session : Type := {
  sn_state : state;
  sn_error : option error;
  sn_events : list event
}.

(** [add_events(existing, new)] of [src/state/interview_state.py]:
    [None] reads as the empty list. *)
Definition add_events (existing new : option (list event)) : list event :=
  (get_or [] existing ++ get_or [] new)%list.

(** One node's update merged into the session: messages and events
    through their reducers, every other key that the update has
    replaces the field. *)
Definition merge (s : session) (u : update) : session :=
  {| sn_state := apply_update (sn_state s) u;
     sn_error := match u_error u with
                 | Some e => Some e
                 | None => sn_error s
                 end;
     sn_events := add_events (Some (sn_events s)) (Some (u_events u)) |}.

Section Turn.

Variable disk : string -> flow_file.
Variable execute_action : string -> value -> string -> result (value * value).

(** [FlowLoader.get_initial_slots]: [context_slots] is
    [flow.get("context", {}).get("slots", {})]; the deep copy of a tree
    is the tree. *)
Definition get_initial_slots (flow_id : string) : result value :=
  flow <- load_flow disk flow_id ;;
  Ok (context_slots flow).

(** [load_flow_node] *)
Definition load_flow_body (st : state) : result update :=
  if negb (truthy (slots st)) then
    initial_slots <- get_initial_slots (flow_id st) ;;
    Ok {| u_messages := []; u_events := []; u_pending := None;
          u_slots := Some initial_slots;
          u_question_cursor := None; u_active_stage_id := None;
          u_auto_advance_count := None; u_error := None; u_retry_count := None |}
  else Ok no_update.

Definition load_flow_node (st : state) : update :=
  on_exception "Failed to load flow" st (load_flow_body st).

(** [should_continue]: every error the nodes store is a non-empty
    string. *)
Definition should_continue (s : session) : string :=
  if some (sn_error s) then "end"
  else if String.eqb (active_stage_id (sn_state s)) "end" then "end"
  else "continue".

(** One invocation of the graph: entry point [load_flow], the three
    plain edges, and after [render_prompt] the conditional edge, whose
    two targets are both [END]. *)
Definition invoke (s : session) : session :=
  let s1 := merge s (load_flow_node (sn_state s)) in
  let s2 := merge s1 (ingest_user_answer_node disk (sn_state s1)) in
  let s3 := merge s2 (auto_advance_node disk execute_action (sn_state s2)) in
  let s4 := merge s3 (render_prompt_node disk (sn_state s3)) in
  match should_continue s4 with
  | _ => s4
  end.

End Turn.

(** [create_initial_state] of [src/state/interview_state.py]. *)
Definition create_initial_state (flow_id : string) (max_auto_advance_steps : Z)
    : session :=
  {| sn_state :=
       {| messages := []; flow_id := flow_id; active_stage_id := "welcome";
          slots := VDict []; st_pending := None; question_cursor := [];
          retry_count := Some 0; auto_advance_count := Some 0;
          max_auto_advance_steps := Some max_auto_advance_steps |};
     sn_error := None;
     sn_events := [] |}.

Definition is_ai (m : message) : bool :=
  match m with AIMessage _ => true | _ => false end.

(** The state with another history. *)
Definition with_messages (st : state) (history : list message) : state :=
  {| messages := history; flow_id := flow_id st;
     active_stage_id := active_stage_id st; slots := slots st;
     st_pending := st_pending st; question_cursor := question_cursor st;
     retry_count := retry_count st; auto_advance_count := auto_advance_count st;
     max_auto_advance_steps := max_auto_advance_steps st |}.


End Graph.


(** ** [src/actions/workflow_actions.py]: the data-element actions *)

Module Actions.
Import Py FlowRunner.

(** [c.get(k, dflt)] *)
Definition py_get (k : string) (dflt : value) (c : value) : result value :=
  match c with
  | VDict d => Ok (match dict_get k d with Some v => v | None => dflt end)
  | _ => Raise AttributeError
  end.

(** The items [for x in c] visits. *)
Definition py_iter (c : value) : result (list value) :=
  match c with
  | VList l => Ok l
  | VDict d =>
      Ok (map (fun kv => match fst kv with
                         | KStr s => VStr s
                         | KInt z => VInt z
                         end) d)
  | VStr s => Ok (map (fun ch => VStr (String ch EmptyString)) (list_ascii_of_string s))
  | _ => Raise TypeError
  end.

(** [res.setdefault("process_parameters", {})[k] = v] *)
Definition set_param (k : string) (v : value) (res : value) : result value :=
  match res with
  | VDict d =>
      let params := match dict_get "process_parameters" d with
                    | Some x => x
                    | None => VDict []
                    end in
      params' <- py_setitem k v params ;;
      Ok (VDict (dict_set "process_parameters" params' d))
  | _ => Raise AttributeError
  end.

(** The [for i, elem in enumerate(elements)] loop of the selection:
    the index of the first element that is not validated or has no
    definition. *)
Fixpoint select_scan (i : Z) (elements : list value) : result (option Z) :=
  match elements with
  | [] => Ok None
  | elem :: rest =>
      validated <- py_get "validated" (VBool false) elem ;;
      if negb (Graph.truthy validated) then Ok (Some i)
      else
        definition <- py_get "definition" VNone elem ;;
        match definition with
        | VNone => Ok (Some i)
        | _ => select_scan (i + 1) rest
        end
  end.

(** [select_next_data_element_for_validation(slots)] *)
Definition select_next_data_element_for_validation (slots : value)
    : result (value * string) :=
  res <- py_copy slots ;;
  params <- py_get "process_parameters" (VDict []) res ;;
  elements <- py_get "data_elements" (VList []) params ;;
  items <- py_iter elements ;;
  found <- select_scan 0 items ;;
  match found with
  | Some i =>
      res' <- set_param "current_data_element_index" (VInt i) res ;;
      Ok (res', "element_selected")
  | None =>
      res' <- set_param "current_data_element_index" VNone res ;;
      Ok (res', "all_validated")
  end.

(** [commit_validated_data_element(slots)]: the chained comparison
    [0 <= idx < len(elements)] takes the length only when [0 <= idx].
    [elements[idx]["validated"] = True] changes the element inside the
    list inside the parameters: where it is reached, both keys exist,
    since an index was found and the list is not empty. *)
Definition commit_validated_data_element (slots : value) : result value :=
  res <- py_copy slots ;;
  params <- py_get "process_parameters" (VDict []) res ;;
  idx <- py_get "current_data_element_index" VNone params ;;
  match idx with
  | VNone => Ok res
  | _ =>
      elements <- py_get "data_elements" (VList []) params ;;
      match as_int idx with
      | None => Raise TypeError
      | Some i =>
          if 0 <=? i then
            n <- py_len elements ;;
            if i <? n then
              elem <- py_getidx i elements ;;
              elem' <- py_setitem "validated" (VBool true) elem ;;
              elements' <- py_setidx i elem' elements ;;
              params' <- py_setitem "data_elements" elements' params ;;
              py_setitem "process_parameters" params' res
            else Ok res
          else Ok res
      end
  end.

(** An element the selection stops at. *)
Definition needs_validation (elem : value) : bool :=
  match elem with
  | VDict e =>
      (negb (Graph.truthy (match dict_get "validated" e with
                           | Some v => v
                           | None => VBool false
                           end))
       || match dict_get "definition" e with
          | Some VNone | None => true
          | Some _ => false
          end)%bool
  | _ => false
  end.

Definition settled (elem : value) : bool := negb (needs_validation elem).

Definition is_dict (c : value) : bool :=
  match c with VDict _ => true | _ => false end.

(** The path the data-element questions save a definition to. *)
Definition definition_path : string :=
  "process_parameters.data_elements[current].definition".

(** The slots [d] with parameters [pp] and the current index [idx]. *)
Definition with_index (d pp : dict) (idx : value) : value :=
  VDict (dict_set "process_parameters"
           (VDict (dict_set "current_data_element_index" idx pp)) d).


End Actions.


(** ** Sample sessions *)

Module TurnSamples.
Import Py FlowRunner Nodes Graph.

Definition session_of (st : state) : session :=
  {| sn_state := st; sn_error := None; sn_events := [] |}.

(** The session at the confirm stage, its confirm pending, [text] just
    received. *)
Definition confirming (text : string) : state :=
  {| messages := [AIMessage "Is this correct?"; HumanMessage text];
     flow_id := "intake_sipoc_v1";
     active_stage_id := "sipoc_confirm";
     slots := VDict [(KStr "engagement", VDict [(KStr "sponsor", VStr "Jane Doe")])];
     st_pending :=
       Some {| p_question_id := None; p_save_to := None;
               p_ask := Some "Is this correct?";
               p_clarify_if := None; p_question_index := None;
               p_is_clarifying := None; p_original_answer := None;
               p_confirm_id := Some (Some "sipoc_confirm");
               p_summary_template := Some EmptyString;
               p_on_yes := Some (Some "end"); p_on_no := Some (Some "retry") |};
     question_cursor := [("engagement_context", 3)];
     retry_count := Some 0; auto_advance_count := Some 1;
     max_auto_advance_steps := Some 50 |}.

(** Two data elements, the first settled, the second still to define. *)
Definition client_name : dict :=
  [(KStr "name", VStr "Client Name");
   (KStr "definition", VStr "Name of client");
   (KStr "validated", VBool true)].

Definition property_address : dict :=
  [(KStr "name", VStr "Property Address");
   (KStr "definition", VNone);
   (KStr "validated", VBool false)].

Definition element_params : dict :=
  [(KStr "data_elements", VList [VDict client_name; VDict property_address])].

Definition element_slots : dict :=
  [(KStr "process_parameters", VDict element_params)].

(** The loop stage of the data elements and the flow that holds it. *)
Definition validate_loop : stage :=
  {| s_id := Some "data_elements_validate_loop"; s_type := Some "loop";
     s_next := Some "data_element_one_by_one";
     s_on_yes := None; s_on_no := None; s_on_pass := None; s_on_fail := None;
     s_on_stop := Some "status_model_capture";
     s_criteria := []; s_branches := []; s_questions := [];
     s_action := None; s_save_to := None; s_prompt := None; s_ask := None;
     s_summary_template := None;
     s_signal_slot := Some "process_parameters.data_elements" |}.

Definition mapping_disk (filename : string) : flow_file :=
  if String.eqb filename "Flow_B_current_state_mapping_v1.json"
  then Parsed {| stages := [validate_loop]; context_slots := VDict [] |}
  else Missing.


End TurnSamples.


(** ** Vocabulary of the further properties *)

Module PathSpec.
Import Py FlowRunner.

(** A container at which a read of [part] ends with nothing: a mapping
    without the plain key, a list asked for a plain key, or a scalar. *)
Definition dead_end (part : string) (c : value) : bool :=
  match c with
  | VDict d => (negb (is_indexed part) && negb (dict_mem part d))%bool
  | VList _ => negb (is_indexed part)
  | _ => true
  end.

(** The key of the mapping that a part addresses. *)
Definition first_key (part : string) : string :=
  if is_indexed part then
    match split_bracket part with
    | Some (key, _) => key
    | None => part
    end
  else part.

Definition is_dict (c : value) : bool :=
  match c with VDict _ => true | _ => false end.

End PathSpec.

(** What the gate asks of the value found at a criterion's slot. *)
Module GateSpec.
Import Py FlowRunner.

Definition passes (c : criterion) (v : value) : bool :=
  (negb (get_or true (c_required c) && match v with VNone => true | _ => false end)
   && match c_min_items c with
      | None => true
      | Some min_items =>
          match v with
          | VList l => min_items <=? Z.of_nat (List.length l)
          | _ => false
          end
      end
   && match c_max_items c with
      | None => true
      | Some max_items =>
          match v with
          | VList l => Z.of_nat (List.length l) <=? max_items
          | _ => true
          end
      end)%bool.

End GateSpec.


(** ** Vocabulary of the auto-advance run *)

Module AdvanceSpec.
Import Py FlowRunner Nodes.

(** The stage types that auto-advance processes without the user. *)
Definition automatic_kinds : list string :=
  ["message"; "action"; "gate"; "branch"; "loop"; "output"].

(** Where the run stops: at a questions or confirm stage, at the stage
    called "end", and at a stage whose type is none of the automatic
    ones. *)
Definition stops (stage : stage) (active_stage_id : string) : bool :=
  (is_type "questions" (s_type stage) || is_type "confirm" (s_type stage)
   || String.eqb active_stage_id "end"
   || negb match s_type stage with
           | Some t => mem t automatic_kinds
           | None => false
           end)%bool.

Section Run.

Variable disk : string -> flow_file.
Variable execute_action : string -> value -> string -> result (value * value).
Variable st : state.

(** [reaches n a s a' s']: from stage [a] with slots [s], [n] stages
    are processed one after the other, none of them stopping or
    failing, and lead to stage [a'] with slots [s']. *)
Inductive reaches : nat -> string -> value -> string -> value -> Prop :=
| reaches_here (a : string) (s : value) : reaches 0 a s a s
| reaches_step (n : nat) (a a1 a' : string) (s s1 s' : value) (evs : list event) :
    loop_body disk execute_action st a s = Ok (Continue a1 s1 evs) ->
    reaches n a1 s1 a' s' ->
    reaches (S n) a s a' s'.

End Run.

End AdvanceSpec.


(** * Properties *)

Import Py FlowRunner Nodes.

(** ** Confirm routing *)

Section ConfirmRouting.

Lemma or_empty (r : string) :
  (if PyStr.nonempty r then r else EmptyString) = r.
Proof. destruct r; reflexivity. Qed.

Lemma confirm_next (stage : stage) (slots : value) (resp : string) :
  s_type stage = Some "confirm" ->
  get_next_stage stage slots (Some resp) =
  Ok (match _parse_yes_no resp with
      | Some true => get_or "end" (s_on_yes stage)
      | Some false => get_or "end" (s_on_no stage)
      | None => get_or "end" (s_id stage)
      end).
Proof.
  intros Ht. unfold get_next_stage. rewrite Ht. cbn [mem existsb].
  change (String.eqb "confirm" "message") with false.
  change (String.eqb "confirm" "questions") with false.
  change (String.eqb "confirm" "action") with false.
  change (String.eqb "confirm" "output") with false.
  change (String.eqb "confirm" "confirm") with true.
  cbn [orb]. rewrite or_empty.
  destruct (_parse_yes_no resp) as [[|]|]; reflexivity.
Qed.

(** C1.  On a confirm stage the next stage follows the yes/no
    classifier: affirmative gives [on_yes], negative gives [on_no], and
    an unclear answer gives the stage's own id, whatever [on_no] is
    (an absent field reads as "end", as [stage.get(..., "end")] does).
    In particular "Yes." goes to [on_yes], "No, fix the third item" to
    [on_no], and "maybe" stays on the stage. *)
Theorem confirm_routing (stage : stage) (slots : value) (resp : string) :
  s_type stage = Some "confirm" ->
  (_parse_yes_no resp = Some true ->
   get_next_stage stage slots (Some resp) = Ok (get_or "end" (s_on_yes stage)))
  /\ (_parse_yes_no resp = Some false ->
      get_next_stage stage slots (Some resp) = Ok (get_or "end" (s_on_no stage)))
  /\ (_parse_yes_no resp = None ->
      get_next_stage stage slots (Some resp) = Ok (get_or "end" (s_id stage)))
  /\ get_next_stage stage slots (Some "Yes.") = Ok (get_or "end" (s_on_yes stage))
  /\ get_next_stage stage slots (Some "No, fix the third item")
     = Ok (get_or "end" (s_on_no stage))
  /\ get_next_stage stage slots (Some "maybe") = Ok (get_or "end" (s_id stage)).
Proof.
  intros Ht.
  repeat split; try (intros Hp; rewrite (confirm_next _ _ _ Ht), Hp; reflexivity);
    rewrite (confirm_next _ _ _ Ht); reflexivity.
Qed.

Lemma confirm_routing_witness :
  get_next_stage Samples.confirm_stage (VDict []) (Some "Yes.") = Ok "end"
  /\ get_next_stage Samples.confirm_stage (VDict []) (Some "No, fix the third item")
     = Ok "retry"
  /\ get_next_stage Samples.confirm_stage (VDict []) (Some "maybe")
     = Ok "sipoc_confirm".
Proof.
  destruct (confirm_routing Samples.confirm_stage (VDict []) "Yes." eq_refl)
    as (_ & _ & _ & Hy & Hn & Hm).
  exact (conj Hy (conj Hn Hm)).
Defined.

End ConfirmRouting.

(** ** Gate criteria *)

Section Gate.

Lemma check_gate_app (pre post : list criterion) (slots : value) :
  _check_gate_criteria (pre ++ post)%list slots =
  match _check_gate_criteria pre slots with
  | Ok true => _check_gate_criteria post slots
  | r => r
  end.
Proof.
  induction pre as [|c pre IH]; [reflexivity|].
  cbn [app _check_gate_criteria].
  destruct (match c_slot c with
            | Some slot_path => _get_nested_value slots slot_path
            | None => Raise AttributeError
            end) as [v|e]; cbn [bind]; [|reflexivity].
  repeat match goal with
         | |- context [if ?b then _ else _] => destruct b; try reflexivity
         end; exact IH.
Qed.

(** C9.  A criterion without a [required] flag is a required one: when
    its slot path resolves to nothing, the gate fails and the stage
    routes to [on_fail] - for every list of criteria around it, as long
    as the criteria before it evaluate without an exception. *)
Theorem gate_required_by_default (pre post : list criterion) (c : criterion)
    (slots : value) (path : string) (stage : stage) (b : bool) :
  c_required c = None ->
  c_slot c = Some path ->
  _get_nested_value slots path = Ok VNone ->
  _check_gate_criteria pre slots = Ok b ->
  s_type stage = Some "gate" ->
  s_criteria stage = (pre ++ c :: post)%list ->
  _check_gate_criteria (pre ++ c :: post)%list slots = Ok false
  /\ forall user_response,
       get_next_stage stage slots user_response = Ok (get_or "end" (s_on_fail stage)).
Proof.
  intros Hreq Hslot Hget Hpre Ht Hcs.
  assert (Hfalse : _check_gate_criteria (pre ++ c :: post)%list slots = Ok false).
  { rewrite check_gate_app, Hpre. destruct b; [|reflexivity].
    cbn [_check_gate_criteria]. rewrite Hslot, Hget, Hreq. reflexivity. }
  split; [exact Hfalse|].
  intros ur. unfold get_next_stage. rewrite Ht, Hcs, Hfalse. reflexivity.
Qed.

Lemma gate_required_by_default_witness :
  _check_gate_criteria [Samples.bare_criterion] (VDict [(KStr "engagement", VDict [])])
  = Ok false
  /\ get_next_stage Samples.gate_stage (VDict [(KStr "engagement", VDict [])]) None
     = Ok "engagement_context".
Proof.
  destruct (gate_required_by_default [] [] Samples.bare_criterion
              (VDict [(KStr "engagement", VDict [])]) "engagement.process_name"
              Samples.gate_stage true
              eq_refl eq_refl eq_refl eq_refl eq_refl eq_refl) as [H1 H2].
  exact (conj H1 (H2 None)).
Defined.

End Gate.

(** ** Template rendering *)

Section Rendering.

Lemma span_group_app (inner rest : string) :
  PyStr.contains "}"%char inner = false ->
  span_group (inner ++ String "}"%char rest) = (inner, String "}"%char rest).
Proof.
  induction inner as [|c inner IH]; intros Hc; [reflexivity|].
  cbn [PyStr.contains] in Hc. apply orb_false_iff in Hc as [Hc1 Hc2].
  cbn [String.append span_group]. rewrite Hc1, (IH Hc2). reflexivity.
Qed.

Lemma string_length_app (a b : string) :
  String.length (a ++ b) = (String.length a + String.length b)%nat.
Proof. induction a as [|c a IH]; cbn; [reflexivity|now rewrite IH]. Qed.

Lemma sub_scan_skip (slots : value) (a b : string) :
  sub_scan slots (String.length a) (a ++ b) = sub_scan slots 0 b.
Proof.
  induction a as [|c a IH]; [reflexivity|]. cbn [String.length String.append sub_scan].
  exact IH.
Qed.

Lemma match_here_placeholder (inner post : string) :
  inner <> EmptyString ->
  PyStr.contains "}"%char inner = false ->
  match_here ("{{" ++ inner ++ "}}" ++ post)
  = Some (inner, (String.length inner + 4)%nat).
Proof.
  intros Hne Hc. cbn [String.append match_here].
  change (String "}"%char (String "}"%char post)) with (String "}"%char ("}" ++ post)).
  rewrite (span_group_app inner ("}" ++ post) Hc).
  destruct inner as [|c inner]; [congruence|]. reflexivity.
Qed.

Lemma match_here_other (c : ascii) (s : string) :
  Ascii.eqb c "{"%char = false -> match_here (String c s) = None.
Proof.
  intros Hc. unfold match_here.
  destruct c as [[|] [|] [|] [|] [|] [|] [|] [|]]; try reflexivity; discriminate.
Qed.

Lemma append_assoc_s (a b c : string) : a ++ b ++ c = (a ++ b) ++ c.
Proof. induction a as [|x a IH]; cbn; [reflexivity|now rewrite IH]. Qed.

Lemma sub_scan_at_match (slots : value) (c : ascii) (s' group : string) (len : nat) :
  match_here (String c s') = Some (group, len) ->
  sub_scan slots 0 (String c s')
  = (r <- replacer slots group ;;
     rest <- sub_scan slots (len - 1) s' ;;
     Ok (r ++ rest)).
Proof. intros H. cbn [sub_scan]. rewrite H. reflexivity. Qed.

Lemma sub_scan_no_match (slots : value) (c : ascii) (s' : string) :
  match_here (String c s') = None ->
  sub_scan slots 0 (String c s')
  = (rest <- sub_scan slots 0 s' ;; Ok (String c rest)).
Proof. intros H. cbn [sub_scan]. rewrite H. reflexivity. Qed.

(** A placeholder after text without an opening brace: the text is
    kept, the placeholder is replaced, the scan resumes after it. *)
Lemma sub_scan_placeholder (slots : value) (pre inner post : string) :
  PyStr.contains "{"%char pre = false ->
  inner <> EmptyString ->
  PyStr.contains "}"%char inner = false ->
  sub_scan slots 0 (pre ++ "{{" ++ inner ++ "}}" ++ post)
  = (r <- replacer slots inner ;;
     rest <- sub_scan slots 0 post ;;
     Ok (pre ++ r ++ rest)).
Proof.
  intros Hpre Hne Hc. induction pre as [|c pre IH].
  - change (EmptyString ++ "{{" ++ inner ++ "}}" ++ post)
      with (String "{"%char (String "{"%char (inner ++ "}}" ++ post))).
    rewrite (sub_scan_at_match slots "{"%char _ inner (String.length inner + 4)
               (match_here_placeholder inner post Hne Hc)).
    replace (String.length inner + 4 - 1)%nat
      with (String.length (String "{"%char (inner ++ "}}"))).
    2:{ cbn [String.length]. rewrite string_length_app. cbn. lia. }
    replace (String "{"%char (inner ++ "}}" ++ post))
      with (String "{"%char (inner ++ "}}") ++ post).
    2:{ change (String "{"%char (inner ++ "}}") ++ post)
          with (String "{"%char ((inner ++ "}}") ++ post)).
        f_equal. symmetry. apply append_assoc_s. }
    rewrite sub_scan_skip. reflexivity.
  - cbn [PyStr.contains] in Hpre. apply orb_false_iff in Hpre as [Hc1 Hc2].
    change (String c pre ++ "{{" ++ inner ++ "}}" ++ post)
      with (String c (pre ++ "{{" ++ inner ++ "}}" ++ post)).
    rewrite (sub_scan_no_match slots c _ (match_here_other _ _ Hc1)), (IH Hc2).
    destruct (replacer slots inner) as [r|e]; cbn [bind]; [|reflexivity].
    destruct (sub_scan slots 0 post) as [rest|e]; reflexivity.
Qed.

(** C10.  A placeholder whose path reads as [None] renders as the
    bracketed path: the replacement depends on the resolver's result
    only, and the resolver returns [None] for a stored null as for a
    missing key. *)
Theorem render_null_like_absent (slots : value) (pre inner post : string) :
  PyStr.contains "{"%char pre = false ->
  inner <> EmptyString ->
  PyStr.contains "}"%char inner = false ->
  _get_nested_value slots (PyStr.strip inner) = Ok VNone ->
  replacer slots inner = Ok ("[" ++ PyStr.strip inner ++ "]")
  /\ render (pre ++ "{{" ++ inner ++ "}}" ++ post) slots
     = (rest <- render post slots ;;
        Ok (pre ++ "[" ++ PyStr.strip inner ++ "]" ++ rest)).
Proof.
  intros Hpre Hne Hc Hget.
  assert (Hr : replacer slots inner = Ok ("[" ++ PyStr.strip inner ++ "]")).
  { unfold replacer. rewrite Hget. reflexivity. }
  split; [exact Hr|].
  unfold render.
  assert (Hn : PyStr.nonempty (pre ++ "{{" ++ inner ++ "}}" ++ post) = true).
  { destruct pre; reflexivity. }
  rewrite Hn, (sub_scan_placeholder slots pre inner post Hpre Hne Hc), Hr.
  cbn [bind].
  assert (Hpost : (if PyStr.nonempty post then sub_scan slots 0 post else Ok EmptyString)
                  = sub_scan slots 0 post) by (destruct post; reflexivity).
  rewrite Hpost. destruct (sub_scan slots 0 post) as [rest|e]; [|reflexivity].
  cbn [bind]. do 2 f_equal. cbn [String.append]. f_equal.
  symmetry. exact (append_assoc_s (PyStr.strip inner) "]" rest).
Qed.

(** The stored null, and the same template on slots without the key. *)
Lemma render_null_like_absent_witness :
  render "Name: {{ engagement.process_name }}!"
    (VDict [(KStr "engagement", VDict [(KStr "process_name", VNone)])])
  = Ok "Name: [engagement.process_name]!"
  /\ render "Name: {{ engagement.process_name }}!"
       (VDict [(KStr "engagement", VDict [])])
     = Ok "Name: [engagement.process_name]!".
Proof.
  split.
  - exact (proj2 (render_null_like_absent
                    (VDict [(KStr "engagement", VDict [(KStr "process_name", VNone)])])
                    "Name: " " engagement.process_name " "!"
                    eq_refl ltac:(discriminate) eq_refl eq_refl)).
  - exact (proj2 (render_null_like_absent
                    (VDict [(KStr "engagement", VDict [])])
                    "Name: " " engagement.process_name " "!"
                    eq_refl ltac:(discriminate) eq_refl eq_refl)).
Defined.

End Rendering.

(** ** Auto-advance *)

Section AutoAdvance.
Import Spec AdvanceSpec.

Variable disk : string -> flow_file.
Variable execute_action : string -> value -> string -> result (value * value).

Lemma count_steps_app (a b : list event) :
  count_steps (a ++ b)%list = (count_steps a + count_steps b)%nat.
Proof. unfold count_steps. rewrite filter_app, List.length_app. reflexivity. Qed.

Ltac split_body :=
  repeat match goal with
         | H : bind ?r _ = Ok _ |- _ =>
             destruct r eqn:?; cbn [bind] in H; [|discriminate H]
         | H : (let (_, _) := ?p in _) = Ok _ |- _ => destruct p
         | H : (if ?b then _ else _) = Ok _ |- _ => destruct b eqn:?
         | H : match ?o with Some _ => _ | None => _ end = Ok _ |- _ =>
             destruct o eqn:?
         | H : Ok _ = Ok _ |- _ => inversion H; subst; clear H
         | H : Raise _ = Ok _ |- _ => discriminate H
         end.

(** One iteration either stops without a step event or advances with
    exactly one. *)
Lemma loop_body_events (st : state) (active : string) (slots : value)
    (it : iteration) :
  loop_body disk execute_action st active slots = Ok it ->
  match it with
  | Break evs => count_steps evs = 0%nat
  | Continue _ _ evs => count_steps evs = 1%nat
  end.
Proof.
  unfold loop_body. intros H. split_body;
    try reflexivity; rewrite ?count_steps_app; try reflexivity.
  destruct (String.eqb s "copy_next_step_to_buffer"); reflexivity.
Qed.

Lemma advance_loop_spec (st : state) (budget : nat) :
  forall (active : string) (slots : value) (events : list event) (steps : Z)
         (le : loop_end),
    advance_loop disk execute_action st budget active slots events steps = Ok le ->
    steps <= le_steps le <= steps + Z.of_nat budget
    /\ Z.of_nat (count_steps (le_events le))
       = Z.of_nat (count_steps events) + (le_steps le - steps)
    /\ (le_steps le < steps + Z.of_nat budget ->
        exists evs,
          loop_body disk execute_action st (le_active_stage_id le) (le_slots le)
          = Ok (Break evs)).
Proof.
  induction budget as [|budget IH]; intros active slots events steps le H.
  - cbn in H. inversion H; subst; cbn [le_steps le_events le_active_stage_id le_slots].
    repeat split; lia.
  - cbn [advance_loop] in H.
    destruct (loop_body disk execute_action st active slots) as [it|e] eqn:Hb;
      cbn [bind] in H; [|discriminate].
    pose proof (loop_body_events _ _ _ _ Hb) as Hev.
    destruct it as [evs|active' slots' evs].
    + inversion H; subst; cbn [le_steps le_events le_active_stage_id le_slots].
      rewrite count_steps_app, Hev.
      repeat split; try lia. intros _. exists evs. exact Hb.
    + apply IH in H as (H1 & H2 & H3).
      rewrite count_steps_app, Hev in H2.
      repeat split; try lia. intros Hlt. apply H3. lia.
Qed.

(** *** What one iteration does, by the stage it meets *)

Lemma loop_body_stops (st : state) (active : string) (slots : value)
    (stage : stage) :
  get_stage disk (flow_id st) active = Ok stage ->
  stops stage active = true ->
  exists evs, loop_body disk execute_action st active slots = Ok (Break evs).
Proof.
  intros Hg Hs. unfold loop_body. rewrite Hg. cbn [bind].
  destruct (is_type "questions" (s_type stage) || is_type "confirm" (s_type stage))%bool
    eqn:Hq; [eexists; reflexivity|].
  destruct (String.eqb active "end") eqn:He; [eexists; reflexivity|].
  unfold stops in Hs. rewrite Hq, He in Hs. cbn [orb] in Hs.
  apply negb_true_iff in Hs.
  destruct (s_type stage) as [t|]; [|eexists; reflexivity].
  unfold automatic_kinds, mem in Hs. cbn [existsb] in Hs.
  repeat (apply orb_false_iff in Hs; destruct Hs as [? Hs]).
  cbn [is_type].
  repeat match goal with
         | H : String.eqb t ?k = false |- _ => rewrite H; clear H
         end.
  eexists; reflexivity.
Qed.

Lemma loop_body_break_stops (st : state) (active : string) (slots : value)
    (evs : list event) :
  loop_body disk execute_action st active slots = Ok (Break evs) ->
  exists stage,
    get_stage disk (flow_id st) active = Ok stage /\ stops stage active = true.
Proof.
  unfold loop_body. intros H.
  destruct (get_stage disk (flow_id st) active) as [stage|e] eqn:Hg;
    cbn [bind] in H; [|discriminate].
  exists stage. split; [reflexivity|]. unfold stops.
  destruct (is_type "questions" (s_type stage) || is_type "confirm" (s_type stage))%bool
    eqn:Hq; [reflexivity|].
  destruct (String.eqb active "end") eqn:He; [reflexivity|].
  cbn [orb]. apply negb_true_iff.
  destruct (s_type stage) as [t|]; [|reflexivity].
  unfold automatic_kinds, mem. cbn [existsb is_type] in H |- *.
  destruct (String.eqb t "message"); [discriminate|].
  destruct (String.eqb t "action"); [split_body|].
  destruct (String.eqb t "gate"); [split_body|].
  destruct (String.eqb t "branch"); [split_body|].
  destruct (String.eqb t "loop"); [split_body|].
  destruct (String.eqb t "output"); [discriminate|].
  reflexivity.
Qed.

Lemma loop_body_no_stage (st : state) (active : string) (slots : value) (e : exn) :
  get_stage disk (flow_id st) active = Raise e ->
  loop_body disk execute_action st active slots = Raise e.
Proof. intros Hg. unfold loop_body. now rewrite Hg. Qed.

(** *** The loop against the runs it makes *)

Lemma advance_loop_run (st : state) (budget : nat) :
  forall (a : string) (s : value) (events : list event) (steps : Z),
    match advance_loop disk execute_action st budget a s events steps with
    | Ok le =>
        exists n,
          reaches disk execute_action st n a s (le_active_stage_id le) (le_slots le)
          /\ le_steps le = steps + Z.of_nat n
          /\ (n <= budget)%nat
          /\ (n = budget
              \/ exists evs,
                   loop_body disk execute_action st
                     (le_active_stage_id le) (le_slots le) = Ok (Break evs))
    | Raise e =>
        exists n a' s',
          (n < budget)%nat
          /\ reaches disk execute_action st n a s a' s'
          /\ loop_body disk execute_action st a' s' = Raise e
    end.
Proof.
  induction budget as [|budget IH]; intros a s events steps.
  - cbn [advance_loop le_active_stage_id le_slots le_steps].
    exists 0%nat. repeat split; [constructor|lia|lia|now left].
  - cbn [advance_loop].
    destruct (loop_body disk execute_action st a s) as [[evs|a1 s1 evs]|e] eqn:Hb;
      cbn [bind].
    + cbn [le_active_stage_id le_slots le_steps].
      exists 0%nat. repeat split; [constructor|lia|lia|].
      right. now exists evs.
    + specialize (IH a1 s1 (events ++ evs)%list (steps + 1)).
      destruct (advance_loop disk execute_action st budget a1 s1
                  (events ++ evs)%list (steps + 1)) as [le|e].
      * destruct IH as (n & Hr & Hs & Hn & Hend).
        exists (S n). repeat split.
        -- exact (reaches_step _ _ _ _ _ _ _ _ _ _ _ Hb Hr).
        -- lia.
        -- lia.
        -- destruct Hend as [->|Hbr]; [now left|now right].
      * destruct IH as (n & a' & s' & Hn & Hr & Hraise).
        exists (S n), a', s'. repeat split; [lia| |exact Hraise].
        exact (reaches_step _ _ _ _ _ _ _ _ _ _ _ Hb Hr).
    + exists 0%nat, a, s. repeat split; [lia|constructor|exact Hb].
Qed.

Lemma advance_loop_exhausted (st : state) (n : nat) (a a' : string) (s s' : value) :
  reaches disk execute_action st n a s a' s' ->
  forall (events : list event) (steps : Z),
    exists events',
      advance_loop disk execute_action st n a s events steps
      = Ok {| le_active_stage_id := a'; le_slots := s';
              le_events := events'; le_steps := steps + Z.of_nat n |}.
Proof.
  induction 1 as [x y|k x x1 x' y y1 y' evs Hb _ IH]; intros events steps.
  - exists events. cbn [advance_loop]. now rewrite Z.add_0_r.
  - destruct (IH (events ++ evs)%list (steps + 1)) as (events' & Hl).
    exists events'. cbn [advance_loop]. rewrite Hb. cbn [bind]. rewrite Hl.
    do 2 f_equal. lia.
Qed.

Lemma advance_loop_stopped (st : state) (n : nat) (a a' : string) (s s' : value)
    (stop : list event) :
  reaches disk execute_action st n a s a' s' ->
  loop_body disk execute_action st a' s' = Ok (Break stop) ->
  forall (m : nat) (events : list event) (steps : Z),
    exists events',
      advance_loop disk execute_action st (n + S m) a s events steps
      = Ok {| le_active_stage_id := a'; le_slots := s';
              le_events := events'; le_steps := steps + Z.of_nat n |}
      /\ count_steps events' = (count_steps events + n)%nat.
Proof.
  intros Hr Hstop.
  induction Hr as [x y|k x x1 x' y y1 y' evs Hb _ IH]; intros m events steps.
  - exists (events ++ stop)%list. cbn [Nat.add advance_loop]. rewrite Hstop.
    cbn [bind]. rewrite Z.add_0_r. split; [reflexivity|].
    rewrite count_steps_app.
    pose proof (loop_body_events _ _ _ _ Hstop) as Hev. cbn in Hev. lia.
  - destruct (IH Hstop m (events ++ evs)%list (steps + 1)) as (events' & Hl & Hc).
    exists events'. cbn [Nat.add advance_loop]. rewrite Hb. cbn [bind]. rewrite Hl.
    split; [do 2 f_equal; lia|].
    rewrite Hc, count_steps_app.
    pose proof (loop_body_events _ _ _ _ Hb) as Hev. cbn in Hev. lia.
Qed.

Lemma advance_loop_failed (st : state) (n : nat) (a a' : string) (s s' : value)
    (e : exn) :
  reaches disk execute_action st n a s a' s' ->
  loop_body disk execute_action st a' s' = Raise e ->
  forall (m : nat) (events : list event) (steps : Z),
    advance_loop disk execute_action st (n + S m) a s events steps = Raise e.
Proof.
  intros Hr Hfail.
  induction Hr as [x y|k x x1 x' y y1 y' evs Hb _ IH]; intros m events steps.
  - cbn [Nat.add advance_loop]. now rewrite Hfail.
  - cbn [Nat.add advance_loop]. rewrite Hb. cbn [bind]. apply (IH Hfail).
Qed.

(** C2.  Auto-advance ends within its budget, and each of its ends is
    tied to what the run meets.  The loop processes stages one after
    the other ([reaches]); a processed stage is never a questions or
    confirm stage, the stage "end" or a stage of unknown type, since
    the loop stops at those ([stops]); a message or output stage leads
    to its [next] and a gate to the stage its criteria select, the
    slots unchanged.  From the copy of the slots:

    - the run the node makes has at most [max_steps] processed stages
      (none when the limit is not positive), and ends because the
      budget is used up, or at a stage where the loop stops, or in an
      exception;
    - whenever [max_steps] stages can be processed in a row, whatever
      stage that leads to, the node sets the error whose message
      carries the configured limit (default 50), and nothing else but
      the retry counter;
    - whenever fewer stages lead to a stage where the loop stops, the
      node reports no error and returns that stage, the slots reached
      and the count of the stages processed;
    - whenever fewer stages lead to an iteration that raises, the node
      sets the error of the exception.

    A session whose slots cannot be copied gets the error of that
    exception. *)
Theorem auto_advance_within_budget (st : state) :
  let max_steps := get_or 50 (max_auto_advance_steps st) in
  let u := auto_advance_node disk execute_action st in
  let run := reaches disk execute_action st in
  match py_copy (slots st) with
  | Raise e => u_error u = Some (Failed "Auto-advance failed" e)
  | Ok slots0 =>
      (exists n a' s',
          run n (active_stage_id st) slots0 a' s'
          /\ Z.of_nat n <= Z.max 0 max_steps
          /\ (Z.of_nat n = Z.max 0 max_steps
              \/ (exists stage,
                     get_stage disk (flow_id st) a' = Ok stage
                     /\ stops stage a' = true)
              \/ (exists e, loop_body disk execute_action st a' s' = Raise e)))
      /\ (forall a' s',
             run (Z.to_nat max_steps) (active_stage_id st) slots0 a' s' ->
             u_error u
             = Some (Message ("Auto-advance exceeded max steps ("
                              ++ PyStr.of_Z max_steps ++ ")"))
             /\ u_retry_count u = Some (get_or 0 (retry_count st) + 1)
             /\ u_active_stage_id u = None
             /\ u_slots u = None
             /\ u_events u = [])
      /\ (forall n a' s' stage,
             Z.of_nat n < max_steps ->
             run n (active_stage_id st) slots0 a' s' ->
             get_stage disk (flow_id st) a' = Ok stage ->
             stops stage a' = true ->
             u_error u = None
             /\ u_active_stage_id u = Some a'
             /\ u_slots u = Some s'
             /\ u_auto_advance_count u
                = Some (get_or 0 (auto_advance_count st) + Z.of_nat n)
             /\ count_steps (u_events u) = n)
      /\ (forall n a' s' e,
             Z.of_nat n < max_steps ->
             run n (active_stage_id st) slots0 a' s' ->
             loop_body disk execute_action st a' s' = Raise e ->
             u_error u = Some (Failed "Auto-advance failed" e)
             /\ u_active_stage_id u = None
             /\ u_slots u = None)
  end
  /\ (forall (a a' : string) (s s' : value),
         run 1%nat a s a' s' ->
         exists stage,
           get_stage disk (flow_id st) a = Ok stage
           /\ stops stage a = false
           /\ ((is_type "message" (s_type stage) || is_type "output" (s_type stage))%bool
               = true ->
               a' = get_or "end" (s_next stage) /\ s' = s)
           /\ (is_type "gate" (s_type stage) = true ->
               get_next_stage stage s None = Ok a' /\ s' = s)).
Proof.
  intros max_steps u run. split.
  - subst u. unfold auto_advance_node, auto_advance_body.
    destruct (py_copy (slots st)) as [slots0|e]; cbn [bind on_exception];
      [|reflexivity].
    fold max_steps. split; [|split; [|split]].
    + pose proof (advance_loop_run st (Z.to_nat max_steps) (active_stage_id st)
                    slots0 [] 0) as Hrun.
      destruct (advance_loop disk execute_action st (Z.to_nat max_steps)
                  (active_stage_id st) slots0 [] 0) as [le|e].
      * destruct Hrun as (n & Hr & _ & Hn & Hend).
        exists n, (le_active_stage_id le), (le_slots le).
        split; [exact Hr|]. split; [lia|].
        destruct Hend as [->|(evs & Hb)]; [left; lia|].
        right; left. exact (loop_body_break_stops _ _ _ _ Hb).
      * destruct Hrun as (n & a' & s' & Hn & Hr & Hraise).
        exists n, a', s'. split; [exact Hr|]. split; [lia|].
        right; right. now exists e.
    + intros a' s' Hr.
      destruct (advance_loop_exhausted _ _ _ _ _ _ Hr [] 0) as (events' & ->).
      cbn [bind le_steps].
      destruct (Z.leb_spec max_steps (0 + Z.of_nat (Z.to_nat max_steps))); [|lia].
      cbn. repeat split.
    + intros n a' s' stage Hn Hr Hg Hs.
      destruct (loop_body_stops st a' s' stage Hg Hs) as (stop & Hstop).
      replace (Z.to_nat max_steps) with (n + S (Z.to_nat max_steps - n - 1))%nat
        by lia.
      destruct (advance_loop_stopped _ _ _ _ _ _ _ Hr Hstop
                  (Z.to_nat max_steps - n - 1)%nat [] 0) as (events' & -> & Hc).
      cbn [bind le_steps le_events le_slots le_active_stage_id].
      destruct (Z.leb_spec max_steps (0 + Z.of_nat n)); [lia|].
      cbn [on_exception u_error u_active_stage_id u_slots u_auto_advance_count
           u_events].
      rewrite count_steps_app, Hc, Z.add_0_l.
      change (count_steps []) with 0%nat.
      change (count_steps [auto_advance_summary (Z.of_nat n) max_steps])
        with 0%nat.
      repeat split. lia.
    + intros n a' s' e Hn Hr Hfail.
      replace (Z.to_nat max_steps) with (n + S (Z.to_nat max_steps - n - 1))%nat
        by lia.
      rewrite (advance_loop_failed _ _ _ _ _ _ _ Hr Hfail). cbn. repeat split.
  - intros a a' s s' Hstep.
    inversion Hstep as [|? ? a2 ? ? s2 ? evs Hb Hrest]; subst.
    inversion Hrest; subst.
    destruct (get_stage disk (flow_id st) a) as [stage|e] eqn:Hg.
    2:{ rewrite (loop_body_no_stage _ _ _ _ Hg) in Hb. discriminate. }
    exists stage. split; [reflexivity|].
    assert (Hs : stops stage a = false).
    { destruct (stops stage a) eqn:Hs; [|reflexivity].
      destruct (loop_body_stops st a s stage Hg Hs) as (stop & Hstop).
      congruence. }
    split; [exact Hs|].
    unfold stops in Hs.
    apply orb_false_iff in Hs as [Hs _].
    apply orb_false_iff in Hs as [Hq He].
    unfold loop_body in Hb. rewrite Hg in Hb. cbn [bind] in Hb.
    rewrite Hq, He in Hb.
    destruct (s_type stage) as [t|]; [|discriminate Hb].
    cbn [is_type] in Hb |- *.
    destruct (String.eqb t "message") eqn:Em.
    { split; [intros _; now inversion Hb|].
      intros Eg. apply String.eqb_eq in Em, Eg. congruence. }
    destruct (String.eqb t "action") eqn:Ea.
    { apply String.eqb_eq in Ea. subst t. split; discriminate. }
    destruct (String.eqb t "gate") eqn:Egate.
    { apply String.eqb_eq in Egate. subst t. split; [discriminate|]. intros _.
      destruct (get_next_stage stage s None) as [nx|]; cbn [bind] in Hb;
        [|discriminate]. now inversion Hb. }
    destruct (String.eqb t "branch") eqn:Eb.
    { apply String.eqb_eq in Eb. subst t. split; discriminate. }
    destruct (String.eqb t "loop") eqn:El.
    { apply String.eqb_eq in El. subst t. split; discriminate. }
    destruct (String.eqb t "output") eqn:Eo; [|discriminate Hb].
    split; [intros _; now inversion Hb|discriminate].
Qed.

End AutoAdvance.

(** The run of the sample flow, one message stage and then the first
    questions stage; and the fifty stages of the cyclic flow, after
    which the limit is reported. *)
Lemma auto_advance_within_budget_witness :
  (let u := auto_advance_node Samples.disk Samples.execute_action
              (Samples.start_state "intake_sipoc_v1") in
   u_error u = None
   /\ u_active_stage_id u = Some "engagement_context"
   /\ u_auto_advance_count u = Some 1
   /\ Spec.count_steps (u_events u) = 1%nat)
  /\ (let u := auto_advance_node Samples.disk Samples.execute_action
                 (Samples.start_state "outputs_v1") in
      u_error u = Some (Message "Auto-advance exceeded max steps (50)")
      /\ u_active_stage_id u = None
      /\ u_slots u = None).
Proof.
  split.
  - destruct (auto_advance_within_budget Samples.disk Samples.execute_action
                (Samples.start_state "intake_sipoc_v1")) as [H _].
    cbn [py_copy Samples.start_state slots] in H.
    destruct H as (_ & _ & Hstop & _).
    destruct (Hstop 1%nat "engagement_context"
                (VDict [(KStr "engagement", VDict [])]) Samples.context_stage)
      as (He & Ha & _ & Hc & Hn).
    + reflexivity.
    + eapply AdvanceSpec.reaches_step; [reflexivity|apply AdvanceSpec.reaches_here].
    + reflexivity.
    + reflexivity.
    + exact (conj He (conj Ha (conj Hc Hn))).
  - destruct (auto_advance_within_budget Samples.disk Samples.execute_action
                (Samples.start_state "outputs_v1")) as [H _].
    cbn [py_copy Samples.start_state slots] in H.
    destruct H as (_ & Hexhausted & _).
    destruct (Hexhausted "welcome" (VDict [(KStr "engagement", VDict [])]))
      as (He & _ & Ha & Hs & _).
    + repeat (eapply AdvanceSpec.reaches_step; [reflexivity|]).
      apply AdvanceSpec.reaches_here.
    + exact (conj He (conj Ha Hs)).
Defined.

(** The two ends of auto-advance on sample flows: a stop at the first
    questions stage after one step, and the budget error on a cycle. *)
Example auto_advance_stops :
  let u := auto_advance_node Samples.disk Samples.execute_action
             (Samples.start_state "intake_sipoc_v1") in
  u_active_stage_id u = Some "engagement_context"
  /\ u_auto_advance_count u = Some 1 /\ u_error u = None.
Proof. vm_compute. repeat split. Qed.

Example auto_advance_cycle :
  u_error (auto_advance_node Samples.disk Samples.execute_action
             (Samples.start_state "outputs_v1"))
  = Some (Message "Auto-advance exceeded max steps (50)").
Proof. vm_compute. reflexivity. Qed.

(** ** Ingest *)

Section Ingest.
Import Spec.

Variable disk : string -> flow_file.

Lemma assoc_get_set {V : Type} (k : string) (v : V) (c : list (string * V)) :
  assoc_get String.eqb k (assoc_set String.eqb k v c) = Some v.
Proof.
  induction c as [|[k' v'] c IH]; cbn.
  - now rewrite String.eqb_refl.
  - destruct (String.eqb k' k) eqn:E; cbn; rewrite E; [reflexivity|exact IH].
Qed.

Lemma cursor_mem_set (k : string) (z : Z) (c : cursor) :
  cursor_mem k (cursor_set k z c) = true.
Proof. unfold cursor_mem, cursor_set, assoc_mem. now rewrite assoc_get_set. Qed.

Lemma cursor_get_set (k : string) (z dflt : Z) (c : cursor) :
  cursor_get k dflt (cursor_set k z c) = z.
Proof. unfold cursor_get, cursor_set. now rewrite assoc_get_set. Qed.

(** The node, once the pending question, the stage and the answer to
    write are known. *)
Lemma ingest_writes (st : state) (text : string) (p : pending)
    (save_to : option string) (stage : stage) (answer : string)
    (slots0 slots' : value) :
  last (map Some (messages st)) None = Some (HumanMessage text) ->
  st_pending st = Some p ->
  p_save_to p = Some save_to ->
  py_copy (slots st) = Ok slots0 ->
  get_stage disk (flow_id st) (active_stage_id st) = Ok stage ->
  answer_written p text = Some answer ->
  write_slot slots0 save_to (VStr answer) = Ok slots' ->
  ingest_user_answer_node disk st = ingest_advance st stage p save_to slots'.
Proof.
  intros Hm Hp Hs Hc Hg Ha Hw.
  unfold ingest_user_answer_node, ingest_body. rewrite Hm, Hp.
  assert (Ht : pending_truthy p = true).
  { unfold pending_truthy. rewrite Hs. cbn. now rewrite orb_true_r. }
  rewrite Ht. cbn [negb]. rewrite Hc. cbn [bind]. rewrite Hg. cbn [bind].
  rewrite Hs. unfold answer_written in Ha.
  cbv zeta in Ha |- *.
  destruct (get_or false (p_is_clarifying p)).
  - injection Ha as <-. rewrite Hw. reflexivity.
  - destruct (first_clarify text (get_or [] (p_clarify_if p))) as [[c f]|].
    + destruct (PyStr.nonempty f); [discriminate|].
      injection Ha as <-. rewrite Hw. reflexivity.
    + injection Ha as <-. rewrite Hw. reflexivity.
Qed.

(** C3, as the code has it.  When ingest writes the answer of a
    questions stage, the stage's cursor entry is set to the index after
    the answered question and pending becomes None.  If questions
    remain, the session stays on the stage.  If the answered question
    was the last, [active_stage_id] becomes the stage's [next]; the
    cursor entry is kept, holding the number of questions, not removed. *)
Theorem ingest_advances_cursor (st : state) (text : string) (p : pending)
    (save_to : option string) (stage : stage) (answer : string)
    (slots0 slots' : value) :
  last (map Some (messages st)) None = Some (HumanMessage text) ->
  st_pending st = Some p ->
  p_save_to p = Some save_to ->
  py_copy (slots st) = Ok slots0 ->
  get_stage disk (flow_id st) (active_stage_id st) = Ok stage ->
  s_type stage = Some "questions" ->
  answer_written p text = Some answer ->
  write_slot slots0 save_to (VStr answer) = Ok slots' ->
  let idx := get_or (cursor_get (active_stage_id st) 0 (question_cursor st))
                    (p_question_index p) in
  let total := Z.of_nat (List.length (s_questions stage)) in
  let u := ingest_user_answer_node disk st in
  u_error u = None
  /\ u_slots u = Some slots'
  /\ u_pending u = Some None
  /\ u_question_cursor u
     = Some (cursor_set (active_stage_id st) (idx + 1) (question_cursor st))
  /\ cursor_get (active_stage_id st) 0 (question_cursor (apply_update st u)) = idx + 1
  /\ cursor_mem (active_stage_id st) (question_cursor (apply_update st u)) = true
  /\ (idx + 1 < total -> u_active_stage_id u = None)
  /\ (total <= idx + 1 -> u_active_stage_id u = Some (get_or "end" (s_next stage))).
Proof.
  intros Hm Hp Hs Hc Hg Ht Ha Hw idx total u.
  subst u. rewrite (ingest_writes st text p save_to stage answer slots0 slots'
                      Hm Hp Hs Hc Hg Ha Hw).
  unfold ingest_advance. rewrite Ht.
  change (String.eqb "questions" "questions") with true. cbv iota.
  fold idx. fold total.
  destruct (idx + 1 <? total) eqn:E;
    [apply Z.ltb_lt in E | apply Z.ltb_ge in E];
    cbn [u_error u_slots u_pending u_question_cursor u_active_stage_id
         apply_update question_cursor get_or];
    rewrite cursor_get_set, cursor_mem_set;
    repeat split; intros; try reflexivity; lia.
Qed.



End Ingest.

(** Answering the last of three questions, and the first of them. *)
Lemma ingest_advances_cursor_witness :
  let st := Samples.asking [HumanMessage "Dana from operations"] 2 [] in
  let u := ingest_user_answer_node Samples.disk st in
  u_active_stage_id u = Some "sipoc_confirm"
  /\ u_pending u = Some None
  /\ u_question_cursor u = Some [("engagement_context", 3)].
Proof.
  intros st u.
  destruct (ingest_advances_cursor Samples.disk st "Dana from operations"
              (Samples.question_pending "engagement.sponsor" 2 [])
              (Some "engagement.sponsor") Samples.context_stage
              "Dana from operations"
              (VDict [(KStr "engagement", VDict [])])
              (VDict [(KStr "engagement",
                       VDict [(KStr "sponsor", VStr "Dana from operations")])])
              eq_refl eq_refl eq_refl eq_refl eq_refl eq_refl eq_refl eq_refl)
    as (_ & _ & Hp & Hc & _ & _ & _ & Hn).
  split; [apply Hn; vm_compute; discriminate|].
  split; [exact Hp|exact Hc].
Defined.

(** Against "the cursor entry is cleared": after the answer to the
    last of three questions the cursor still has an entry for the
    stage, the value 3. *)
Lemma cursor_entry_cleared_counterexample :
  let st := Samples.asking [HumanMessage "Dana from operations"] 2 [] in
  let u := ingest_user_answer_node Samples.disk st in
  u_slots u = Some (VDict [(KStr "engagement",
                            VDict [(KStr "sponsor", VStr "Dana from operations")])])
  /\ u_active_stage_id u = Some "sipoc_confirm"
  /\ u_question_cursor u = Some [("engagement_context", 3)]
  /\ ~ (forall c, u_question_cursor u = Some c ->
                  cursor_mem "engagement_context" c = false).
Proof.
  cbv zeta. repeat split; try (vm_compute; reflexivity).
  intros H. specialize (H [("engagement_context", 3)] eq_refl).
  vm_compute in H. discriminate H.
Qed.



(** ** Loop detection *)

Section LoopDetection.

Variable disk : string -> flow_file.

Lemma count_msg_le_length (m : string) (l : list string) :
  (count_msg m l <= List.length l)%nat.
Proof. unfold count_msg. apply filter_length_le. Qed.

Lemma count_msg_pos_in (m : string) (l : list string) :
  (0 < count_msg m l)%nat -> In m l.
Proof.
  unfold count_msg. intros H.
  destruct (filter (String.eqb m) l) as [|x f] eqn:E; [cbn in H; lia|].
  assert (Hx : In x (filter (String.eqb m) l)) by (rewrite E; left; reflexivity).
  apply filter_In in Hx as [Hin Heq]. apply String.eqb_eq in Heq. now subst.
Qed.

Lemma detect_loop_true (st : state) (msg : string) :
  (6 <= List.length (messages st))%nat ->
  (20 < String.length msg)%nat ->
  (3 <= count_msg msg (recent_ai_messages st))%nat ->
  _detect_loop st = true.
Proof.
  intros H6 H20 H3. unfold _detect_loop.
  destruct (Nat.ltb_spec (List.length (messages st)) 6); [lia|].
  pose proof (count_msg_le_length msg (recent_ai_messages st)) as Hle.
  destruct (Nat.ltb_spec (List.length (recent_ai_messages st)) 3); [lia|].
  apply existsb_exists. exists msg. split.
  - apply count_msg_pos_in. lia.
  - apply andb_true_iff. split; [apply Nat.ltb_lt | apply Nat.leb_le]; assumption.
Qed.

(** C6, as the code has it.  When the history holds at least six
    messages and, among the bot messages the detector inspects (the
    last ten of them within the last twenty messages, stripped), one
    longer than 20 characters occurs three times or more, render does
    not render the prompt again: it sets [active_stage_id] to the
    current stage's [next], clears pending and emits the generic
    transition message, which is itself too short to count. *)
Theorem loop_forces_advance (st : state) (msg : string) (stage : stage) :
  (6 <= List.length (messages st))%nat ->
  (20 < String.length msg)%nat ->
  (3 <= count_msg msg (recent_ai_messages st))%nat ->
  get_stage disk (flow_id st) (active_stage_id st) = Ok stage ->
  let u := render_prompt_node disk st in
  u_active_stage_id u = Some (get_or "end" (s_next stage))
  /\ u_pending u = Some None
  /\ u_messages u = [AIMessage moving_on]
  /\ u_error u = None
  /\ u_events u
     = [loop_detected_force_advance (active_stage_id st) (get_or "end" (s_next stage))]
  /\ (String.length moving_on <= 20)%nat.
Proof.
  intros H6 H20 H3 Hg u. subst u.
  unfold render_prompt_node, render_body.
  rewrite (detect_loop_true st msg H6 H20 H3), Hg.
  cbn. repeat split. lia.
Qed.

End LoopDetection.

(** Three times the same prompt, each answered: the fourth render
    moves on. *)
Lemma loop_forces_advance_witness :
  let st := Samples.asking
              [AIMessage Samples.stuck_prompt; HumanMessage "ok";
               AIMessage Samples.stuck_prompt; HumanMessage "ok";
               AIMessage Samples.stuck_prompt; HumanMessage "ok"] 0 [] in
  let u := render_prompt_node Samples.disk st in
  u_active_stage_id u = Some "sipoc_confirm"
  /\ u_pending u = Some None
  /\ u_messages u = [AIMessage moving_on].
Proof.
  intros st u.
  destruct (loop_forces_advance Samples.disk st Samples.stuck_prompt
              Samples.context_stage
              ltac:(vm_compute; lia) ltac:(vm_compute; lia) ltac:(vm_compute; lia)
              eq_refl)
    as (H1 & H2 & H3 & _).
  exact (conj H1 (conj H2 H3)).
Defined.

(** Against "three repeats force the advance": the history is three
    times the same bot message of 26 characters and nothing else; the
    detector's guard on histories of fewer than six messages answers
    no, and render repeats the prompt a fourth time. *)
Lemma loop_detector_counterexample :
  let st := Samples.asking
              [AIMessage Samples.stuck_prompt; AIMessage Samples.stuck_prompt;
               AIMessage Samples.stuck_prompt] 0 [] in
  let u := render_prompt_node Samples.disk st in
  String.length Samples.stuck_prompt = 26%nat
  /\ count_msg Samples.stuck_prompt (recent_ai_messages st) = 3%nat
  /\ _detect_loop st = false
  /\ u_messages u = [AIMessage Samples.stuck_prompt]
  /\ u_active_stage_id u = None
  /\ u_pending u <> Some None.
Proof.
  cbv zeta. repeat split; try (vm_compute; reflexivity).
  vm_compute. discriminate.
Qed.

(** ** Slot paths: write, then read *)

Section WriteRead.
Import Spec.

(** *** Dictionaries *)

Lemma dict_get_set_same (k : string) (v : value) (d : dict) :
  dict_get k (dict_set k v d) = Some v.
Proof.
  unfold dict_get, dict_set. induction d as [|[k' v'] d IH]; cbn.
  - now rewrite String.eqb_refl.
  - destruct (key_eqb k' (KStr k)) eqn:E; cbn; rewrite E; [reflexivity|exact IH].
Qed.

Lemma dict_get_set_other (k k' : string) (v : value) (d : dict) :
  k' <> k -> dict_get k' (dict_set k v d) = dict_get k' d.
Proof.
  intros Hne. unfold dict_get, dict_set. induction d as [|[k0 v0] d IH]; cbn.
  - destruct (String.eqb_spec k k'); [congruence|reflexivity].
  - destruct (key_eqb k0 (KStr k)) eqn:E; cbn.
    + destruct (key_eqb k0 (KStr k')) eqn:E'; [|reflexivity].
      destruct k0 as [s0|z0]; cbn in E, E'; [|discriminate].
      apply String.eqb_eq in E, E'. congruence.
    + now rewrite IH.
Qed.

Lemma dict_mem_get (k : string) (d : dict) :
  dict_mem k d = match dict_get k d with Some _ => true | None => false end.
Proof. reflexivity. Qed.

Lemma dict_get_none_eq (k : string) (d : dict) :
  dict_get_none k d = match dict_get k d with Some v => v | None => VNone end.
Proof. reflexivity. Qed.

(** *** Sibling index keys differ from the key they index *)

Lemma rstrip_with_last (p : ascii -> bool) (a : string) (c : ascii) :
  p c = false ->
  PyStr.rstrip_with p (a ++ String c EmptyString) = a ++ String c EmptyString.
Proof.
  intros Hc. induction a as [|x a IH]; cbn.
  - now rewrite Hc.
  - rewrite IH. destruct a; reflexivity.
Qed.

Lemma idx_key1_neq (key : string) : idx_key1 key <> key.
Proof.
  unfold idx_key1. intros H.
  assert (Hs : PyStr.rstrip_char "s"%char key = key).
  { rewrite <- H at 1.
    change ("current_" ++ PyStr.rstrip_char "s"%char key ++ "_index")
      with ("current_" ++ PyStr.rstrip_char "s"%char key ++ "_inde" ++ "x").
    rewrite !append_assoc_s.
    unfold PyStr.rstrip_char at 1. rewrite rstrip_with_last by reflexivity.
    rewrite <- !append_assoc_s. exact H. }
  rewrite Hs in H. apply (f_equal String.length) in H.
  cbn in H. rewrite string_length_app in H. cbn in H. lia.
Qed.

Lemma idx_key2_neq (key : string) : idx_key2 key <> key.
Proof.
  unfold idx_key2. intros H. apply (f_equal String.length) in H.
  rewrite string_length_app in H. cbn in H. lia.
Qed.

(** *** Resolving a bracketed index in a mapping *)

Lemma same_off_refl (key : string) (d : dict) : same_off key d d.
Proof. intros k _. reflexivity. Qed.

Lemma same_off_set (key : string) (x : value) (d d' : dict) :
  same_off key d d' -> same_off key d (dict_set key x d').
Proof. intros H k Hk. rewrite dict_get_set_other by exact Hk. now apply H. Qed.

Lemma resolve_index_same_off (idx_str key : string) (d d' : dict) :
  same_off key d d' ->
  resolve_index idx_str key (VDict d') = resolve_index idx_str key (VDict d).
Proof.
  intros H. unfold resolve_index.
  destruct (String.eqb idx_str "current"); [|reflexivity].
  cbn [py_contains py_getitem bind]. rewrite !dict_mem_get.
  rewrite (H _ (idx_key1_neq key)), (H _ (idx_key2_neq key)). reflexivity.
Qed.

Lemma segment_index_same_off (idx_str key : string) (d d' : dict) :
  same_off key d d' ->
  segment_index idx_str key d' = segment_index idx_str key d.
Proof.
  intros H. unfold segment_index. now rewrite (resolve_index_same_off _ _ _ _ H).
Qed.

(** The writer and the reader resolve an index to the same value. *)
Lemma segment_index_resolved (idx_str key : string) (d : dict) (i : Z) :
  segment_index idx_str key d = Some i ->
  exists idx,
    resolve_index idx_str key (VDict d) = Ok idx
    /\ read_index idx_str key (VDict d) = Some idx
    /\ as_int idx = Some i.
Proof.
  unfold segment_index, resolve_index, read_index.
  destruct (String.eqb idx_str "current").
  - cbn [py_contains py_getitem bind]. rewrite !dict_mem_get, !dict_get_none_eq.
    destruct (dict_get (idx_key1 key) d) as [x|].
    + intros Hi. exists x. repeat split; [|exact Hi].
      destruct x; try reflexivity; discriminate.
    + destruct (dict_get (idx_key2 key) d) as [x|]; [|discriminate].
      intros Hi. exists x. repeat split; [|exact Hi].
      destruct x; try reflexivity; discriminate.
  - destruct (PyStr.py_int idx_str) as [z|]; [|discriminate].
    intros Hi. exists (VInt z). repeat split. exact Hi.
Qed.

(** *** Extending a list up to an index *)

Lemma extend_loop_list (filler idx : value) (i : Z) (n : nat) :
  as_int idx = Some i ->
  forall l,
    n = Z.to_nat (i + 1 - Z.of_nat (List.length l)) ->
    extend_loop n filler idx (VList l) = Ok (VList (l ++ repeat filler n)).
Proof.
  intros Hi. induction n as [|n IH]; intros l Hn.
  - cbn [extend_loop py_len_le py_len bind]. rewrite Hi.
    destruct (Z.leb_spec (Z.of_nat (List.length l)) i); [lia|].
    cbn. now rewrite app_nil_r.
  - cbn [extend_loop py_len_le py_len bind]. rewrite Hi.
    destruct (Z.leb_spec (Z.of_nat (List.length l)) i); [|lia].
    cbn [py_append bind]. rewrite IH.
    + cbn [repeat]. now rewrite <- app_assoc.
    + rewrite List.length_app. cbn [List.length]. lia.
Qed.

Lemma extend_list (filler idx : value) (i : Z) (l : list value) :
  as_int idx = Some i ->
  extend filler idx (VList l) = Ok (VList (extended filler i l)).
Proof.
  intros Hi. unfold extend, extend_bound. rewrite Hi. cbn [py_len].
  apply (extend_loop_list filler idx i _ Hi). reflexivity.
Qed.

Lemma extended_length (filler : value) (i : Z) (l : list value) :
  0 <= i -> i < Z.of_nat (List.length (extended filler i l)).
Proof.
  intros Hi. unfold extended. rewrite List.length_app, repeat_length. lia.
Qed.

Lemma extended_nth (filler : value) (i : Z) (l : list value) :
  0 <= i ->
  nth (Z.to_nat i) (extended filler i l) filler = nth (Z.to_nat i) l filler.
Proof.
  intros Hi. unfold extended.
  destruct (Nat.lt_ge_cases (Z.to_nat i) (List.length l)) as [Hlt|Hge].
  - now rewrite app_nth1.
  - rewrite app_nth2 by exact Hge. rewrite nth_repeat.
    now rewrite (nth_overflow l filler Hge).
Qed.

(** *** Positions in a list *)

Lemma seq_pos_in_range (n : nat) (i : Z) :
  0 <= i < Z.of_nat n -> seq_pos n i = Some (Z.to_nat i).
Proof.
  intros Hi. unfold seq_pos.
  destruct (Z.ltb_spec i 0); [lia|].
  destruct (Z.leb_spec 0 i); [|lia].
  destruct (Z.ltb_spec i (Z.of_nat n)); [reflexivity|lia].
Qed.

Lemma list_set_length {A : Type} (n : nat) (a : A) (l : list A) :
  List.length (list_set n a l) = List.length l.
Proof.
  revert n. induction l as [|x l IH]; intros [|n]; cbn; try reflexivity.
  now rewrite IH.
Qed.

Lemma list_set_nth_error {A : Type} (n : nat) (a : A) (l : list A) :
  (n < List.length l)%nat -> nth_error (list_set n a l) n = Some a.
Proof.
  revert n. induction l as [|x l IH]; intros [|n] Hn; cbn in *; try lia.
  - reflexivity.
  - apply IH. lia.
Qed.

Lemma list_set_app_r {A : Type} (a : list A) (n : nat) (x : A) (b : list A) :
  list_set (List.length a + n) x (a ++ b) = (a ++ list_set n x b)%list.
Proof. induction a as [|y a IH]; cbn; [reflexivity|now rewrite IH]. Qed.

Lemma nth_error_nth_in_range {A : Type} (n : nat) (l : list A) (dflt : A) :
  (n < List.length l)%nat -> nth_error l n = Some (nth n l dflt).
Proof. intros Hn. now apply nth_error_nth'. Qed.

(** *** One bracketed segment *)

Lemma open_index_navigable (filler : value) (part key idx_str0 : string)
    (d : dict) (i : Z) (l0 : list value) :
  split_bracket part = Some (key, idx_str0) ->
  segment_index (PyStr.rstrip_char "]"%char idx_str0) key d = Some i ->
  (dict_get key d = None /\ l0 = []) \/ dict_get key d = Some (VList l0) ->
  exists idx d2,
    open_index filler part (VDict d)
    = Open key idx (VList (extended filler i l0)) (VDict d2)
    /\ as_int idx = Some i
    /\ read_index (PyStr.rstrip_char "]"%char idx_str0) key (VDict d) = Some idx
    /\ dict_get key d2 = Some (VList (extended filler i l0))
    /\ same_off key d d2.
Proof.
  intros Hsplit Hseg Hget.
  destruct (segment_index_resolved _ _ _ _ Hseg) as (idx & Hres & Hread & Hint).
  unfold open_index. rewrite Hsplit, Hres.
  cbn [ensure_key py_contains bind]. rewrite dict_mem_get.
  destruct Hget as [[Hnone ->]|Hsome].
  - rewrite Hnone. cbn [py_setitem py_getitem]. rewrite dict_get_set_same.
    rewrite (extend_list filler idx i [] Hint).
    exists idx, (dict_set key (VList (extended filler i [])) (dict_set key (VList []) d)).
    repeat split; try assumption.
    + apply dict_get_set_same.
    + apply same_off_set, same_off_set, same_off_refl.
  - rewrite Hsome. cbn [py_getitem]. rewrite Hsome.
    rewrite (extend_list filler idx i l0 Hint). cbn [py_setitem].
    exists idx, (dict_set key (VList (extended filler i l0)) d).
    repeat split; try assumption.
    + apply dict_get_set_same.
    + apply same_off_set, same_off_refl.
Qed.

(** What a read does with one bracketed segment over a mapping. *)
Lemma get_parts_indexed (part key idx_str0 : string) (rest : list string)
    (d : dict) (idx : value) (i : Z) :
  is_indexed part = true ->
  split_bracket part = Some (key, idx_str0) ->
  read_index (PyStr.rstrip_char "]"%char idx_str0) key (VDict d) = Some idx ->
  as_int idx = Some i ->
  get_parts (part :: rest) (VDict d)
  = match dict_get key d with
    | Some (VList l) =>
        if ((0 <=? i) && (i <? Z.of_nat (List.length l)))%bool
        then match nth_error l (Z.to_nat i) with
             | Some x => get_parts rest x
             | None => Ok VNone
             end
        else Ok VNone
    | _ => Ok VNone
    end.
Proof.
  intros Hidx Hsplit Hread Hint. cbn [get_parts].
  rewrite Hidx, Hsplit, Hread, Hint, dict_get_none_eq.
  destruct (dict_get key d) as [[| | | |l|]|]; reflexivity.
Qed.

Lemma read_index_same_off (idx_str key : string) (d d' : dict) :
  same_off key d d' ->
  read_index idx_str key (VDict d') = read_index idx_str key (VDict d).
Proof.
  intros H. unfold read_index.
  destruct (String.eqb idx_str "current"); [|reflexivity].
  rewrite !dict_mem_get, !dict_get_none_eq.
  rewrite (H _ (idx_key1_neq key)), (H _ (idx_key2_neq key)). reflexivity.
Qed.

Lemma get_parts_none (parts : list string) : get_parts parts VNone = Ok VNone.
Proof. destruct parts; reflexivity. Qed.

(** Reading along a path the writer would have to create finds nothing. *)
Lemma get_parts_fresh (parts : list string) :
  navigable parts (VDict []) = true -> get_parts parts (VDict []) = Ok VNone.
Proof.
  destruct parts as [|part rest]; [discriminate|].
  cbn [navigable get_parts].
  destruct (is_indexed part).
  - destruct (split_bracket part) as [[key idx_str0]|]; [|discriminate].
    intros _. destruct (read_index _ key (VDict [])); reflexivity.
  - intros _. apply get_parts_none.
Qed.

Lemma leaf_after_indexed (parts : list string) (old v : value) :
  is_indexed (last parts EmptyString) = true -> leaf_after parts old v = v.
Proof. intros H. unfold leaf_after. rewrite H. destruct old; reflexivity. Qed.

(** *** Write, then read, along a navigable path *)

Lemma leaf_after_cons (part next_part : string) (rest : list string) (old v : value) :
  leaf_after (part :: next_part :: rest) old v = leaf_after (next_part :: rest) old v.
Proof. reflexivity. Qed.

Lemma round_trip_plain_leaf (v : value) (final_key : string) (d : dict) :
  is_indexed final_key = false -> round_trip v [final_key] (VDict d).
Proof.
  intros Hidx.
  exists (dict_get_none final_key d),
    (VDict (dict_set final_key (leaf_after [final_key] (dict_get_none final_key d) v) d)).
  split; [cbn [get_parts]; now rewrite Hidx|].
  split.
  - cbn [write_parts]. unfold write_final, leaf_after. rewrite Hidx.
    cbn [py_contains last negb andb]. rewrite Hidx, dict_mem_get, dict_get_none_eq.
    destruct (dict_get final_key d) as [x|] eqn:Hget; cbn [py_setitem py_getitem].
    + rewrite Hget. destruct x, v; reflexivity.
    + reflexivity.
  - split; [cbn [navigable]; now rewrite Hidx|].
    cbn [get_parts]. rewrite Hidx, dict_get_none_eq, dict_get_set_same.
    reflexivity.
Qed.

Lemma round_trip_indexed_leaf (v : value) (final_key key idx_str0 : string)
    (d : dict) (i : Z) (l0 : list value) :
  is_indexed final_key = true ->
  split_bracket final_key = Some (key, idx_str0) ->
  segment_index (PyStr.rstrip_char "]"%char idx_str0) key d = Some i ->
  0 <= i ->
  (dict_get key d = None /\ l0 = []) \/ dict_get key d = Some (VList l0) ->
  round_trip v [final_key] (VDict d)
  /\ write_parts [final_key] v (VDict d)
     = (Returned,
        VDict (dict_set key
                 (VList (list_set (Z.to_nat i) v (extended VNone i l0)))
                 (match dict_get key d with
                  | Some _ => dict_set key (VList (extended VNone i l0)) d
                  | None => dict_set key (VList (extended VNone i l0))
                              (dict_set key (VList []) d)
                  end))).
Proof.
  intros Hidx Hsplit Hseg Hi Hget.
  destruct (open_index_navigable VNone final_key key idx_str0 d i l0 Hsplit Hseg Hget)
    as (idx & d2 & Hopen & Hint & Hread & Hget2 & Hoff).
  pose proof (extended_length VNone i l0 Hi) as Hlen.
  set (l1 := extended VNone i l0) in *.
  set (l3 := list_set (Z.to_nat i) v l1).
  assert (Hw : write_parts [final_key] v (VDict d)
               = (Returned, VDict (dict_set key (VList l3) d2))).
  { cbn [write_parts]. unfold write_final. rewrite Hidx, Hopen.
    unfold py_setidx_v. rewrite Hint. cbn [py_setidx].
    rewrite (seq_pos_in_range (List.length l1) i) by lia. reflexivity. }
  assert (Hd2 : d2 = match dict_get key d with
                     | Some _ => dict_set key (VList l1) d
                     | None => dict_set key (VList l1) (dict_set key (VList []) d)
                     end).
  { revert Hopen. unfold open_index. rewrite Hsplit.
    destruct (segment_index_resolved _ _ _ _ Hseg) as (idx' & Hres & _ & Hint').
    rewrite Hres. cbn [ensure_key py_contains bind]. rewrite dict_mem_get.
    destruct Hget as [[Hnone ->]|Hsome].
    - rewrite Hnone. cbn [py_setitem py_getitem]. rewrite dict_get_set_same.
      rewrite (extend_list VNone idx' i [] Hint'). cbn [py_setitem].
      intros H. now inversion H.
    - rewrite Hsome. cbn [py_getitem]. rewrite Hsome.
      rewrite (extend_list VNone idx' i l0 Hint'). cbn [py_setitem].
      intros H. now inversion H. }
  split; [|rewrite Hw, Hd2; reflexivity].
  assert (Hold : exists old, get_parts [final_key] (VDict d) = Ok old).
  { rewrite (get_parts_indexed final_key key idx_str0 [] d idx i Hidx Hsplit Hread Hint).
    destruct (dict_get key d) as [[| | | |l|]|]; try (eexists; reflexivity).
    destruct ((0 <=? i) && (i <? Z.of_nat (List.length l)))%bool;
      [|eexists; reflexivity].
    destruct (nth_error l (Z.to_nat i)); eexists; reflexivity. }
  destruct Hold as [old Hold].
  exists old, (VDict (dict_set key (VList l3) d2)).
  split; [exact Hold|]. split; [exact Hw|].
  assert (Hoff3 : same_off key d (dict_set key (VList l3) d2))
    by (apply same_off_set; exact Hoff).
  split.
  - cbn [navigable]. rewrite Hidx, Hsplit.
    rewrite (segment_index_same_off _ _ _ _ Hoff3), Hseg, dict_get_set_same.
    destruct (Z.leb_spec 0 i); [reflexivity|lia].
  - rewrite (get_parts_indexed final_key key idx_str0 [] _ idx i Hidx Hsplit).
    2:{ rewrite (read_index_same_off _ _ _ _ Hoff3). exact Hread. }
    2:{ exact Hint. }
    rewrite dict_get_set_same.
    assert (Hlen3 : List.length l3 = List.length l1) by apply list_set_length.
    rewrite Hlen3.
    destruct (Z.leb_spec 0 i); [|lia].
    destruct (Z.ltb_spec i (Z.of_nat (List.length l1))); [|lia].
    cbn [andb]. unfold l3. rewrite list_set_nth_error by lia.
    cbn [get_parts]. rewrite leaf_after_indexed; [reflexivity|exact Hidx].
Qed.

(** The writer's loop, one part before the last. *)
Lemma write_parts_cons (part next_part : string) (rest : list string)
    (v current : value) :
  write_parts (part :: next_part :: rest) v current
  = if is_indexed part then
      match open_index (VDict []) part current with
      | Stop o c => (o, c)
      | Open key idx x current2 =>
          match py_getidx_v idx x with
          | Raise e => (Raised e, current2)
          | Ok child =>
              let (o, child') := write_parts (next_part :: rest) v child in
              (o, put_child key idx child' x current2)
          end
      end
    else
      let dflt :=
        if (PyStr.nonempty next_part && PyStr.contains "["%char next_part)%bool
        then VList [] else VDict [] in
      match ensure_key part dflt current with
      | Raise e => (Raised e, current)
      | Ok current1 =>
          match py_getitem part current1 with
          | Raise e => (Raised e, current1)
          | Ok child =>
              let (o, child') := write_parts (next_part :: rest) v child in
              (o, match py_setitem part child' current1 with
                  | Ok c => c
                  | Raise _ => current1
                  end)
          end
      end.
Proof. reflexivity. Qed.

Lemma get_parts_plain (part : string) (rest : list string) (d : dict) :
  is_indexed part = false ->
  get_parts (part :: rest) (VDict d) = get_parts rest (dict_get_none part d).
Proof. intros H. cbn [get_parts]. now rewrite H. Qed.

Lemma navigable_dict (parts : list string) (current : value) :
  navigable parts current = true -> exists d, current = VDict d.
Proof.
  destruct parts, current; try discriminate; intros _; eexists; reflexivity.
Qed.

Lemma navigable_plain (part next_part : string) (rest : list string) (d : dict) :
  is_indexed part = false ->
  navigable (part :: next_part :: rest) (VDict d)
  = match dict_get part d with
    | Some child => navigable (next_part :: rest) child
    | None =>
        if (PyStr.nonempty next_part && PyStr.contains "["%char next_part)%bool
        then false
        else navigable (next_part :: rest) (VDict [])
    end.
Proof. intros H. cbn [navigable]. now rewrite H. Qed.

Lemma navigable_plain_child (part next_part : string) (rest : list string)
    (d : dict) (child : value) :
  is_indexed part = false ->
  dict_get part d = Some child ->
  navigable (next_part :: rest) child = true ->
  navigable (part :: next_part :: rest) (VDict d) = true.
Proof. intros H Hg Hn. rewrite (navigable_plain _ _ _ _ H), Hg. exact Hn. Qed.

Lemma navigable_indexed (part next_part key idx_str0 : string)
    (rest : list string) (d : dict) :
  is_indexed part = true ->
  split_bracket part = Some (key, idx_str0) ->
  navigable (part :: next_part :: rest) (VDict d)
  = match segment_index (PyStr.rstrip_char "]"%char idx_str0) key d with
    | Some i =>
        ((0 <=? i)
         && match dict_get key d with
            | None => navigable (next_part :: rest) (VDict [])
            | Some (VList l) =>
                navigable (next_part :: rest) (nth (Z.to_nat i) l (VDict []))
            | Some _ => false
            end)%bool
    | None => false
    end.
Proof. intros H Hs. cbn [navigable]. now rewrite H, Hs. Qed.

Lemma round_trip_plain_step (v : value) (part next_part : string)
    (rest : list string) (d : dict) :
  is_indexed part = false ->
  (forall child, navigable (next_part :: rest) child = true ->
                 round_trip v (next_part :: rest) child) ->
  navigable (part :: next_part :: rest) (VDict d) = true ->
  round_trip v (part :: next_part :: rest) (VDict d).
Proof.
  intros Hidx IH Hnav. rewrite navigable_plain in Hnav by exact Hidx.
  unfold round_trip. setoid_rewrite leaf_after_cons.
  destruct (dict_get part d) as [child|] eqn:Hget.
  - destruct (IH child Hnav) as (old & child' & Hold & Hw & Hnav' & Hread).
    exists old, (VDict (dict_set part child' d)).
    split; [now rewrite (get_parts_plain _ _ _ Hidx), dict_get_none_eq, Hget|].
    split.
    { rewrite write_parts_cons, Hidx.
      cbn [ensure_key py_contains bind]. rewrite dict_mem_get, Hget.
      cbn [py_getitem]. rewrite Hget, Hw. reflexivity. }
    split.
    { apply (navigable_plain_child part next_part rest _ child' Hidx);
        [apply dict_get_set_same|exact Hnav']. }
    rewrite (get_parts_plain _ _ _ Hidx), dict_get_none_eq, dict_get_set_same.
    exact Hread.
  - destruct (PyStr.nonempty next_part && PyStr.contains "["%char next_part)%bool
      eqn:Hnext; [discriminate|].
    destruct (IH (VDict []) Hnav) as (old & child' & Hold & Hw & Hnav' & Hread).
    rewrite (get_parts_fresh _ Hnav) in Hold. injection Hold as <-.
    exists VNone, (VDict (dict_set part child' (dict_set part (VDict []) d))).
    split.
    { rewrite (get_parts_plain _ _ _ Hidx), dict_get_none_eq, Hget.
      apply get_parts_none. }
    split.
    { rewrite write_parts_cons, Hidx, Hnext.
      cbn [ensure_key py_contains bind]. rewrite dict_mem_get, Hget.
      cbn [py_setitem py_getitem]. rewrite dict_get_set_same, Hw. reflexivity. }
    split.
    { apply (navigable_plain_child part next_part rest _ child' Hidx);
        [apply dict_get_set_same|exact Hnav']. }
    rewrite (get_parts_plain _ _ _ Hidx), dict_get_none_eq, dict_get_set_same.
    exact Hread.
Qed.

Lemma round_trip_indexed_step (v : value) (part next_part : string)
    (rest : list string) (d : dict) :
  is_indexed part = true ->
  (forall child, navigable (next_part :: rest) child = true ->
                 round_trip v (next_part :: rest) child) ->
  navigable (part :: next_part :: rest) (VDict d) = true ->
  round_trip v (part :: next_part :: rest) (VDict d).
Proof.
  intros Hidx IH Hnav.
  destruct (split_bracket part) as [[key idx_str0]|] eqn:Hsplit.
  2:{ cbn [navigable] in Hnav. rewrite Hidx, Hsplit in Hnav. discriminate. }
  rewrite (navigable_indexed _ _ _ _ _ _ Hidx Hsplit) in Hnav.
  destruct (segment_index (PyStr.rstrip_char "]"%char idx_str0) key d) as [i|] eqn:Hseg;
    [|discriminate].
  apply andb_true_iff in Hnav as [Hi Hnav]. apply Z.leb_le in Hi.
  assert (Hl0 : exists l0,
             ((dict_get key d = None /\ l0 = []) \/ dict_get key d = Some (VList l0))
             /\ navigable (next_part :: rest) (nth (Z.to_nat i) l0 (VDict [])) = true).
  { destruct (dict_get key d) as [[| | | |l|]|]; try discriminate.
    - exists l. split; [right; reflexivity|exact Hnav].
    - exists []. split; [left; split; reflexivity|].
      destruct (Z.to_nat i); exact Hnav. }
  destruct Hl0 as (l0 & Hget & Hchild).
  destruct (open_index_navigable (VDict []) part key idx_str0 d i l0 Hsplit Hseg Hget)
    as (idx & d2 & Hopen & Hint & Hread & Hget2 & Hoff).
  pose proof (extended_length (VDict []) i l0 Hi) as Hlen.
  pose proof (extended_nth (VDict []) i l0 Hi) as Hnth.
  set (l1 := extended (VDict []) i l0) in *.
  set (child := nth (Z.to_nat i) l0 (VDict [])) in *.
  destruct (IH child Hchild) as (old & child' & Hold & Hw & Hnav' & Hread').
  set (l3 := list_set (Z.to_nat i) child' l1).
  assert (Hlen3 : List.length l3 = List.length l1) by apply list_set_length.
  assert (Hoff3 : same_off key d (dict_set key (VList l3) d2))
    by (apply same_off_set; exact Hoff).
  unfold round_trip. setoid_rewrite leaf_after_cons.
  assert (Hbefore : get_parts (part :: next_part :: rest) (VDict d)
                    = Ok (match dict_get key d with
                          | Some (VList l) =>
                              if (i <? Z.of_nat (List.length l)) then old else VNone
                          | _ => VNone
                          end)).
  { rewrite (get_parts_indexed part key idx_str0 _ d idx i Hidx Hsplit Hread Hint).
    destruct Hget as [[Hnone ->]|Hsome].
    - now rewrite Hnone.
    - rewrite Hsome. destruct (Z.leb_spec 0 i); [|lia]. cbn [andb].
      destruct (Z.ltb_spec i (Z.of_nat (List.length l0))); [|reflexivity].
      rewrite (nth_error_nth_in_range (Z.to_nat i) l0 (VDict [])) by lia.
      exact Hold. }
  (* When the child was created by the write, the read before found nothing. *)
  assert (Hfresh : (dict_get key d = None \/ Z.of_nat (List.length l0) <= i) ->
                   old = VNone).
  { intros Hcase.
    assert (Hc : child = VDict []).
    { unfold child. destruct Hcase as [Hnone|Hge].
      - destruct Hget as [[_ ->]|Hsome]; [|congruence]. now destruct (Z.to_nat i).
      - apply nth_overflow. lia. }
    rewrite Hc in Hold, Hchild. rewrite (get_parts_fresh _ Hchild) in Hold.
    now injection Hold as <-. }
  exists (match dict_get key d with
          | Some (VList l) => if (i <? Z.of_nat (List.length l)) then old else VNone
          | _ => VNone
          end), (VDict (dict_set key (VList l3) d2)).
  split; [exact Hbefore|]. split.
  { rewrite write_parts_cons, Hidx, Hopen.
    unfold py_getidx_v. rewrite Hint. cbn [py_getidx].
    rewrite (seq_pos_in_range (List.length l1) i) by lia.
    rewrite (nth_error_nth_in_range (Z.to_nat i) l1 (VDict [])) by lia.
    rewrite Hnth. fold child. rewrite Hw.
    unfold put_child, py_setidx_v. rewrite Hint. cbn [py_setidx].
    rewrite (seq_pos_in_range (List.length l1) i) by lia. reflexivity. }
  split.
  { rewrite (navigable_indexed _ _ _ _ _ _ Hidx Hsplit).
    rewrite (segment_index_same_off _ _ _ _ Hoff3), Hseg, dict_get_set_same.
    destruct (Z.leb_spec 0 i); [|lia]. cbn [andb].
    rewrite <- (nth_error_nth (list_set (Z.to_nat i) child' l1) (Z.to_nat i) (VDict [])
                  (list_set_nth_error (Z.to_nat i) child' l1 ltac:(lia))) in Hnav'.
    exact Hnav'. }
  rewrite (get_parts_indexed part key idx_str0 _ _ idx i Hidx Hsplit).
  2:{ rewrite (read_index_same_off _ _ _ _ Hoff3). exact Hread. }
  2:{ exact Hint. }
  rewrite dict_get_set_same, Hlen3.
  destruct (Z.leb_spec 0 i); [|lia].
  destruct (Z.ltb_spec i (Z.of_nat (List.length l1))); [|lia].
  cbn [andb]. unfold l3. rewrite list_set_nth_error by lia.
  rewrite Hread'. f_equal.
  destruct Hget as [[Hnone ->]|Hsome].
  - rewrite Hnone. rewrite (Hfresh (or_introl Hnone)). reflexivity.
  - rewrite Hsome. destruct (Z.ltb_spec i (Z.of_nat (List.length l0))); [reflexivity|].
    rewrite Hfresh by (right; lia). reflexivity.
Qed.

(** Every navigable path round-trips. *)
Lemma navigable_round_trip (v : value) (parts : list string) :
  forall current, navigable parts current = true -> round_trip v parts current.
Proof.
  induction parts as [|part rest IH]; intros current Hnav.
  - destruct current; discriminate.
  - destruct (navigable_dict _ _ Hnav) as [d ->].
    destruct rest as [|next_part rest].
    + destruct (is_indexed part) eqn:Hidx.
      * cbn [navigable] in Hnav. rewrite Hidx in Hnav.
        destruct (split_bracket part) as [[key idx_str0]|] eqn:Hsplit; [|discriminate].
        destruct (segment_index (PyStr.rstrip_char "]"%char idx_str0) key d)
          as [i|] eqn:Hseg; [|discriminate].
        apply andb_true_iff in Hnav as [Hi Hnav]. apply Z.leb_le in Hi.
        destruct (dict_get key d) as [[| | | |l|]|] eqn:Hget; try discriminate.
        -- apply (round_trip_indexed_leaf v part key idx_str0 d i l Hidx Hsplit Hseg Hi).
           right; exact Hget.
        -- apply (round_trip_indexed_leaf v part key idx_str0 d i [] Hidx Hsplit Hseg Hi).
           left; split; [exact Hget|reflexivity].
      * now apply round_trip_plain_leaf.
    + destruct (is_indexed part) eqn:Hidx.
      * now apply round_trip_indexed_step.
      * now apply round_trip_plain_step.
Qed.

(** *** Paths through existing plain keys *)

Lemma dict_set_get_same (k : string) (x : value) (d : dict) :
  dict_get k d = Some x -> dict_set k x d = d.
Proof.
  unfold dict_get, dict_set. induction d as [|[k' v'] d IH]; cbn; [discriminate|].
  destruct (key_eqb k' (KStr k)) eqn:E.
  - intros H. now injection H as ->.
  - intros H. now rewrite IH.
Qed.

Lemma get_through_prefix (prefix : list string) :
  forall (slots c : value) (parts : list string),
    resolve_plain prefix slots = Some c ->
    get_parts (prefix ++ parts)%list slots = get_parts parts c.
Proof.
  induction prefix as [|k prefix IH]; intros slots c parts H; cbn in H.
  - now injection H as ->.
  - destruct slots as [| | | | |d]; try discriminate.
    destruct (is_indexed k) eqn:Hidx; [discriminate|].
    destruct (dict_get k d) as [child|] eqn:Hget; [|discriminate].
    change ((k :: prefix) ++ parts)%list with (k :: (prefix ++ parts))%list.
    rewrite (get_parts_plain _ _ _ Hidx), dict_get_none_eq, Hget.
    now apply IH.
Qed.

Lemma write_through_prefix (v : value) (prefix : list string) :
  forall (slots c c' : value) (part : string) (rest : list string) (o : outcome),
    resolve_plain prefix slots = Some c ->
    write_parts (part :: rest) v c = (o, c') ->
    exists slots',
      write_parts (prefix ++ part :: rest)%list v slots = (o, slots')
      /\ resolve_plain prefix slots' = Some c'
      /\ (c' = c -> slots' = slots).
Proof.
  induction prefix as [|k prefix IH]; intros slots c c' part rest o H Hw; cbn in H.
  - injection H as ->. exists c'. repeat split; [exact Hw|auto].
  - destruct slots as [| | | | |d]; try discriminate.
    destruct (is_indexed k) eqn:Hidx; [discriminate|].
    destruct (dict_get k d) as [child|] eqn:Hget; [|discriminate].
    destruct (IH child c c' part rest o H Hw) as (child' & Hw' & Hres & Hsame).
    exists (VDict (dict_set k child' d)).
    change ((k :: prefix) ++ part :: rest)%list
      with (k :: (prefix ++ part :: rest))%list.
    destruct (prefix ++ part :: rest)%list as [|next_part tl] eqn:E.
    { destruct prefix; discriminate. }
    repeat split.
    + rewrite write_parts_cons, Hidx.
      cbn [ensure_key py_contains bind]. rewrite dict_mem_get, Hget.
      cbn [py_getitem]. rewrite Hget, Hw'. reflexivity.
    + cbn [resolve_plain]. now rewrite Hidx, dict_get_set_same.
    + intros Hc. rewrite (Hsame Hc). now rewrite (dict_set_get_same _ _ _ Hget).
Qed.

(** *** The dynamic index without its sibling key *)




(** *** The properties of slot paths *)

Lemma path_round_trip (slots : value) (path : string) (v : value) :
  PyStr.nonempty path = true ->
  navigable (path_parts path) slots = true ->
  exists old slots',
    _get_nested_value slots path = Ok old
    /\ write slots path v = (Returned, slots')
    /\ navigable (path_parts path) slots' = true
    /\ _get_nested_value slots' path = Ok (leaf_after (path_parts path) old v).
Proof.
  intros Hne Hnav. unfold write, _get_nested_value. rewrite Hne.
  exact (navigable_round_trip v (path_parts path) slots Hnav).
Qed.

(** C4, as the code has it.  For a non-empty path that is navigable in
    the slots (see [navigable]) and whose value before the write is not
    a list: the write returns normally, and reading the same path
    afterwards returns the written value. *)
Theorem write_then_read (slots : value) (path : string) (v old : value) :
  PyStr.nonempty path = true ->
  navigable (path_parts path) slots = true ->
  _get_nested_value slots path = Ok old ->
  is_list old = false ->
  exists slots',
    write slots path v = (Returned, slots')
    /\ _get_nested_value slots' path = Ok v.
Proof.
  intros Hne Hnav Hold Hlist.
  destruct (path_round_trip slots path v Hne Hnav) as (old' & slots' & Ho & Hw & _ & Hr).
  rewrite Hold in Ho. injection Ho as <-.
  exists slots'. split; [exact Hw|]. rewrite Hr. f_equal.
  unfold leaf_after. destruct old; try reflexivity. discriminate.
Qed.

Lemma leaf_after_append (parts : list string) (l : list value) (v : value) :
  is_indexed (last parts EmptyString) = false ->
  is_list v = false ->
  leaf_after parts (VList l) v = VList (l ++ [v]).
Proof. intros Hp Hv. unfold leaf_after. now rewrite Hp, Hv. Qed.

Lemma leaf_after_replace (parts : list string) (old v : value) :
  is_list old = false \/ is_list v = true -> leaf_after parts old v = v.
Proof.
  intros [Ho|Hv]; unfold leaf_after.
  - destruct old; try reflexivity. discriminate.
  - rewrite Hv. destruct old; try reflexivity.
    now rewrite andb_false_r.
Qed.

Lemma write_n_appends (path : string) (v : value) :
  PyStr.nonempty path = true ->
  is_indexed (last (path_parts path) EmptyString) = false ->
  is_list v = false ->
  forall (n : nat) (slots : value) (l : list value),
    navigable (path_parts path) slots = true ->
    _get_nested_value slots path = Ok (VList l) ->
    _get_nested_value (write_n n slots path v) path = Ok (VList (l ++ repeat v n)).
Proof.
  intros Hne Hplain Hv n. induction n as [|n IH]; intros slots l Hnav Hold.
  - cbn [write_n repeat]. now rewrite app_nil_r.
  - destruct (path_round_trip slots path v Hne Hnav)
      as (old & slots' & Ho & Hw & Hnav' & Hr).
    rewrite Hold in Ho. injection Ho as <-.
    rewrite (leaf_after_append _ l v Hplain Hv) in Hr.
    cbn [write_n repeat]. rewrite Hw. cbn [snd].
    rewrite (IH slots' (l ++ [v])%list Hnav' Hr).
    now rewrite <- app_assoc.
Qed.

(** C8, as the code has it.  For a non-empty navigable path whose last
    part is a plain key: when the path holds a list and the value is not
    a list, the write appends the value, so that [n] writes of it leave
    the list longer by [n]; when the path holds anything else, or the
    value is itself a list, the write replaces what the path holds.
    For a path whose last part has a bracketed index the write always
    replaces the element at that index, whatever the element and the
    value are: an element that is a list is replaced too, and nothing
    is appended to it. *)
Theorem write_appends_to_list (slots : value) (path : string) :
  PyStr.nonempty path = true ->
  navigable (path_parts path) slots = true ->
  (is_indexed (last (path_parts path) EmptyString) = false ->
   (forall (l : list value) (v : value) (n : nat),
       _get_nested_value slots path = Ok (VList l) ->
       is_list v = false ->
       fst (write slots path v) = Returned
       /\ _get_nested_value (snd (write slots path v)) path = Ok (VList (l ++ [v]))
       /\ (exists l', _get_nested_value (write_n n slots path v) path = Ok (VList l')
                      /\ l' = (l ++ repeat v n)%list
                      /\ List.length l' = (List.length l + n)%nat))
   /\ (forall (old v : value),
          _get_nested_value slots path = Ok old ->
          is_list old = false \/ is_list v = true ->
          fst (write slots path v) = Returned
          /\ _get_nested_value (snd (write slots path v)) path = Ok v))
  /\ (is_indexed (last (path_parts path) EmptyString) = true ->
      forall (v : value),
        fst (write slots path v) = Returned
        /\ _get_nested_value (snd (write slots path v)) path = Ok v
        /\ forall (l : list value),
             _get_nested_value slots path = Ok (VList l) ->
             is_list v = false ->
             _get_nested_value (snd (write slots path v)) path
             <> Ok (VList (l ++ [v]))).
Proof.
  intros Hne Hnav. split; [intros Hplain; split|intros Hidx].
  - intros l v n Hold Hv.
    destruct (path_round_trip slots path v Hne Hnav)
      as (old & slots' & Ho & Hw & _ & Hr).
    rewrite Hold in Ho. injection Ho as <-.
    rewrite (leaf_after_append _ l v Hplain Hv) in Hr.
    rewrite Hw. cbn [fst snd]. split; [reflexivity|]. split; [exact Hr|].
    exists (l ++ repeat v n)%list. split.
    + exact (write_n_appends path v Hne Hplain Hv n slots l Hnav Hold).
    + split; [reflexivity|]. now rewrite List.length_app, repeat_length.
  - intros old v Hold Hcase.
    destruct (path_round_trip slots path v Hne Hnav)
      as (old' & slots' & Ho & Hw & _ & Hr).
    rewrite Hold in Ho. injection Ho as <-.
    rewrite (leaf_after_replace _ old v Hcase) in Hr.
    rewrite Hw. cbn [fst snd]. split; [reflexivity|exact Hr].
  - intros v.
    destruct (path_round_trip slots path v Hne Hnav)
      as (old & slots' & Ho & Hw & _ & Hr).
    assert (Hleaf : leaf_after (path_parts path) old v = v).
    { unfold leaf_after. rewrite Hidx. now destruct old. }
    rewrite Hleaf in Hr. rewrite Hw. cbn [fst snd].
    split; [reflexivity|]. split; [exact Hr|].
    intros l _ Hv. rewrite Hr. intros [= Heq]. rewrite Heq in Hv. discriminate Hv.
Qed.


End WriteRead.

(** The second boundary scenario, and an indexed path. *)
Lemma write_then_read_witness :
  (exists slots',
      write (VDict []) "a.b.c" (VInt 5) = (Returned, slots')
      /\ _get_nested_value slots' "a.b.c" = Ok (VInt 5))
  /\ (exists slots',
         write (VDict [(KStr "workflows", VDict [(KStr "maps", VList [VDict []])])])
           "workflows.maps[0].trigger" (VStr "Order confirmed") = (Returned, slots')
         /\ _get_nested_value slots' "workflows.maps[0].trigger"
            = Ok (VStr "Order confirmed")).
Proof.
  split.
  - exact (write_then_read (VDict []) "a.b.c" (VInt 5) VNone
             eq_refl eq_refl eq_refl eq_refl).
  - exact (write_then_read
             (VDict [(KStr "workflows", VDict [(KStr "maps", VList [VDict []])])])
             "workflows.maps[0].trigger" (VStr "Order confirmed") VNone
             eq_refl eq_refl eq_refl eq_refl).
Defined.

Example write_creates_structure :
  write (VDict []) "a.b.c" (VInt 5)
  = (Returned, VDict [(KStr "a", VDict [(KStr "b", VDict [(KStr "c", VInt 5)])])]).
Proof. reflexivity. Qed.

(** Against "write, then read, returns the value": nothing is stored
    at the path, the value is a scalar, yet the write is the lenient
    no-op of an unresolved [current] and the read still finds nothing. *)
Lemma write_then_read_counterexample :
  let slots := VDict [(KStr "items", VList [VInt 1])] in
  _get_nested_value slots "items[current]" = Ok VNone
  /\ write slots "items[current]" (VInt 5) = (Returned, slots)
  /\ _get_nested_value (snd (write slots "items[current]" (VInt 5))) "items[current]"
     <> Ok (VInt 5).
Proof.
  cbv zeta. repeat split; try (vm_compute; reflexivity).
  vm_compute. discriminate.
Qed.

(** The third boundary scenario, with the same value twice; and a
    list element under a bracketed last part, which is replaced. *)
Lemma write_appends_to_list_witness :
  _get_nested_value
    (Spec.write_n 2 (VDict [(KStr "list", VList [])]) "list" (VStr "x")) "list"
  = Ok (VList [VStr "x"; VStr "x"])
  /\ _get_nested_value
       (snd (write (VDict [(KStr "m", VList [VList [VInt 1]])]) "m[0]" (VInt 5)))
       "m[0]"
     = Ok (VInt 5).
Proof.
  split.
  - destruct (write_appends_to_list (VDict [(KStr "list", VList [])]) "list"
                eq_refl eq_refl) as [H _].
    destruct (H eq_refl) as [Happ _].
    destruct (Happ [] (VStr "x") 2%nat eq_refl eq_refl) as (_ & _ & l' & Hg & -> & _).
    exact Hg.
  - destruct (write_appends_to_list (VDict [(KStr "m", VList [VList [VInt 1]])]) "m[0]"
                eq_refl eq_refl) as [_ H].
    exact (proj1 (proj2 (H eq_refl (VInt 5)))).
Defined.

Example write_twice :
  snd (write (snd (write (VDict [(KStr "list", VList [])]) "list" (VStr "x")))
         "list" (VStr "y"))
  = VDict [(KStr "list", VList [VStr "x"; VStr "y"])].
Proof. reflexivity. Qed.

(** Against "a list at the last segment is appended to": the last
    segment [m[0]] holds a list, the value is not a list, and the
    indexed write replaces the list. *)
Lemma write_appends_counterexample :
  let slots := VDict [(KStr "m", VList [VList [VInt 1]])] in
  _get_nested_value slots "m[0]" = Ok (VList [VInt 1])
  /\ write slots "m[0]" (VInt 5) = (Returned, VDict [(KStr "m", VList [VInt 5])])
  /\ _get_nested_value (snd (write slots "m[0]" (VInt 5))) "m[0]"
     <> Ok (VList [VInt 1; VInt 5]).
Proof.
  cbv zeta. repeat split; try (vm_compute; reflexivity).
  vm_compute. discriminate.
Qed.



(** * Further properties of the engine *)

(** ** Reading slot paths *)

Section ReadEdges.
Import Spec PathSpec.

(** X1.  The path resolver raises in one situation only: a part with
    both brackets that does not split into exactly two pieces at "[",
    where the unpacking is a ValueError.  On every other path it
    returns. *)
Theorem read_raises_only_on_unpacking (data : value) (path : string) (e : exn) :
  _get_nested_value data path = Raise e ->
  e = ValueError
  /\ exists part,
       In part (path_parts path)
       /\ is_indexed part = true
       /\ split_bracket part = None.
Proof.
  unfold _get_nested_value. generalize (path_parts path) as parts.
  intros parts. revert data.
  induction parts as [|part rest IH]; intros data H; [discriminate|].
  assert (Hrest : forall x, get_parts rest x = Raise e ->
                            e = ValueError
                            /\ exists p, In p (part :: rest)
                                         /\ is_indexed p = true
                                         /\ split_bracket p = None).
  { intros x Hx. destruct (IH x Hx) as (He & p & Hin & Hp).
    split; [exact He|]. exists p. split; [right; exact Hin|exact Hp]. }
  cbn [get_parts] in H.
  destruct data as [| | | | |d] eqn:Hd; try discriminate;
    destruct (is_indexed part) eqn:Hidx; try discriminate;
    try (destruct (split_bracket part) as [[key idx_str0]|] eqn:Hsplit;
         [|injection H as <-; split; [reflexivity|];
           exists part; repeat split; [left; reflexivity|assumption..]]);
    try (destruct (read_index _ key _) as [idx|]; [|discriminate]);
    cbn [dict_get_none] in H.
  all: try (destruct (as_int idx); discriminate).
  - destruct (as_int idx) as [i|]; [|discriminate].
    destruct ((0 <=? i) && (i <? Z.of_nat (List.length l)))%bool; [|discriminate].
    destruct (nth_error l (Z.to_nat i)) as [x|]; [|discriminate].
    exact (Hrest x H).
  - destruct (dict_get_none key d) as [| | | |l|]; try (destruct (as_int idx); discriminate).
    destruct (as_int idx) as [i|]; [|discriminate].
    destruct ((0 <=? i) && (i <? Z.of_nat (List.length l)))%bool; [|discriminate].
    destruct (nth_error l (Z.to_nat i)) as [x|]; [|discriminate].
    exact (Hrest x H).
  - exact (Hrest _ H).
Qed.

(** X2.  A read is absent, without an error, as soon as the path leaves
    the data: below existing plain keys it meets a mapping without the
    next key, a list asked for a plain key, or a scalar; whatever
    follows in the path. *)
Theorem read_absent_at_dead_end (data c : value) (prefix rest : list string)
    (part : string) :
  resolve_plain prefix data = Some c ->
  dead_end part c = true ->
  (is_indexed part = true -> split_bracket part <> None) ->
  get_parts (prefix ++ part :: rest)%list data = Ok VNone.
Proof.
  intros Hres Hdead Hsplit.
  rewrite (get_through_prefix prefix data c _ Hres).
  cbn [get_parts].
  destruct c as [|b|z|s|l|d]; cbn [dead_end] in Hdead; try reflexivity.
  - destruct (is_indexed part) eqn:Hidx; [|reflexivity].
    destruct (split_bracket part) as [[key idx_str0]|]; [|now destruct (Hsplit eq_refl)].
    destruct (read_index _ key (VBool b)) as [idx|]; [|reflexivity].
    destruct (as_int idx); reflexivity.
  - destruct (is_indexed part) eqn:Hidx; [|reflexivity].
    destruct (split_bracket part) as [[key idx_str0]|]; [|now destruct (Hsplit eq_refl)].
    destruct (read_index _ key (VInt z)) as [idx|]; [|reflexivity].
    destruct (as_int idx); reflexivity.
  - destruct (is_indexed part) eqn:Hidx; [|reflexivity].
    destruct (split_bracket part) as [[key idx_str0]|]; [|now destruct (Hsplit eq_refl)].
    destruct (read_index _ key (VStr s)) as [idx|]; [|reflexivity].
    destruct (as_int idx); reflexivity.
  - apply negb_true_iff in Hdead. now rewrite Hdead.
  - apply andb_true_iff in Hdead as [H1 H2].
    apply negb_true_iff in H1, H2. rewrite H1.
    rewrite dict_mem_get in H2. rewrite dict_get_none_eq.
    destruct (dict_get part d); [discriminate|]. apply get_parts_none.
Qed.

End ReadEdges.

Lemma read_raises_only_on_unpacking_witness :
  ValueError = ValueError
  /\ exists part,
       In part (path_parts "maps[0][1].trigger")
       /\ is_indexed part = true
       /\ split_bracket part = None.
Proof.
  exact (read_raises_only_on_unpacking
           (VDict [(KStr "maps", VList [VList [VDict []]])])
           "maps[0][1].trigger" ValueError eq_refl).
Defined.

Lemma read_absent_at_dead_end_witness :
  _get_nested_value (VDict [(KStr "engagement", VDict [(KStr "name", VStr "Orders")])])
    "engagement.name.first[0].x"
  = Ok VNone.
Proof.
  exact (read_absent_at_dead_end
           (VDict [(KStr "engagement", VDict [(KStr "name", VStr "Orders")])])
           (VStr "Orders") ["engagement"; "name"] ["x"] "first[0]"
           eq_refl eq_refl ltac:(discriminate)).
Defined.

(** ** Writing slot paths *)

Section WriteEdges.
Import Spec PathSpec.

Lemma dict_set_twice (k : string) (x y : value) (d : dict) :
  dict_set k x (dict_set k y d) = dict_set k x d.
Proof.
  unfold dict_set. induction d as [|[k' z] d IH]; cbn [assoc_set].
  - cbn. now rewrite String.eqb_refl.
  - destruct (key_eqb k' (KStr k)) eqn:E; cbn [assoc_set]; rewrite E; [reflexivity|].
    now rewrite IH.
Qed.

Lemma open_index_frame (filler : value) (part key idx_str0 : string) (d : dict) :
  split_bracket part = Some (key, idx_str0) ->
  match open_index filler part (VDict d) with
  | Stop _ c => exists d2, c = VDict d2 /\ same_off key d d2
  | Open key' _ _ c => key' = key /\ exists d2, c = VDict d2 /\ same_off key d d2
  end.
Proof.
  intros Hsplit. unfold open_index. rewrite Hsplit.
  destruct (resolve_index _ key (VDict d)) as [idx|e].
  2:{ destruct e; exists d; split; try reflexivity; apply same_off_refl. }
  unfold ensure_key. cbn [py_contains bind].
  destruct (dict_mem key d); cbn [py_setitem py_getitem].
  - destruct (dict_get key d) as [x|];
      [|exists d; split; [reflexivity|apply same_off_refl]].
    destruct (extend filler idx x) as [x'|e];
      [|exists d; split; [reflexivity|apply same_off_refl]].
    split; [reflexivity|]. eexists. split; [reflexivity|].
    apply same_off_set, same_off_refl.
  - rewrite dict_get_set_same.
    destruct (extend filler idx (VList [])) as [x'|e].
    + split; [reflexivity|]. eexists. split; [reflexivity|].
      apply same_off_set, same_off_set, same_off_refl.
    + eexists. split; [reflexivity|]. apply same_off_set, same_off_refl.
Qed.

Lemma write_final_frame (final_key : string) (v : value) (d : dict) :
  exists d',
    snd (write_final final_key v (VDict d)) = VDict d'
    /\ same_off (first_key final_key) d d'.
Proof.
  unfold write_final, first_key.
  destruct (is_indexed final_key) eqn:Hidx.
  - destruct (split_bracket final_key) as [[key idx_str0]|] eqn:Hsplit.
    + pose proof (open_index_frame VNone final_key key idx_str0 d Hsplit) as H.
      destruct (open_index VNone final_key (VDict d)) as [o c|key' idx x c].
      * exact H.
      * destruct H as (-> & d2 & -> & Hoff).
        destruct (py_setidx_v idx v x) as [x'|e]; cbn [py_setitem snd].
        -- eexists. split; [reflexivity|]. now apply same_off_set.
        -- now exists d2.
    + unfold open_index. rewrite Hsplit. exists d.
      split; [reflexivity|apply same_off_refl].
  - cbn [py_contains].
    destruct (dict_mem final_key d); cbn [py_getitem py_setitem].
    + destruct (dict_get final_key d) as [x|];
        [|exists d; split; [reflexivity|apply same_off_refl]].
      destruct (is_list x && negb (is_list v))%bool.
      * destruct (py_append v x) as [x'|e]; cbn [snd].
        -- eexists. split; [reflexivity|]. apply same_off_set, same_off_refl.
        -- exists d. split; [reflexivity|apply same_off_refl].
      * eexists. split; [reflexivity|]. apply same_off_set, same_off_refl.
    + eexists. split; [reflexivity|]. apply same_off_set, same_off_refl.
Qed.

Lemma write_parts_frame (parts : list string) (v : value) (d : dict) :
  exists d',
    snd (write_parts parts v (VDict d)) = VDict d'
    /\ same_off (first_key (hd EmptyString parts)) d d'.
Proof.
  destruct parts as [|part [|next_part rest]].
  - exists d. split; [reflexivity|apply same_off_refl].
  - apply write_final_frame.
  - rewrite write_parts_cons. cbn [hd]. unfold first_key.
    destruct (is_indexed part) eqn:Hidx.
    + destruct (split_bracket part) as [[key idx_str0]|] eqn:Hsplit.
      * pose proof (open_index_frame (VDict []) part key idx_str0 d Hsplit) as H.
        destruct (open_index (VDict []) part (VDict d)) as [o c|key' idx x c].
        -- exact H.
        -- destruct H as (-> & d2 & -> & Hoff).
           destruct (py_getidx_v idx x) as [child|e]; [|now exists d2].
           destruct (write_parts (next_part :: rest) v child) as [o child'].
           cbn [snd]. unfold put_child.
           destruct (py_setidx_v idx child' x) as [x'|e]; [|now exists d2].
           cbn [py_setitem]. eexists. split; [reflexivity|].
           now apply same_off_set.
      * unfold open_index. rewrite Hsplit. exists d.
        split; [reflexivity|apply same_off_refl].
    + cbv zeta. unfold ensure_key. cbn [py_contains bind].
      destruct (dict_mem part d) eqn:Hmem; cbn [py_setitem py_getitem].
      * destruct (dict_get part d) as [child|];
          [|exists d; split; [reflexivity|apply same_off_refl]].
        destruct (write_parts (next_part :: rest) v child) as [o child'].
        cbn [snd]. eexists. split; [reflexivity|].
        apply same_off_set, same_off_refl.
      * rewrite dict_get_set_same.
        destruct (write_parts (next_part :: rest) v _) as [o child'].
        cbn [snd]. eexists. split; [reflexivity|].
        apply same_off_set, same_off_set, same_off_refl.
Qed.

(** X3.  A write touches one top-level entry only: whatever the path
    and however the call ends, with a return or with an exception part
    of the way, the slots are still a mapping and every key other than
    the one the first part of the path addresses holds what it held. *)
Theorem write_changes_one_entry (d : dict) (path : string) (v : value) :
  exists d',
    snd (write (VDict d) path v) = VDict d'
    /\ forall k,
         k <> first_key (hd EmptyString (path_parts path)) ->
         dict_get k d' = dict_get k d.
Proof.
  unfold write. destruct (PyStr.nonempty path).
  - apply write_parts_frame.
  - exists d. split; reflexivity.
Qed.

Lemma write_parts_non_mapping (part : string) (rest : list string) (v c : value) :
  is_dict c = false ->
  is_indexed part = false ->
  write_parts (part :: rest) v c = (Raised TypeError, c).
Proof.
  intros Hc Hidx. destruct rest as [|next_part rest].
  - cbn [write_parts]. unfold write_final. rewrite Hidx.
    destruct c as [| | |s|l|d]; try discriminate; cbn [py_contains]; try reflexivity.
    + destruct (PyStr.is_infix part s); reflexivity.
    + destruct (existsb _ l); reflexivity.
  - rewrite write_parts_cons, Hidx. cbv zeta. unfold ensure_key.
    destruct c as [| | |s|l|d]; try discriminate; cbn [py_contains bind]; try reflexivity.
    + destruct (PyStr.is_infix part s); reflexivity.
    + destruct (existsb _ l); reflexivity.
Qed.

(** X4.  A path that runs into a value that is not a mapping cannot be
    written: when the plain keys before a plain part lead to a scalar,
    a string or a list, the write raises TypeError and the slots are
    left exactly as they were. *)
Theorem write_below_non_mapping (slots c v : value) (path : string)
    (prefix rest : list string) (part : string) :
  PyStr.nonempty path = true ->
  path_parts path = (prefix ++ part :: rest)%list ->
  resolve_plain prefix slots = Some c ->
  is_dict c = false ->
  is_indexed part = false ->
  write slots path v = (Raised TypeError, slots).
Proof.
  intros Hne Hparts Hres Hc Hidx. unfold write. rewrite Hne, Hparts.
  destruct (write_through_prefix v prefix slots c c part rest (Raised TypeError) Hres
              (write_parts_non_mapping part rest v c Hc Hidx))
    as (slots' & Hw & _ & Hsame).
  rewrite Hw, (Hsame eq_refl). reflexivity.
Qed.

Lemma write_parts_empty_list (next_part : string) (rest : list string) (v : value) :
  exists o,
    write_parts (next_part :: rest) v (VList []) = (o, VList [])
    /\ (is_indexed next_part = true ->
        forall key idx_str0,
          split_bracket next_part = Some (key, idx_str0) ->
          o = match PyStr.py_int (PyStr.rstrip_char "]"%char idx_str0) with
              | Some _ => Raised TypeError
              | None => Returned
              end).
Proof.
  assert (Hopen : forall filler,
             exists o,
               open_index filler next_part (VList []) = Stop o (VList [])
               /\ forall key idx_str0,
                    split_bracket next_part = Some (key, idx_str0) ->
                    o = match PyStr.py_int (PyStr.rstrip_char "]"%char idx_str0) with
                        | Some _ => Raised TypeError
                        | None => Returned
                        end).
  { intros filler. unfold open_index.
    destruct (split_bracket next_part) as [[key idx_str0]|].
    - unfold resolve_index.
      destruct (String.eqb (PyStr.rstrip_char "]"%char idx_str0) "current") eqn:Hcur.
      + apply String.eqb_eq in Hcur. cbn [py_contains existsb bind].
        eexists. split; [reflexivity|]. intros ? ? [= <- <-]. now rewrite Hcur.
      + destruct (PyStr.py_int _) as [z|] eqn:Hint.
        * eexists. split; [reflexivity|]. intros ? ? [= <- <-]. now rewrite Hint.
        * eexists. split; [reflexivity|]. intros ? ? [= <- <-]. now rewrite Hint.
    - eexists. split; [reflexivity|]. discriminate. }
  destruct rest as [|next2 rest].
  - cbn [write_parts]. unfold write_final.
    destruct (is_indexed next_part).
    + destruct (Hopen VNone) as (o & -> & Ho). exists o. split; [reflexivity|].
      intros _. exact Ho.
    + eexists. split; [reflexivity|]. discriminate.
  - rewrite write_parts_cons.
    destruct (is_indexed next_part).
    + destruct (Hopen (VDict [])) as (o & -> & Ho). exists o. split; [reflexivity|].
      intros _. exact Ho.
    + eexists. split; [reflexivity|]. discriminate.
Qed.

(** X5.  A missing plain key followed by a part with a bracket is
    created as an empty list, and the part that follows is then applied
    to that list as if it were a mapping: the value is never stored, the
    slots keep the new empty list, and the call raises TypeError for a
    literal index and returns silently for any other index text. *)
Theorem missing_key_before_index (d : dict) (v : value)
    (part next_part : string) (rest : list string) :
  is_indexed part = false ->
  dict_get part d = None ->
  PyStr.nonempty next_part = true ->
  PyStr.contains "["%char next_part = true ->
  exists o,
    write_parts (part :: next_part :: rest) v (VDict d)
    = (o, VDict (dict_set part (VList []) d))
    /\ (is_indexed next_part = true ->
        forall key idx_str0,
          split_bracket next_part = Some (key, idx_str0) ->
          o = match PyStr.py_int (PyStr.rstrip_char "]"%char idx_str0) with
              | Some _ => Raised TypeError
              | None => Returned
              end).
Proof.
  intros Hidx Hget Hne Hbr.
  destruct (write_parts_empty_list next_part rest v) as (o & Hw & Ho).
  exists o. split; [|exact Ho].
  rewrite write_parts_cons, Hidx, Hne, Hbr. cbv zeta.
  unfold ensure_key. cbn [py_contains bind andb].
  rewrite dict_mem_get, Hget. cbn [py_setitem py_getitem].
  rewrite dict_get_set_same, Hw. cbn [py_setitem].
  now rewrite dict_set_twice.
Qed.


Lemma extended_short (filler : value) (i : Z) (l : list value) :
  i < Z.of_nat (List.length l) -> extended filler i l = l.
Proof.
  intros Hi. unfold extended.
  replace (Z.to_nat (i + 1 - Z.of_nat (List.length l))) with 0%nat by lia.
  apply app_nil_r.
Qed.

Lemma open_index_present (filler : value) (part key idx_str0 : string)
    (d : dict) (i : Z) (l : list value) :
  split_bracket part = Some (key, idx_str0) ->
  segment_index (PyStr.rstrip_char "]"%char idx_str0) key d = Some i ->
  dict_get key d = Some (VList l) ->
  i < Z.of_nat (List.length l) ->
  exists idx,
    open_index filler part (VDict d) = Open key idx (VList l) (VDict d)
    /\ as_int idx = Some i
    /\ read_index (PyStr.rstrip_char "]"%char idx_str0) key (VDict d) = Some idx.
Proof.
  intros Hsplit Hseg Hget Hi.
  destruct (segment_index_resolved _ _ _ _ Hseg) as (idx & Hres & Hread & Hint).
  exists idx. split; [|split; assumption].
  unfold open_index. rewrite Hsplit, Hres.
  unfold ensure_key. cbn [py_contains bind]. rewrite dict_mem_get, Hget.
  cbn [py_getitem]. rewrite Hget, (extend_list _ _ _ _ Hint), extended_short by exact Hi.
  cbn [py_setitem]. now rewrite dict_set_get_same.
Qed.

(** X6.  Writing to an index that the list already has replaces that
    one element in place: the list keeps its length, and the mapping
    that holds it is otherwise the one it was.  The index may be a
    literal or the one the [current] sibling key gives. *)
Theorem index_write_in_place (slots v : value) (prefix : list string)
    (final_key key idx_str0 : string) (d : dict) (i : Z) (l : list value) :
  is_indexed final_key = true ->
  split_bracket final_key = Some (key, idx_str0) ->
  resolve_plain prefix slots = Some (VDict d) ->
  segment_index (PyStr.rstrip_char "]"%char idx_str0) key d = Some i ->
  dict_get key d = Some (VList l) ->
  0 <= i < Z.of_nat (List.length l) ->
  exists slots',
    write_parts (prefix ++ [final_key])%list v slots = (Returned, slots')
    /\ resolve_plain prefix slots'
       = Some (VDict (dict_set key (VList (list_set (Z.to_nat i) v l)) d))
    /\ List.length (list_set (Z.to_nat i) v l) = List.length l.
Proof.
  intros Hidx Hsplit Hres Hseg Hget Hi.
  destruct (open_index_present VNone final_key key idx_str0 d i l Hsplit Hseg Hget
              ltac:(lia)) as (idx & Hopen & Hint & _).
  assert (Hw : write_parts [final_key] v (VDict d)
               = (Returned,
                  VDict (dict_set key (VList (list_set (Z.to_nat i) v l)) d))).
  { cbn [write_parts]. unfold write_final. rewrite Hidx, Hopen.
    unfold py_setidx_v. rewrite Hint. cbn [py_setidx].
    rewrite seq_pos_in_range by exact Hi. reflexivity. }
  destruct (write_through_prefix v prefix slots _ _ final_key [] Returned Hres Hw)
    as (slots' & Hw' & Hres' & _).
  exists slots'. repeat split; [exact Hw'|exact Hres'|apply list_set_length].
Qed.

(** X7.  A negative index is written from the end of the list, as
    Python indexes, but the reader does not accept it: after the write
    the same path reads as absent.  Past the start of the list the write
    raises IndexError and changes nothing. *)
Theorem negative_index_write (v : value) (final_key key idx_str0 : string)
    (d : dict) (i : Z) (l : list value) :
  is_indexed final_key = true ->
  split_bracket final_key = Some (key, idx_str0) ->
  segment_index (PyStr.rstrip_char "]"%char idx_str0) key d = Some i ->
  dict_get key d = Some (VList l) ->
  i < 0 ->
  (- Z.of_nat (List.length l) <= i ->
   let d' := dict_set key
               (VList (list_set (Z.to_nat (i + Z.of_nat (List.length l))) v l)) d in
   write_parts [final_key] v (VDict d) = (Returned, VDict d')
   /\ get_parts [final_key] (VDict d') = Ok VNone)
  /\ (i < - Z.of_nat (List.length l) ->
      write_parts [final_key] v (VDict d) = (Raised IndexError, VDict d)).
Proof.
  intros Hidx Hsplit Hseg Hget Hneg.
  destruct (open_index_present VNone final_key key idx_str0 d i l Hsplit Hseg Hget
              ltac:(lia)) as (idx & Hopen & Hint & Hread).
  split.
  - intros Hlo d'. split.
    + cbn [write_parts]. unfold write_final. rewrite Hidx, Hopen.
      unfold py_setidx_v. rewrite Hint. cbn [py_setidx]. unfold seq_pos.
      destruct (Z.ltb_spec i 0); [|lia].
      destruct (Z.leb_spec 0 (i + Z.of_nat (List.length l))); [|lia].
      destruct (Z.ltb_spec (i + Z.of_nat (List.length l)) (Z.of_nat (List.length l)));
        [|lia].
      reflexivity.
    + assert (Hoff : same_off key d d') by apply same_off_set, same_off_refl.
      rewrite (get_parts_indexed final_key key idx_str0 [] d' idx i Hidx Hsplit)
        by (rewrite ?(read_index_same_off _ _ _ _ Hoff); assumption).
      unfold d'. rewrite dict_get_set_same.
      destruct (Z.leb_spec 0 i); [lia|]. reflexivity.
  - intros Hlo. cbn [write_parts]. unfold write_final. rewrite Hidx, Hopen.
    unfold py_setidx_v. rewrite Hint. cbn [py_setidx]. unfold seq_pos.
    destruct (Z.ltb_spec i 0); [|lia].
    destruct (Z.leb_spec 0 (i + Z.of_nat (List.length l))); [lia|].
    reflexivity.
Qed.


End WriteEdges.

Lemma write_below_non_mapping_witness :
  write (VDict [(KStr "engagement", VDict [(KStr "name", VStr "Orders")])])
    "engagement.name.first" (VStr "x")
  = (Raised TypeError,
     VDict [(KStr "engagement", VDict [(KStr "name", VStr "Orders")])]).
Proof.
  exact (write_below_non_mapping
           (VDict [(KStr "engagement", VDict [(KStr "name", VStr "Orders")])])
           (VStr "Orders") (VStr "x") "engagement.name.first"
           ["engagement"; "name"] [] "first"
           eq_refl eq_refl eq_refl eq_refl eq_refl).
Defined.

Lemma missing_key_before_index_witness :
  exists o,
    write_parts ["a"; "b[0]"; "c"] (VInt 5) (VDict [])
    = (o, VDict [(KStr "a", VList [])])
    /\ o = Raised TypeError.
Proof.
  destruct (missing_key_before_index [] (VInt 5) "a" "b[0]" ["c"]
              eq_refl eq_refl eq_refl eq_refl) as (o & Hw & Ho).
  exists o. split; [exact Hw|exact (Ho eq_refl "b" "0]" eq_refl)].
Defined.

Lemma index_write_in_place_witness :
  exists slots',
    write_parts ([] ++ ["items[1]"])%list (VStr "x")
      (VDict [(KStr "items", VList [VInt 1; VInt 2; VInt 3])])
    = (Returned, slots')
    /\ PathSpec.is_dict slots' = true.
Proof.
  destruct (index_write_in_place
              (VDict [(KStr "items", VList [VInt 1; VInt 2; VInt 3])]) (VStr "x")
              [] "items[1]" "items" "1]"
              [(KStr "items", VList [VInt 1; VInt 2; VInt 3])] 1
              [VInt 1; VInt 2; VInt 3]
              eq_refl eq_refl eq_refl eq_refl eq_refl ltac:(cbn; lia))
    as (slots' & Hw & Hres & _).
  exists slots'. split; [exact Hw|].
  cbn in Hres. injection Hres as ->. reflexivity.
Defined.

Lemma negative_index_write_witness :
  write_parts ["items[-1]"] (VStr "x")
    (VDict [(KStr "items", VList [VInt 1; VInt 2; VInt 3])])
  = (Returned, VDict [(KStr "items", VList [VInt 1; VInt 2; VStr "x"])])
  /\ get_parts ["items[-1]"]
       (VDict [(KStr "items", VList [VInt 1; VInt 2; VStr "x"])])
     = Ok VNone.
Proof.
  exact (proj1 (negative_index_write (VStr "x") "items[-1]" "items" "-1]"
                  [(KStr "items", VList [VInt 1; VInt 2; VInt 3])] (-1)
                  [VInt 1; VInt 2; VInt 3]
                  eq_refl eq_refl eq_refl eq_refl ltac:(lia))
           ltac:(cbn; lia)).
Defined.

(** ** Rendering templates *)

Section RenderEdges.

Lemma sub_scan_plain (slots : value) (template : string) :
  PyStr.contains "{"%char template = false ->
  sub_scan slots 0 template = Ok template.
Proof.
  induction template as [|c s IH]; intros Hc; [reflexivity|].
  cbn [PyStr.contains] in Hc. apply orb_false_iff in Hc as [Hc1 Hc2].
  rewrite (sub_scan_no_match slots c s (match_here_other _ _ Hc1)), (IH Hc2).
  reflexivity.
Qed.

Lemma render_scan (template : string) (slots : value) :
  render template slots = sub_scan slots 0 template.
Proof. destruct template; reflexivity. Qed.

(** X8.  Text without an opening brace is its own rendering, whatever
    the slots hold: the renderer reads no slot and cannot fail on it. *)
Theorem render_plain_text (template : string) (slots : value) :
  PyStr.contains "{"%char template = false ->
  render template slots = Ok template.
Proof. intros Hc. rewrite render_scan. now apply sub_scan_plain. Qed.

(** X9.  A placeholder whose path holds a string is replaced by that
    string as it is: not quoted, and not scanned again, so that braces
    inside a stored answer are never expanded.  The surrounding
    whitespace inside the braces is dropped from the path, and the rest
    of the template is rendered on its own. *)
Theorem render_inserts_string_verbatim (slots : value)
    (pre inner post s : string) :
  PyStr.contains "{"%char pre = false ->
  inner <> EmptyString ->
  PyStr.contains "}"%char inner = false ->
  _get_nested_value slots (PyStr.strip inner) = Ok (VStr s) ->
  render (pre ++ "{{" ++ inner ++ "}}" ++ post) slots
  = (rest <- render post slots ;; Ok (pre ++ s ++ rest)).
Proof.
  intros Hpre Hne Hc Hget.
  rewrite !render_scan, (sub_scan_placeholder slots pre inner post Hpre Hne Hc).
  unfold replacer. rewrite Hget. reflexivity.
Qed.

(** X10.  A failing placeholder fails the whole rendering: when the
    resolver raises on the path of the first placeholder, the renderer
    raises the same exception and produces no text. *)
Theorem render_propagates_resolver_error (slots : value)
    (pre inner post : string) (e : exn) :
  PyStr.contains "{"%char pre = false ->
  inner <> EmptyString ->
  PyStr.contains "}"%char inner = false ->
  _get_nested_value slots (PyStr.strip inner) = Raise e ->
  render (pre ++ "{{" ++ inner ++ "}}" ++ post) slots = Raise e.
Proof.
  intros Hpre Hne Hc Hget.
  rewrite render_scan, (sub_scan_placeholder slots pre inner post Hpre Hne Hc).
  unfold replacer. rewrite Hget. reflexivity.
Qed.

End RenderEdges.

Lemma render_plain_text_witness :
  render "Is this correct?" VNone = Ok "Is this correct?".
Proof. exact (render_plain_text "Is this correct?" VNone eq_refl). Defined.

Lemma render_inserts_string_verbatim_witness :
  render "Process: {{ name }}." (VDict [(KStr "name", VStr "{{owner}}")])
  = Ok "Process: {{owner}}.".
Proof.
  exact (render_inserts_string_verbatim
           (VDict [(KStr "name", VStr "{{owner}}")])
           "Process: " " name " "." "{{owner}}"
           eq_refl ltac:(discriminate) eq_refl eq_refl).
Defined.

Lemma render_propagates_resolver_error_witness :
  render "Trigger: {{ maps[0][1] }}" (VDict [(KStr "maps", VList [VList []])])
  = Raise ValueError.
Proof.
  exact (render_propagates_resolver_error
           (VDict [(KStr "maps", VList [VList []])])
           "Trigger: " " maps[0][1] " EmptyString ValueError
           eq_refl ltac:(discriminate) eq_refl eq_refl).
Defined.

(** ** Clarification rules *)

Section ClarifyRules.

Lemma rstrip_with_idem (p : ascii -> bool) (s : string) :
  PyStr.rstrip_with p (PyStr.rstrip_with p s) = PyStr.rstrip_with p s.
Proof.
  induction s as [|c s IH]; [reflexivity|]. cbn [PyStr.rstrip_with].
  destruct (PyStr.rstrip_with p s) as [|a r] eqn:E.
  - destruct (p c) eqn:Hc; [reflexivity|]. cbn. now rewrite Hc.
  - cbn [PyStr.rstrip_with]. cbn [PyStr.rstrip_with] in IH. rewrite IH. reflexivity.
Qed.

Lemma rstrip_with_lstrip (p : ascii -> bool) (s : string) :
  PyStr.rstrip_with p s = s ->
  PyStr.rstrip_with p (PyStr.lstrip_with p s) = PyStr.lstrip_with p s.
Proof.
  induction s as [|c s IH]; intros H; [reflexivity|].
  cbn [PyStr.lstrip_with]. destruct (p c) eqn:Hc; [|exact H].
  apply IH. cbn [PyStr.rstrip_with] in H. rewrite Hc in H.
  destruct (PyStr.rstrip_with p s) as [|a r]; [discriminate|].
  now injection H.
Qed.

Lemma lstrip_with_idem (p : ascii -> bool) (s : string) :
  PyStr.lstrip_with p (PyStr.lstrip_with p s) = PyStr.lstrip_with p s.
Proof.
  induction s as [|c s IH]; [reflexivity|]. cbn [PyStr.lstrip_with].
  destruct (p c) eqn:Hc; [exact IH|]. cbn. now rewrite Hc.
Qed.

Lemma strip_idem (s : string) : PyStr.strip (PyStr.strip s) = PyStr.strip s.
Proof.
  unfold PyStr.strip.
  rewrite (rstrip_with_lstrip _ _ (rstrip_with_idem PyStr.is_space s)).
  apply lstrip_with_idem.
Qed.

Lemma parse_yes_no_strip (text : string) :
  _parse_yes_no (PyStr.strip text) = _parse_yes_no text.
Proof.
  unfold _parse_yes_no. rewrite strip_idem.
  destruct (PyStr.nonempty (PyStr.strip text)) eqn:Hs.
  - destruct text; [discriminate|]. reflexivity.
  - destruct (PyStr.strip text) eqn:E; [|discriminate].
    cbn. destruct (PyStr.nonempty text); reflexivity.
Qed.

(** X11.  The rule [unclear_yes_no] asks for clarification exactly when
    the confirm classifier finds the answer unclear: the rule and the
    routing of a confirm stage never disagree on what counts as a yes
    or a no, although the rule classifies the stripped text. *)
Theorem unclear_rule_agrees_with_classifier (user_text : string) :
  _should_clarify user_text "unclear_yes_no" = true
  <-> _parse_yes_no user_text = None.
Proof.
  unfold _should_clarify.
  destruct (PyStr.nonempty user_text) eqn:Hn; cbn [negb].
  - change (String.eqb "unclear_yes_no" "empty_or_too_short") with false.
    change (String.eqb "unclear_yes_no" "vague") with false.
    change (String.eqb "unclear_yes_no" "unclear_yes_no") with true.
    cbv iota. rewrite parse_yes_no_strip.
    destruct (_parse_yes_no user_text); split; congruence.
  - destruct user_text; [|discriminate]. split; reflexivity.
Qed.

Lemma prefix_contains (c : ascii) (w s : string) :
  String.prefix w s = true ->
  PyStr.contains c w = true -> PyStr.contains c s = true.
Proof.
  revert s. induction w as [|a w IH]; intros s Hp Hc; [discriminate|].
  destruct s as [|b s]; [discriminate|]. cbn [String.prefix] in Hp.
  destruct (Ascii.ascii_dec a b) as [->|]; [|discriminate].
  cbn [PyStr.contains] in Hc |- *.
  apply orb_true_iff in Hc as [Hc|Hc]; apply orb_true_iff; [now left|].
  right. now apply IH.
Qed.

Lemma infix_contains (c : ascii) (w s : string) :
  PyStr.is_infix w s = true ->
  PyStr.contains c w = true -> PyStr.contains c s = true.
Proof.
  induction s as [|b s IH]; intros Hi Hc.
  - cbn [PyStr.is_infix] in Hi. exact (prefix_contains c w _ Hi Hc).
  - cbn [PyStr.is_infix] in Hi. apply orb_true_iff in Hi as [Hi|Hi].
    + exact (prefix_contains c w _ Hi Hc).
    + cbn [PyStr.contains]. apply orb_true_iff. right. now apply IH.
Qed.

Lemma contains_infix (c : ascii) (s : string) :
  PyStr.contains c s = true ->
  PyStr.is_infix (String c EmptyString) s = true.
Proof.
  induction s as [|b s IH]; intros Hc; [discriminate|].
  cbn [PyStr.contains] in Hc. cbn [PyStr.is_infix]. apply orb_true_iff.
  apply orb_true_iff in Hc as [Hc|Hc]; [left|right; now apply IH].
  apply Ascii.eqb_eq in Hc. subst b. cbn [String.prefix].
  destruct (Ascii.ascii_dec c c); [|congruence]. now destruct s.
Qed.

(** X12.  The rule [vague] cannot fire on an answer that contains the
    letter n or the letter y in any case: the one-letter answers "n"
    and "y" are among the clear responses, and those are searched for
    as substrings.  Of the eight vague phrases only "sort of" and "idk"
    can therefore ever ask for clarification; "maybe", "kind of",
    "i think", "not sure", "dunno" and "probably" never do. *)
Theorem vague_rule_reach (user_text : string) :
  _should_clarify user_text "vague" = true ->
  user_text = EmptyString
  \/ (let lower_text := PyStr.lower (PyStr.strip user_text) in
      PyStr.contains "n"%char lower_text = false
      /\ PyStr.contains "y"%char lower_text = false
      /\ (PyStr.is_infix "sort of" lower_text = true
          \/ PyStr.is_infix "idk" lower_text = true)).
Proof.
  unfold _should_clarify.
  destruct (PyStr.nonempty user_text) eqn:Hn; cbn [negb];
    [|destruct user_text; [now left|discriminate]].
  change (String.eqb "vague" "empty_or_too_short") with false.
  change (String.eqb "vague" "vague") with true. cbv iota zeta.
  set (lower_text := PyStr.lower (PyStr.strip user_text)).
  destruct (mem lower_text clear_responses
            || existsb (fun resp => PyStr.is_infix resp lower_text) clear_responses)%bool
    eqn:Hclear; [discriminate|].
  apply orb_false_iff in Hclear as [_ Hclear].
  assert (Hno : forall c, In (String c EmptyString) clear_responses ->
                          PyStr.contains c lower_text = false).
  { intros c Hin. destruct (PyStr.contains c lower_text) eqn:Hc; [|reflexivity].
    apply contains_infix in Hc.
    assert (Hex : existsb (fun resp => PyStr.is_infix resp lower_text) clear_responses
                  = true)
      by (apply existsb_exists; eexists; split; [exact Hin|exact Hc]).
    congruence. }
  assert (Hn' : PyStr.contains "n"%char lower_text = false)
    by (apply Hno; cbn; tauto).
  assert (Hy : PyStr.contains "y"%char lower_text = false)
    by (apply Hno; cbn; tauto).
  intros Hv. right. split; [exact Hn'|]. split; [exact Hy|].
  apply existsb_exists in Hv as (word & Hin & Hw).
  assert (Hwn : PyStr.contains "n"%char word = false).
  { destruct (PyStr.contains "n"%char word) eqn:E; [|reflexivity].
    rewrite (infix_contains _ _ _ Hw E) in Hn'. discriminate. }
  assert (Hwy : PyStr.contains "y"%char word = false).
  { destruct (PyStr.contains "y"%char word) eqn:E; [|reflexivity].
    rewrite (infix_contains _ _ _ Hw E) in Hy. discriminate. }
  cbn [vague_words In] in Hin.
  destruct Hin as [<-|[<-|[<-|[<-|[<-|[<-|[<-|[<-|[]]]]]]]]];
    try discriminate Hwn; try discriminate Hwy; [left|right]; exact Hw.
Qed.

Lemma is_space_lower_char (c : ascii) :
  PyStr.is_space (PyStr.lower_char c) = PyStr.is_space c.
Proof. destruct c as [[|] [|] [|] [|] [|] [|] [|] [|]]; reflexivity. Qed.

Lemma lstrip_lower (s : string) :
  PyStr.lstrip_with PyStr.is_space (PyStr.lower s)
  = PyStr.lower (PyStr.lstrip_with PyStr.is_space s).
Proof.
  induction s as [|c s IH]; [reflexivity|].
  cbn [PyStr.lower PyStr.lstrip_with]. rewrite is_space_lower_char.
  destruct (PyStr.is_space c); [exact IH|reflexivity].
Qed.

Lemma rstrip_lower (s : string) :
  PyStr.rstrip_with PyStr.is_space (PyStr.lower s)
  = PyStr.lower (PyStr.rstrip_with PyStr.is_space s).
Proof.
  induction s as [|c s IH]; [reflexivity|].
  cbn [PyStr.lower PyStr.rstrip_with]. rewrite IH, is_space_lower_char.
  destruct (PyStr.rstrip_with PyStr.is_space s); [|reflexivity].
  cbn [PyStr.lower]. destruct (PyStr.is_space c); reflexivity.
Qed.

Lemma strip_lower (s : string) :
  PyStr.strip (PyStr.lower s) = PyStr.lower (PyStr.strip s).
Proof. unfold PyStr.strip. now rewrite rstrip_lower, lstrip_lower. Qed.

(** X27.  The yes/no classifier does not look at case: two answers
    with the same lowercase form are classified alike, so "YES",
    "Yes" and "yes" all route a confirm stage the same way. *)
Theorem classifier_ignores_case (x y : string) :
  PyStr.lower x = PyStr.lower y ->
  _parse_yes_no x = _parse_yes_no y.
Proof.
  intros H. unfold _parse_yes_no.
  assert (Hn : PyStr.nonempty x = PyStr.nonempty y).
  { destruct x, y; try reflexivity; discriminate H. }
  rewrite Hn, <- !strip_lower, H. reflexivity.
Qed.


End ClarifyRules.

Lemma classifier_ignores_case_witness :
  _parse_yes_no "YES, Looks Right" = _parse_yes_no "yes, looks right".
Proof.
  exact (classifier_ignores_case "YES, Looks Right" "yes, looks right" eq_refl).
Defined.

Lemma vague_rule_reach_witness :
  "it is sort of a mix" = EmptyString
  \/ (let lower_text := PyStr.lower (PyStr.strip "it is sort of a mix") in
      PyStr.contains "n"%char lower_text = false
      /\ PyStr.contains "y"%char lower_text = false
      /\ (PyStr.is_infix "sort of" lower_text = true
          \/ PyStr.is_infix "idk" lower_text = true)).
Proof.
  right.
  destruct (vague_rule_reach "it is sort of a mix" eq_refl) as [H|H];
    [discriminate H|exact H].
Defined.

(** The unit test [test_vague_vague_words] expects these answers to be
    found vague; each holds an n or a y. *)
Example vague_words_not_vague :
  map (fun text => _should_clarify text "vague")
      ["maybe"; "I think so"; "not sure"; "kind of"]
  = [false; false; false; false].
Proof. vm_compute. reflexivity. Qed.

(** ** Gates and stage routing *)

Section Routing.
Import GateSpec.

Lemma check_gate_one (c : criterion) (slots : value) :
  _check_gate_criteria [c] slots
  = match c_slot c with
    | Some path => v <- _get_nested_value slots path ;; Ok (passes c v)
    | None => Raise AttributeError
    end.
Proof.
  cbn [_check_gate_criteria]. unfold passes.
  destruct (c_slot c) as [path|]; [|reflexivity].
  destruct (_get_nested_value slots path) as [v|e]; cbn [bind]; [|reflexivity].
  destruct (get_or true (c_required c)); destruct v; cbn [andb negb];
    try reflexivity;
    destruct (c_min_items c) as [m|]; destruct (c_max_items c) as [n|];
    rewrite ?Z.leb_antisym;
    repeat match goal with
           | |- context [?a <? ?b] => destruct (a <? b)
           end;
    reflexivity.
Qed.

Lemma check_gate_cons (c : criterion) (rest : list criterion) (slots : value) :
  _check_gate_criteria (c :: rest) slots
  = match _check_gate_criteria [c] slots with
    | Ok true => _check_gate_criteria rest slots
    | r => r
    end.
Proof. exact (check_gate_app [c] rest slots). Qed.

(** X13.  A gate passes exactly when every one of its criteria names a
    slot path, the path resolves without an exception, and the value
    found satisfies that criterion on its own: present when required,
    a list of at least [min_items] elements when a minimum is given,
    and not a list of more than [max_items] elements. *)
Theorem gate_passes_iff_all (criteria : list criterion) (slots : value) :
  _check_gate_criteria criteria slots = Ok true
  <-> Forall (fun c => exists path v,
                  c_slot c = Some path
                  /\ _get_nested_value slots path = Ok v
                  /\ passes c v = true) criteria.
Proof.
  induction criteria as [|c rest IH]; [split; [constructor|reflexivity]|].
  rewrite check_gate_cons, check_gate_one. split.
  - intros H. destruct (c_slot c) as [path|] eqn:Hs; [|discriminate].
    destruct (_get_nested_value slots path) as [v|e] eqn:Hv; cbn [bind] in H;
      [|discriminate].
    destruct (passes c v) eqn:Hp; [|discriminate].
    constructor; [now exists path, v|now apply IH].
  - intros H. inversion H as [|? ? (path & v & Hs & Hv & Hp) Hrest]; subst.
    rewrite Hs, Hv. cbn [bind]. rewrite Hp. now apply IH.
Qed.

(** X14.  A minimum makes the slot mandatory: a criterion with
    [min_items] fails the gate whenever the value is not a list, also
    when the criterion is marked as not required and the minimum is
    zero.  A maximum alone does not: on a value that is not a list, a
    criterion that is not required and has no minimum lets the gate go
    on to the remaining criteria. *)
Theorem gate_min_items_needs_list (c : criterion) (rest : list criterion)
    (slots v : value) (path : string) :
  c_slot c = Some path ->
  _get_nested_value slots path = Ok v ->
  is_list v = false ->
  (forall min_items,
      c_min_items c = Some min_items ->
      _check_gate_criteria (c :: rest) slots = Ok false)
  /\ (c_min_items c = None ->
      c_required c = Some false ->
      _check_gate_criteria (c :: rest) slots = _check_gate_criteria rest slots).
Proof.
  intros Hs Hv Hl. split.
  - intros m Hm. rewrite check_gate_cons, check_gate_one, Hs, Hv. cbn [bind].
    unfold passes. rewrite Hm.
    destruct v; try discriminate; now rewrite ?andb_false_r.
  - intros Hm Hr. rewrite check_gate_cons, check_gate_one, Hs, Hv. cbn [bind].
    unfold passes. rewrite Hm, Hr. cbn [get_or andb negb].
    destruct v; try discriminate; destruct (c_max_items c); reflexivity.
Qed.

(** X15.  Routing fails in two situations only.  A message, questions,
    action or output stage without a [next], or with an empty one,
    raises the flow error that names the stage; a gate raises what the
    evaluation of its criteria raises.  Confirm, branch and loop stages
    and stages of unknown type always return a stage id, "end" when
    they have nothing else. *)
Theorem next_stage_failures (stage : stage) (slots : value)
    (user_response : option string) (e : exn) :
  get_next_stage stage slots user_response = Raise e ->
  (exists t,
      s_type stage = Some t
      /\ In t ["message"; "questions"; "action"; "output"]
      /\ (s_next stage = None \/ s_next stage = Some EmptyString)
      /\ e = FlowRunnerError
               ("Stage " ++ str_opt (s_id stage) ++ " missing 'next' field"))
  \/ (s_type stage = Some "gate"
      /\ _check_gate_criteria (s_criteria stage) slots = Raise e).
Proof.
  unfold get_next_stage. intros H.
  destruct (s_type stage) as [t|] eqn:Ht.
  2:{ destruct (s_branches stage); discriminate. }
  destruct (mem t ["message"; "questions"; "action"; "output"]) eqn:Hmem.
  - left. exists t. split; [reflexivity|]. split.
    + unfold mem in Hmem. apply existsb_exists in Hmem as (x & Hin & Heq).
      apply String.eqb_eq in Heq. now subst.
    + destruct (s_next stage) as [n|].
      * destruct n; [|discriminate]. injection H as <-. split; [now right|reflexivity].
      * injection H as <-. split; [now left|reflexivity].
  - destruct (String.eqb t "confirm").
    { destruct (_parse_yes_no _) as [[|]|]; discriminate. }
    destruct (String.eqb t "gate") eqn:Hg.
    + right. apply String.eqb_eq in Hg. subst t. split; [reflexivity|].
      destruct (_check_gate_criteria (s_criteria stage) slots) as [[|]|e'];
        cbn [bind] in H; try discriminate. now injection H as ->.
    + destruct (String.eqb t "branch"); [destruct (s_branches stage); discriminate|].
      destruct (String.eqb t "loop"); discriminate.
Qed.

End Routing.

Lemma gate_min_items_needs_list_witness :
  _check_gate_criteria
    [{| c_slot := Some "suppliers"; c_required := Some false;
        c_min_items := Some 0; c_max_items := None |}]
    (VDict [])
  = Ok false.
Proof.
  exact (proj1 (gate_min_items_needs_list
                  {| c_slot := Some "suppliers"; c_required := Some false;
                     c_min_items := Some 0; c_max_items := None |}
                  [] (VDict []) VNone "suppliers" eq_refl eq_refl eq_refl)
           0 eq_refl).
Defined.

Lemma next_stage_failures_witness :
  (exists t,
      s_type (Samples.with_kind "intro" "message" None) = Some t
      /\ In t ["message"; "questions"; "action"; "output"]
      /\ (s_next (Samples.with_kind "intro" "message" None) = None
          \/ s_next (Samples.with_kind "intro" "message" None) = Some EmptyString)
      /\ FlowRunnerError "Stage intro missing 'next' field"
         = FlowRunnerError
             ("Stage " ++ str_opt (s_id (Samples.with_kind "intro" "message" None))
              ++ " missing 'next' field"))
  \/ (s_type (Samples.with_kind "intro" "message" None) = Some "gate"
      /\ _check_gate_criteria
           (s_criteria (Samples.with_kind "intro" "message" None)) (VDict [])
         = Raise (FlowRunnerError "Stage intro missing 'next' field")).
Proof.
  exact (next_stage_failures (Samples.with_kind "intro" "message" None) (VDict []) None
           (FlowRunnerError "Stage intro missing 'next' field") eq_refl).
Defined.

(** ** The nodes at the edges of a turn *)

Section NodeEdges.
Import Spec Graph.

Variable disk : string -> flow_file.
Variable execute_action : string -> value -> string -> result (value * value).

Ltac case_split :=
  repeat match goal with
         | |- context [match ?x with _ => _ end] => destruct x eqn:?
         end.

(** X16.  A stage lookup returns the first stage of the flow that
    carries the requested id, and only flows of the four known ids
    are ever loaded: a stage that shares its id with an earlier one
    cannot be reached. *)
Theorem get_stage_first_match (flow_id stage_id : string) (stage : stage) :
  get_stage disk flow_id stage_id = Ok stage ->
  s_id stage = Some stage_id
  /\ In flow_id (map fst flow_files)
  /\ exists flow before after,
       load_flow disk flow_id = Ok flow
       /\ stages flow = (before ++ stage :: after)%list
       /\ forall s, In s before -> s_id s <> Some stage_id.
Proof.
  unfold get_stage. intros H.
  destruct (load_flow disk flow_id) as [flow|e] eqn:Hl; cbn [bind] in H; [|discriminate].
  destruct (find_stage stage_id (stages flow)) as [s|] eqn:Hf; [|discriminate].
  injection H as ->.
  assert (Hfind : forall l, find_stage stage_id l = Some stage ->
            s_id stage = Some stage_id
            /\ exists before after,
                 l = (before ++ stage :: after)%list
                 /\ forall s, In s before -> s_id s <> Some stage_id).
  { induction l as [|s l IH]; [discriminate|]. cbn [find_stage].
    destruct (s_id s) as [i|] eqn:Hi.
    - destruct (String.eqb i stage_id) eqn:E.
      + intros [= ->]. apply String.eqb_eq in E. subst i. split; [exact Hi|].
        exists [], l. split; [reflexivity|]. intros ? [].
      + intros Hs. destruct (IH Hs) as (Hid & before & after & -> & Hb).
        split; [exact Hid|]. exists (s :: before), after. split; [reflexivity|].
        intros s' [<-|Hin]; [|now apply Hb].
        rewrite Hi. intros [= ->]. now rewrite String.eqb_refl in E.
    - intros Hs. destruct (IH Hs) as (Hid & before & after & -> & Hb).
      split; [exact Hid|]. exists (s :: before), after. split; [reflexivity|].
      intros s' [<-|Hin]; [|now apply Hb]. rewrite Hi. discriminate. }
  destruct (Hfind _ Hf) as (Hid & before & after & Hst & Hb).
  split; [exact Hid|]. split.
  - unfold load_flow in Hl.
    destruct (assoc_get String.eqb flow_id flow_files) as [filename|] eqn:Ha;
      [|discriminate].
    clear - Ha. unfold flow_files in *. cbn [assoc_get map fst In] in *.
    repeat match type of Ha with
           | (if String.eqb ?a ?b then _ else _) = _ =>
               destruct (String.eqb a b) eqn:E;
               [apply String.eqb_eq in E; subst; tauto|clear E]
           end.
    discriminate.
  - now exists flow, before, after.
Qed.

Lemma render_pending_fresh (st : state) :
  u_error (render_prompt_node disk st) = None ->
  exists p',
    u_pending (render_prompt_node disk st) = Some p'
    /\ forall p, p' = Some p ->
                 p_is_clarifying p = None /\ p_original_answer p = None.
Proof.
  unfold render_prompt_node, render_body, bind.
  case_split; cbn [on_exception u_error u_pending]; intros H; try discriminate H;
    eexists; (split; [reflexivity|]); intros p [= <-]; split; reflexivity.
Qed.

(** X17.  Rendering always replaces the pending record: unless it
    fails, the render node stores either no pending at all or a fresh
    record without the clarification flag and without an original
    answer.  A clarification that ingest has just requested therefore
    does not outlive a render that succeeds. *)
Theorem render_resets_pending (st : state) :
  let u := render_prompt_node disk st in
  u_error u = None ->
  exists p',
    u_pending u = Some p'
    /\ forall p, p' = Some p ->
                 p_is_clarifying p = None /\ p_original_answer p = None.
Proof. exact (render_pending_fresh st). Qed.

(** X18.  An answer that ingest stores can be read back: when the
    pending question has a path that the slots can follow and the turn
    does not ask for clarification, the node reports no error, clears
    pending, and a read of the path in the slots it returns finds the
    text it wrote - the raw answer, or in clarification mode the
    original answer, a newline and the new one - as the stored value, or
    as the new last element when the path held a list. *)
Theorem ingested_answer_readable (st : state) (text path answer : string)
    (p : pending) (stage : stage) (old : value) :
  last (map Some (messages st)) None = Some (HumanMessage text) ->
  st_pending st = Some p ->
  p_save_to p = Some (Some path) ->
  PyStr.nonempty path = true ->
  navigable (path_parts path) (slots st) = true ->
  get_stage disk (flow_id st) (active_stage_id st) = Ok stage ->
  answer_written p text = Some answer ->
  _get_nested_value (slots st) path = Ok old ->
  let u := ingest_user_answer_node disk st in
  u_error u = None
  /\ u_pending u = Some None
  /\ exists slots',
       u_slots u = Some slots'
       /\ _get_nested_value slots' path
          = Ok (leaf_after (path_parts path) old (VStr answer)).
Proof.
  intros Hm Hp Hs Hne Hnav Hg Ha Hold u.
  destruct (navigable_dict _ _ Hnav) as (d & Hd).
  destruct (path_round_trip (slots st) path (VStr answer) Hne Hnav)
    as (old' & slots' & Hold' & Hw & _ & Hread).
  assert (old' = old) by congruence. subst old'.
  assert (Hcopy : py_copy (slots st) = Ok (slots st)) by (rewrite Hd; reflexivity).
  assert (Hws : write_slot (slots st) (Some path) (VStr answer) = Ok slots')
    by (unfold write_slot; now rewrite Hw).
  subst u.
  rewrite (ingest_writes disk st text p (Some path) stage answer (slots st) slots'
             Hm Hp Hs Hcopy Hg Ha Hws).
  unfold ingest_advance.
  case_split; cbn [u_error u_pending u_slots];
    (split; [reflexivity|split; [reflexivity|]]); exists slots'; now split.
Qed.

(** X19.  On a pending confirm ingest writes nothing: the slots and
    the question cursor are returned as they were, pending is cleared
    whatever the answer, also when it is unclear, and the
    active stage becomes the one the classifier selects - [on_yes],
    [on_no], or the confirm stage itself. *)
Theorem ingest_confirm_routes (st : state) (text : string) (p : pending)
    (stage : stage) :
  last (map Some (messages st)) None = Some (HumanMessage text) ->
  st_pending st = Some p ->
  pending_truthy p = true ->
  p_save_to p = None ->
  PathSpec.is_dict (slots st) = true ->
  get_stage disk (flow_id st) (active_stage_id st) = Ok stage ->
  s_type stage = Some "confirm" ->
  let u := ingest_user_answer_node disk st in
  u_error u = None
  /\ u_messages u = []
  /\ u_slots u = Some (slots st)
  /\ u_question_cursor u = Some (question_cursor st)
  /\ u_pending u = Some None
  /\ u_active_stage_id u
     = Some (match _parse_yes_no text with
             | Some true => get_or "end" (s_on_yes stage)
             | Some false => get_or "end" (s_on_no stage)
             | None => get_or "end" (s_id stage)
             end).
Proof.
  intros Hm Hp Ht Hs Hd Hg Hty u. subst u.
  unfold ingest_user_answer_node, ingest_body. rewrite Hm, Hp, Ht. cbn [negb].
  destruct (slots st) as [| | | | |d] eqn:Hsl; try discriminate Hd.
  cbn [py_copy bind]. rewrite Hg. cbn [bind]. rewrite Hs, Hty.
  change (String.eqb "confirm" "confirm") with true. cbv iota.
  rewrite (confirm_next stage (VDict d) text Hty). cbn. repeat split.
Qed.

(** X20.  A questions stage whose cursor has reached the number of its
    questions is not asked again: the render node answers with the
    transition message, clears pending and moves to the stage's
    [next], whether or not the loop detector fires. *)
Theorem exhausted_questions_move_on (st : state) (stage : stage) :
  get_stage disk (flow_id st) (active_stage_id st) = Ok stage ->
  s_type stage = Some "questions" ->
  s_questions stage <> [] ->
  active_stage_id st <> "end" ->
  Z.of_nat (List.length (s_questions stage))
  <= cursor_get (active_stage_id st) 0 (question_cursor st) ->
  let u := render_prompt_node disk st in
  u_error u = None
  /\ u_messages u = [AIMessage moving_on]
  /\ u_pending u = Some None
  /\ u_active_stage_id u = Some (get_or "end" (s_next stage)).
Proof.
  intros Hg Hty Hq Hend Hidx u. subst u.
  unfold render_prompt_node, render_body.
  destruct (_detect_loop st).
  - rewrite Hg. cbn. repeat split.
  - apply String.eqb_neq in Hend. rewrite Hend, Hg. cbn [bind]. rewrite Hty.
    change (is_type "questions" (Some "questions")) with true. cbv iota zeta.
    destruct (s_questions stage) as [|q qs] eqn:Hqs; [congruence|].
    apply Z.leb_le in Hidx. rewrite Hidx. cbn. repeat split.
Qed.


Lemma collect_ai_in (msgs : list message) :
  forall (room : nat) (m : string),
    In m (collect_ai room msgs) ->
    exists content, In (AIMessage content) msgs /\ PyStr.strip content = m.
Proof.
  induction msgs as [|x msgs IH]; intros room m Hin.
  - destruct room; destruct Hin.
  - destruct room as [|room]; [destruct Hin|].
    cbn [collect_ai] in Hin.
    destruct x as [c|c|c];
      try (destruct (IH _ _ Hin) as (content & Hc & Hs);
           exists content; split; [now right|exact Hs]).
    destruct Hin as [<-|Hin].
    + exists c. split; [now left|reflexivity].
    + destruct (IH _ _ Hin) as (content & Hc & Hs).
      exists content. split; [now right|exact Hs].
Qed.

Lemma recent_ai_in (st : state) (m : string) :
  In m (recent_ai_messages st) ->
  exists content, In (AIMessage content) (messages st) /\ PyStr.strip content = m.
Proof.
  unfold recent_ai_messages, last_n. intros Hin.
  destruct (collect_ai_in _ _ _ Hin) as (content & Hc & Hs).
  exists content. split; [|exact Hs].
  apply in_rev in Hc.
  rewrite <- (firstn_skipn (List.length (messages st) - 20) (messages st)).
  apply in_or_app. now right.
Qed.

(** X21.  The loop detector fires exactly when the history has six
    messages or more and one of the inspected bot messages, longer than
    20 characters once stripped, occurs among them three times or more.
    It never fires on what the user wrote: the repeated text is the
    stripped content of a bot message of the history. *)
Theorem detect_loop_exactly (st : state) :
  _detect_loop st = true
  <-> (6 <= List.length (messages st))%nat
      /\ exists content,
           In (AIMessage content) (messages st)
           /\ (20 < String.length (PyStr.strip content))%nat
           /\ (3 <= count_msg (PyStr.strip content) (recent_ai_messages st))%nat.
Proof.
  split.
  - unfold _detect_loop.
    destruct (Nat.ltb_spec (List.length (messages st)) 6) as [|H6]; [discriminate|].
    destruct (List.length (recent_ai_messages st) <? 3)%nat; [discriminate|].
    intros H. apply existsb_exists in H as (msg & Hin & Hb).
    apply andb_true_iff in Hb as [H20 H3].
    apply Nat.ltb_lt in H20. apply Nat.leb_le in H3.
    destruct (recent_ai_in st msg Hin) as (content & Hc & <-).
    split; [exact H6|]. now exists content.
  - intros (H6 & content & _ & H20 & H3).
    exact (detect_loop_true st _ H6 H20 H3).
Qed.

Ltac split_ok :=
  repeat match goal with
         | H : bind ?r _ = Ok _ |- _ =>
             destruct r eqn:?; cbn [bind] in H; [|discriminate H]
         | H : (let (_, _) := ?p in _) = Ok _ |- _ => destruct p
         | H : (if ?b then _ else _) = Ok _ |- _ => destruct b eqn:?
         | H : match ?o with Some _ => _ | None => _ end = Ok _ |- _ =>
             destruct o eqn:?
         | H : Ok _ = Ok _ |- _ => inversion H; subst; clear H
         | H : Raise _ = Ok _ |- _ => discriminate H
         end.

Lemma loop_body_break (st : state) (active : string) (slots : value)
    (evs : list event) :
  loop_body disk execute_action st active slots = Ok (Break evs) ->
  existsb is_reset evs = false.
Proof. unfold loop_body. intros H. split_ok; reflexivity. Qed.

Lemma loop_body_slots (st : state) (active active' : string)
    (slots slots' : value) (evs : list event) :
  loop_body disk execute_action st active slots = Ok (Continue active' slots' evs) ->
  py_copy slots = Ok slots ->
  py_copy slots' = Ok slots'.
Proof.
  unfold loop_body. intros H Hc. split_ok; try exact Hc.
  match goal with
  | H : py_setitem _ _ ?x = Ok _ |- _ => destruct x; try discriminate H;
                                           cbn in H; inversion H; reflexivity
  end.
Qed.

Lemma advance_loop_slots (st : state) (budget : nat) :
  forall (active : string) (slots : value) (events : list event) (steps : Z)
         (le : loop_end),
    advance_loop disk execute_action st budget active slots events steps = Ok le ->
    py_copy slots = Ok slots ->
    py_copy (le_slots le) = Ok (le_slots le).
Proof.
  induction budget as [|budget IH]; intros active slots events steps le H Hc.
  - cbn in H. now inversion H.
  - cbn [advance_loop] in H.
    destruct (loop_body disk execute_action st active slots) as [it|e] eqn:Hb;
      cbn [bind] in H; [|discriminate].
    destruct it as [evs|active' slots' evs].
    + now inversion H.
    + exact (IH _ _ _ _ _ H (loop_body_slots _ _ _ _ _ _ Hb Hc)).
Qed.

Lemma loop_body_ext (st st' : state) (active : string) (slots : value) :
  flow_id st' = flow_id st ->
  messages st' = messages st ->
  loop_body disk execute_action st' active slots
  = loop_body disk execute_action st active slots.
Proof.
  intros Hf Hm. unfold loop_body, last_user_response. now rewrite Hf, Hm.
Qed.

Lemma auto_advance_ok (st : state) :
  u_error (auto_advance_node disk execute_action st) = None ->
  exists le evs,
    auto_advance_node disk execute_action st
    = {| u_messages := [];
         u_events := le_events le
                     ++ [auto_advance_summary (le_steps le)
                           (get_or 50 (max_auto_advance_steps st))];
         u_pending := None;
         u_slots := Some (le_slots le);
         u_question_cursor :=
           if existsb is_reset (le_events le)
           then Some (reset_cursors (question_cursor st)) else None;
         u_active_stage_id := Some (le_active_stage_id le);
         u_auto_advance_count :=
           Some (get_or 0 (auto_advance_count st) + le_steps le);
         u_error := None; u_retry_count := None |}
    /\ py_copy (le_slots le) = Ok (le_slots le)
    /\ 0 <= le_steps le < get_or 50 (max_auto_advance_steps st)
    /\ loop_body disk execute_action st (le_active_stage_id le) (le_slots le)
       = Ok (Break evs).
Proof.
  unfold auto_advance_node, auto_advance_body.
  destruct (py_copy (slots st)) as [slots0|e] eqn:Hc; cbn [bind on_exception];
    [|discriminate].
  assert (Hc0 : py_copy slots0 = Ok slots0)
    by (destruct (slots st); try discriminate; now injection Hc as <-).
  set (max_steps := get_or 50 (max_auto_advance_steps st)).
  destruct (advance_loop disk execute_action st (Z.to_nat max_steps)
              (active_stage_id st) slots0 [] 0) as [le|e] eqn:Hl;
    cbn [bind]; [|discriminate].
  pose proof (advance_loop_slots _ _ _ _ _ _ _ Hl Hc0) as Hcle.
  apply advance_loop_spec in Hl as (H1 & _ & H3).
  destruct (max_steps <=? le_steps le) eqn:Hle; [discriminate|].
  apply Z.leb_gt in Hle. intros _.
  destruct (H3 ltac:(lia)) as (evs & Hb).
  exists le, evs. repeat split; try assumption; lia.
Qed.

(** X22.  Auto-advance stops where it would stop again.  When the node
    ends without an error, running it once more on the state it
    produced takes no step: the second run reports no error, keeps the
    active stage, the slots and the step counter, and resets no
    question cursor. *)
Theorem auto_advance_idempotent (st : state) :
  let u := auto_advance_node disk execute_action st in
  u_error u = None ->
  let st' := apply_update st u in
  let u' := auto_advance_node disk execute_action st' in
  u_error u' = None
  /\ u_active_stage_id u' = Some (active_stage_id st')
  /\ u_slots u' = Some (slots st')
  /\ u_auto_advance_count u' = Some (get_or 0 (auto_advance_count st') + 0)
  /\ u_question_cursor u' = None
  /\ count_steps (u_events u') = 0%nat.
Proof.
  intros u Hu st' u'.
  destruct (auto_advance_ok st Hu) as (le & evs & Heq & Hcle & Hsteps & Hb).
  assert (Hst : slots st' = le_slots le
                /\ active_stage_id st' = le_active_stage_id le
                /\ max_auto_advance_steps st' = max_auto_advance_steps st
                /\ flow_id st' = flow_id st
                /\ messages st' = messages st).
  { subst st' u. rewrite Heq. cbn. rewrite app_nil_r. repeat split. }
  destruct Hst as (Hs1 & Hs2 & Hs3 & Hs4 & Hs5).
  subst u'. unfold auto_advance_node, auto_advance_body.
  rewrite Hs1, Hs2, Hs3, Hcle. cbn [bind].
  set (max_steps := get_or 50 (max_auto_advance_steps st)) in *.
  destruct (Z.to_nat max_steps) as [|n] eqn:Hn; [lia|].
  cbn [advance_loop].
  rewrite (loop_body_ext st st' _ _ Hs4 Hs5), Hb.
  cbn [bind le_steps le_events le_slots le_active_stage_id].
  destruct (Z.leb_spec max_steps 0); [lia|].
  cbn [on_exception u_error u_active_stage_id u_slots u_auto_advance_count
       u_question_cursor u_events app].
  rewrite (loop_body_break _ _ _ _ Hb), count_steps_app.
  pose proof (loop_body_events disk execute_action _ _ _ _ Hb) as Hev.
  cbn in Hev. rewrite Hev. repeat split.
Qed.

End NodeEdges.

Lemma get_stage_first_match_witness :
  s_id Samples.context_stage = Some "engagement_context"
  /\ In "intake_sipoc_v1" (map fst flow_files).
Proof.
  destruct (get_stage_first_match Samples.disk "intake_sipoc_v1" "engagement_context"
              Samples.context_stage eq_refl) as (H1 & H2 & _).
  exact (conj H1 H2).
Defined.

Lemma render_resets_pending_witness :
  exists p',
    u_pending (render_prompt_node Samples.disk
                 (Samples.asking [HumanMessage "Jane Doe"] 1 [])) = Some p'
    /\ forall p, p' = Some p ->
                 p_is_clarifying p = None /\ p_original_answer p = None.
Proof.
  exact (render_resets_pending Samples.disk
           (Samples.asking [HumanMessage "Jane Doe"] 1 []) eq_refl).
Defined.

Lemma ingested_answer_readable_witness :
  let u := ingest_user_answer_node Samples.disk
             (Samples.asking [HumanMessage "Jane Doe"] 2 []) in
  u_error u = None
  /\ u_pending u = Some None
  /\ exists slots',
       u_slots u = Some slots'
       /\ _get_nested_value slots' "engagement.sponsor" = Ok (VStr "Jane Doe").
Proof.
  exact (ingested_answer_readable Samples.disk
           (Samples.asking [HumanMessage "Jane Doe"] 2 [])
           "Jane Doe" "engagement.sponsor" "Jane Doe"
           (Samples.question_pending "engagement.sponsor" 2 [])
           Samples.context_stage VNone
           eq_refl eq_refl eq_refl eq_refl eq_refl eq_refl eq_refl eq_refl).
Defined.

Lemma ingest_confirm_routes_witness :
  let u := ingest_user_answer_node Samples.disk (TurnSamples.confirming "maybe") in
  u_slots u = Some (slots (TurnSamples.confirming "maybe"))
  /\ u_pending u = Some None
  /\ u_active_stage_id u = Some "sipoc_confirm".
Proof.
  destruct (ingest_confirm_routes Samples.disk (TurnSamples.confirming "maybe") "maybe"
              _ Samples.confirm_stage
              eq_refl eq_refl eq_refl eq_refl eq_refl eq_refl eq_refl)
    as (_ & _ & Hs & _ & Hp & Ha).
  exact (conj Hs (conj Hp Ha)).
Defined.

Lemma exhausted_questions_move_on_witness :
  let u := render_prompt_node Samples.disk
             (Samples.asking [HumanMessage "Jane Doe"] 3 []) in
  u_error u = None
  /\ u_messages u = [AIMessage moving_on]
  /\ u_pending u = Some None
  /\ u_active_stage_id u = Some "sipoc_confirm".
Proof.
  exact (exhausted_questions_move_on Samples.disk
           (Samples.asking [HumanMessage "Jane Doe"] 3 []) Samples.context_stage
           eq_refl eq_refl ltac:(discriminate) ltac:(discriminate)
           ltac:(vm_compute; discriminate)).
Defined.

Lemma auto_advance_idempotent_witness :
  let u := auto_advance_node Samples.disk Samples.execute_action
             (Samples.start_state "intake_sipoc_v1") in
  let st' := apply_update (Samples.start_state "intake_sipoc_v1") u in
  let u' := auto_advance_node Samples.disk Samples.execute_action st' in
  u_error u' = None
  /\ u_active_stage_id u' = Some "engagement_context"
  /\ u_auto_advance_count u' = Some 1.
Proof.
  destruct (auto_advance_idempotent Samples.disk Samples.execute_action
              (Samples.start_state "intake_sipoc_v1") eq_refl)
    as (He & Ha & _ & Hc & _).
  exact (conj He (conj Ha Hc)).
Defined.

(** ** One invocation of the graph *)

Section TurnProps.
Import Spec Graph.

Variable disk : string -> flow_file.
Variable execute_action : string -> value -> string -> result (value * value).

Ltac case_all :=
  repeat match goal with
         | |- context [match ?x with _ => _ end] => destruct x eqn:?
         end.

Lemma load_flow_messages (st : state) :
  u_messages (load_flow_node disk st) = [].
Proof. unfold load_flow_node, load_flow_body, bind. case_all; reflexivity. Qed.

Lemma ingest_messages (st : state) :
  let u := ingest_user_answer_node disk st in
  u_messages u = [] \/ exists c, u_messages u = [AIMessage c].
Proof.
  cbv zeta.
  unfold ingest_user_answer_node, ingest_body, ingest_advance, bind.
  case_all; cbn [on_exception u_messages]; try (now left); right; eexists; reflexivity.
Qed.

Lemma auto_advance_messages (st : state) :
  u_messages (auto_advance_node disk execute_action st) = [].
Proof.
  unfold auto_advance_node, auto_advance_body, bind.
  destruct (py_copy (slots st)); [|reflexivity].
  destruct (advance_loop _ _ _ _ _ _ _ _); [|reflexivity].
  destruct (_ <=? _); reflexivity.
Qed.

Lemma render_messages (st : state) :
  let u := render_prompt_node disk st in
  u_messages u = [] \/ exists c, u_messages u = [AIMessage c].
Proof.
  cbv zeta. unfold render_prompt_node, render_body, bind.
  case_all; cbn [on_exception u_messages]; try (now left); right; eexists; reflexivity.
Qed.

Lemma apply_no_update (st : state) : apply_update st no_update = st.
Proof. destruct st. unfold apply_update. cbn. now rewrite app_nil_r. Qed.

Lemma load_flow_noop (st : state) :
  truthy (slots st) = true -> apply_update st (load_flow_node disk st) = st.
Proof.
  intros Ht. unfold load_flow_node, load_flow_body. rewrite Ht.
  cbn [negb on_exception]. apply apply_no_update.
Qed.

Lemma detect_loop_ext (a b : state) :
  messages a = messages b -> _detect_loop a = _detect_loop b.
Proof. intros H. unfold _detect_loop, recent_ai_messages. now rewrite H. Qed.

(** Auto-advance at a stage that waits for the user. *)
Lemma auto_advance_waits (st : state) (stage : stage) :
  get_stage disk (flow_id st) (active_stage_id st) = Ok stage ->
  (is_type "questions" (s_type stage) || is_type "confirm" (s_type stage))%bool = true ->
  PathSpec.is_dict (slots st) = true ->
  let st' := apply_update st (auto_advance_node disk execute_action st) in
  messages st' = messages st
  /\ flow_id st' = flow_id st
  /\ active_stage_id st' = active_stage_id st
  /\ slots st' = slots st
  /\ st_pending st' = st_pending st
  /\ question_cursor st' = question_cursor st.
Proof.
  intros Hg Hty Hd. cbv zeta.
  unfold auto_advance_node, auto_advance_body.
  destruct (slots st) as [| | | | |d] eqn:Hs; try discriminate Hd.
  cbn [py_copy bind].
  set (max_steps := get_or 50 (max_auto_advance_steps st)).
  destruct (Z.to_nat max_steps) as [|n] eqn:Hn.
  - cbn [advance_loop bind le_steps].
    destruct (Z.leb_spec max_steps 0); [|lia].
    cbn. rewrite app_nil_r, Hs. repeat split.
  - cbn [advance_loop]. unfold loop_body. rewrite Hg. cbn [bind]. rewrite Hty.
    cbn [bind le_steps le_events le_slots le_active_stage_id app].
    destruct (Z.leb_spec max_steps 0); [lia|].
    cbn. rewrite app_nil_r. repeat split.
Qed.

(** The render node at a questions stage whose cursor is on a question. *)
Lemma render_asks (st : state) (stage : stage) (q : question) (rendered : string) :
  _detect_loop st = false ->
  active_stage_id st <> "end" ->
  get_stage disk (flow_id st) (active_stage_id st) = Ok stage ->
  s_type stage = Some "questions" ->
  cursor_get (active_stage_id st) 0 (question_cursor st)
  < Z.of_nat (List.length (s_questions stage)) ->
  py_index_list (cursor_get (active_stage_id st) 0 (question_cursor st))
    (s_questions stage) = Ok q ->
  render (get_or EmptyString (q_ask q)) (slots st) = Ok rendered ->
  render_prompt_node disk st
  = {| u_messages := [AIMessage rendered];
       u_events := [prompt_rendered (active_stage_id st) (Some "question") None];
       u_pending :=
         Some (Some {| p_question_id := Some (q_id q);
                       p_save_to := Some (q_save_to q);
                       p_ask := Some rendered;
                       p_clarify_if := Some (get_or [] (q_clarify_if q));
                       p_question_index :=
                         Some (cursor_get (active_stage_id st) 0 (question_cursor st));
                       p_is_clarifying := None; p_original_answer := None;
                       p_confirm_id := None; p_summary_template := None;
                       p_on_yes := None; p_on_no := None |});
       u_slots := None; u_question_cursor := None; u_active_stage_id := None;
       u_auto_advance_count := None; u_error := None; u_retry_count := None |}.
Proof.
  intros Hloop Hend Hg Hty Hidx Hq Hr.
  unfold render_prompt_node, render_body.
  apply String.eqb_neq in Hend. rewrite Hloop, Hend, Hg. cbn [bind]. rewrite Hty.
  change (is_type "questions" (Some "questions")) with true. cbv iota zeta.
  destruct (s_questions stage) as [|q0 qs] eqn:Hqs.
  { exfalso. unfold py_index_list, seq_pos in Hq. cbn [List.length] in Hq.
    change (Z.of_nat 0) with 0 in Hq.
    destruct (_ <? 0) in Hq;
      match type of Hq with
      | context [(0 <=? ?j) && (?j <? 0)] =>
          destruct (Z.leb_spec 0 j); destruct (Z.ltb_spec j 0);
          cbn [andb] in Hq; try discriminate Hq; lia
      end. }
  destruct (Z.leb_spec (Z.of_nat (List.length (q0 :: qs)))
              (cursor_get (active_stage_id st) 0 (question_cursor st))); [lia|].
  rewrite Hq. cbn [bind]. rewrite Hr. reflexivity.
Qed.


(** X23.  An invocation of the graph only adds to the conversation: the
    history it was given is kept as a prefix, and what it appends is
    at most two messages, all of them bot messages - the follow-up of
    ingest, if any, then the prompt of render, if any. *)
Theorem invoke_appends_bot_messages (s : session) :
  exists added,
    messages (sn_state (invoke disk execute_action s))
    = (messages (sn_state s) ++ added)%list
    /\ (List.length added <= 2)%nat
    /\ forallb is_ai added = true.
Proof.
  unfold invoke. cbv zeta.
  set (st0 := sn_state s).
  set (s1 := merge s (load_flow_node disk st0)).
  set (s2 := merge s1 (ingest_user_answer_node disk (sn_state s1))).
  set (s3 := merge s2 (auto_advance_node disk execute_action (sn_state s2))).
  cbn [merge sn_state apply_update messages].
  subst s3. cbn [merge sn_state apply_update messages].
  rewrite auto_advance_messages.
  subst s2. cbn [merge sn_state apply_update messages].
  subst s1. cbn [merge sn_state apply_update messages].
  rewrite load_flow_messages, !app_nil_r.
  match goal with
  | |- context [u_messages (ingest_user_answer_node disk ?a)] =>
      destruct (ingest_messages a) as [Hi|(ci & Hi)]
  end;
    match goal with
    | |- context [u_messages (render_prompt_node disk ?a)] =>
        destruct (render_messages a) as [Hr|(cr & Hr)]
    end;
    rewrite Hi, Hr, <- app_assoc; eexists; (split; [reflexivity|]);
    cbn; split; (lia || reflexivity).
Qed.

(** X24.  No invocation of the graph that ends without an error leaves
    the session waiting for a clarification: the pending record that
    comes out of it, if any, carries neither the clarification flag nor
    an original answer.  The branch of ingest that combines an original
    answer with its clarification is therefore entered only after an
    invocation that failed, or on a state built outside the graph. *)
Theorem invoke_leaves_no_clarification (s : session) (p : pending) :
  sn_error (invoke disk execute_action s) = None ->
  st_pending (sn_state (invoke disk execute_action s)) = Some p ->
  p_is_clarifying p = None /\ p_original_answer p = None.
Proof.
  unfold invoke. cbv zeta.
  set (s3 := merge _ (auto_advance_node disk execute_action _)).
  cbn [merge sn_error sn_state apply_update st_pending].
  intros He Hp.
  destruct (u_error (render_prompt_node disk (sn_state s3))) eqn:Hu; [discriminate|].
  destruct (render_pending_fresh disk _ Hu) as (p' & Hp' & Hfresh).
  rewrite Hp' in Hp. cbn [get_or] in Hp. exact (Hfresh p Hp).
Qed.


(** Ingest when a rule with a follow-up fires. *)
Lemma ingest_asks_clarification (st : state) (text follow_up condition : string)
    (p : pending) (save_to : option string) (stage : stage) :
  last (map Some (messages st)) None = Some (HumanMessage text) ->
  st_pending st = Some p ->
  p_save_to p = Some save_to ->
  get_or false (p_is_clarifying p) = false ->
  first_clarify text (get_or [] (p_clarify_if p)) = Some (condition, follow_up) ->
  PyStr.nonempty follow_up = true ->
  PathSpec.is_dict (slots st) = true ->
  get_stage disk (flow_id st) (active_stage_id st) = Ok stage ->
  ingest_user_answer_node disk st
  = {| u_messages := [AIMessage follow_up];
       u_events := [clarify_requested (active_stage_id st) save_to condition follow_up];
       u_pending := Some (Some (set_clarifying p true (Some text)));
       u_slots := Some (slots st);
       u_question_cursor := Some (question_cursor st);
       u_active_stage_id := None; u_auto_advance_count := None;
       u_error := None; u_retry_count := None |}.
Proof.
  intros Hm Hp Hs Hc Hf Hne Hd Hg.
  unfold ingest_user_answer_node, ingest_body. rewrite Hm, Hp.
  assert (Ht : pending_truthy p = true).
  { unfold pending_truthy. rewrite Hs. cbn. now rewrite orb_true_r. }
  rewrite Ht. cbn [negb].
  destruct (slots st) as [| | | | |d] eqn:Hsl; try discriminate Hd.
  cbn [py_copy bind]. rewrite Hg. cbn [bind]. rewrite Hs, Hc, Hf, Hne. reflexivity.
Qed.

Lemma render_keeps_slots (st : state) :
  u_slots (render_prompt_node disk st) = None
  /\ u_question_cursor (render_prompt_node disk st) = None.
Proof.
  unfold render_prompt_node, render_body, bind.
  case_all; cbn [on_exception u_slots u_question_cursor]; split; reflexivity.
Qed.

(** The render node when the loop detector fires. *)
Lemma render_on_loop (st : state) (stage : stage) :
  _detect_loop st = true ->
  get_stage disk (flow_id st) (active_stage_id st) = Ok stage ->
  render_prompt_node disk st
  = {| u_messages := [AIMessage moving_on];
       u_events := [loop_detected_force_advance (active_stage_id st)
                      (get_or "end" (s_next stage))];
       u_pending := Some None;
       u_slots := None; u_question_cursor := None;
       u_active_stage_id := Some (get_or "end" (s_next stage));
       u_auto_advance_count := None; u_error := None; u_retry_count := None |}.
Proof.
  intros Hloop Hg. unfold render_prompt_node, render_body.
  rewrite Hloop, Hg. reflexivity.
Qed.

(** X25.  A turn that asks for clarification stores nothing.  On a
    session whose slots are a mapping that is not empty, when the
    answer to the pending question of a questions stage meets a
    clarification rule with a follow-up, one invocation of the graph
    leaves slots and cursor as they were and appends the follow-up
    first: the answer just given is kept nowhere in the resulting state
    but the history.  What render appends after the follow-up depends
    on the loop detector, applied to the history with the follow-up.
    When it fires, render appends the transition message, clears
    pending and moves to the stage's [next].  When it does not, and the
    stage is not "end" and its cursor is on a question whose text
    renders, render appends that question again, keeps the active
    stage, and leaves the fresh pending record of the question, without
    the clarification flag and the original answer. *)
Theorem clarification_turn (s : session) (text follow_up condition : string)
    (p : pending) (save_to : option string) (stage : stage) :
  let st := sn_state s in
  let idx := cursor_get (active_stage_id st) 0 (question_cursor st) in
  let extended := with_messages st (messages st ++ [AIMessage follow_up]) in
  truthy (slots st) = true ->
  PathSpec.is_dict (slots st) = true ->
  last (map Some (messages st)) None = Some (HumanMessage text) ->
  st_pending st = Some p ->
  p_save_to p = Some save_to ->
  get_or false (p_is_clarifying p) = false ->
  first_clarify text (get_or [] (p_clarify_if p)) = Some (condition, follow_up) ->
  PyStr.nonempty follow_up = true ->
  get_stage disk (flow_id st) (active_stage_id st) = Ok stage ->
  s_type stage = Some "questions" ->
  let st' := sn_state (invoke disk execute_action s) in
  slots st' = slots st
  /\ question_cursor st' = question_cursor st
  /\ (exists rest,
         messages st' = (messages st ++ AIMessage follow_up :: rest)%list)
  /\ (_detect_loop extended = true ->
      messages st' = (messages st ++ [AIMessage follow_up; AIMessage moving_on])%list
      /\ active_stage_id st' = get_or "end" (s_next stage)
      /\ st_pending st' = None)
  /\ (_detect_loop extended = false ->
      active_stage_id st <> "end" ->
      forall (q : question) (rendered : string),
        idx < Z.of_nat (List.length (s_questions stage)) ->
        py_index_list idx (s_questions stage) = Ok q ->
        render (get_or EmptyString (q_ask q)) (slots st) = Ok rendered ->
        messages st' = (messages st ++ [AIMessage follow_up; AIMessage rendered])%list
        /\ active_stage_id st' = active_stage_id st
        /\ st_pending st'
           = Some {| p_question_id := Some (q_id q);
                     p_save_to := Some (q_save_to q);
                     p_ask := Some rendered;
                     p_clarify_if := Some (get_or [] (q_clarify_if q));
                     p_question_index := Some idx;
                     p_is_clarifying := None; p_original_answer := None;
                     p_confirm_id := None; p_summary_template := None;
                     p_on_yes := None; p_on_no := None |}).
Proof.
  intros st idx extended Ht Hd Hm Hp Hs Hc Hf Hne Hg Hty.
  unfold invoke. cbv zeta. cbn [merge sn_state]. fold st.
  rewrite (load_flow_noop st Ht).
  rewrite (ingest_asks_clarification st text follow_up condition p save_to stage
             Hm Hp Hs Hc Hf Hne Hd Hg).
  set (st2 := apply_update st _).
  assert (H2 : messages st2 = (messages st ++ [AIMessage follow_up])%list
               /\ flow_id st2 = flow_id st
               /\ active_stage_id st2 = active_stage_id st
               /\ slots st2 = slots st
               /\ question_cursor st2 = question_cursor st)
    by (repeat split).
  destruct H2 as (Hm2 & Hf2 & Ha2 & Hs2 & Hc2).
  assert (Hg2 : get_stage disk (flow_id st2) (active_stage_id st2) = Ok stage)
    by (rewrite Hf2, Ha2; exact Hg).
  assert (Hty2 : (is_type "questions" (s_type stage)
                  || is_type "confirm" (s_type stage))%bool = true)
    by (rewrite Hty; reflexivity).
  destruct (auto_advance_waits st2 stage Hg2 Hty2 ltac:(rewrite Hs2; exact Hd))
    as (Hm3 & Hf3 & Ha3 & Hs3 & _ & Hc3).
  set (st3 := apply_update st2 _) in *.
  assert (Hloop3 : _detect_loop st3 = _detect_loop extended)
    by (apply detect_loop_ext; rewrite Hm3, Hm2; reflexivity).
  assert (Hg3 : get_stage disk (flow_id st3) (active_stage_id st3) = Ok stage)
    by (rewrite Hf3, Ha3; exact Hg2).
  destruct (render_keeps_slots st3) as (Hus & Huc).
  split; [|split; [|split; [|split]]].
  - cbn [apply_update slots]. rewrite Hus. cbn [get_or]. now rewrite Hs3, Hs2.
  - cbn [apply_update question_cursor]. rewrite Huc. cbn [get_or].
    now rewrite Hc3, Hc2.
  - exists (u_messages (render_prompt_node disk st3)).
    cbn [apply_update messages]. now rewrite Hm3, Hm2, <- app_assoc.
  - intros Hloop. rewrite (render_on_loop st3 stage) by congruence.
    cbn [apply_update messages active_stage_id st_pending
         u_messages u_active_stage_id u_pending get_or].
    rewrite Hm3, Hm2, <- app_assoc. repeat split.
  - intros Hloop Hend q rendered Hidx Hq Hr.
    rewrite (render_asks st3 stage q rendered ltac:(congruence)
               ltac:(rewrite Ha3, Ha2; exact Hend)
               Hg3 Hty
               ltac:(rewrite Ha3, Ha2, Hc3, Hc2; exact Hidx)
               ltac:(rewrite Ha3, Ha2, Hc3, Hc2; exact Hq)
               ltac:(rewrite Hs3, Hs2; exact Hr)).
    cbn [apply_update messages active_stage_id st_pending
         u_messages u_active_stage_id u_pending get_or].
    rewrite Hm3, Hm2, Hc3, Hc2, Ha3, Ha2, <- app_assoc.
    repeat split.
Qed.

(** X26.  A turn that answers a question stores the answer and moves
    the cursor.  On a session whose slots are a mapping that is not
    empty, when the pending question of a questions stage has a path
    that is not empty and that the slots can follow, its answer needs
    no clarification and the stage has a further question, one
    invocation of the graph writes the answer at the path, so that it
    reads back there, and sets the stage's cursor to the next index.
    What is asked then depends on the loop detector, applied to the
    history as it came.  When it fires, render appends the transition
    message, clears pending and moves to the stage's [next]: the
    remaining questions of the stage are not asked.  When it does not,
    and the stage is not "end" and the next question's text renders on
    the slots that already hold the answer, render appends exactly that
    text, keeps the active stage and leaves the next question pending
    with its own index. *)
Theorem answer_turn (s : session) (text path answer : string)
    (p : pending) (stage : stage) (old : value) :
  let st := sn_state s in
  let idx := get_or (cursor_get (active_stage_id st) 0 (question_cursor st))
                    (p_question_index p) in
  let slots' := snd (write (slots st) path (VStr answer)) in
  truthy (slots st) = true ->
  last (map Some (messages st)) None = Some (HumanMessage text) ->
  st_pending st = Some p ->
  p_save_to p = Some (Some path) ->
  PyStr.nonempty path = true ->
  navigable (path_parts path) (slots st) = true ->
  _get_nested_value (slots st) path = Ok old ->
  answer_written p text = Some answer ->
  get_stage disk (flow_id st) (active_stage_id st) = Ok stage ->
  s_type stage = Some "questions" ->
  idx + 1 < Z.of_nat (List.length (s_questions stage)) ->
  let st' := sn_state (invoke disk execute_action s) in
  slots st' = slots'
  /\ _get_nested_value (slots st') path
     = Ok (leaf_after (path_parts path) old (VStr answer))
  /\ cursor_get (active_stage_id st) 0 (question_cursor st') = idx + 1
  /\ (_detect_loop st = true ->
      messages st' = (messages st ++ [AIMessage moving_on])%list
      /\ active_stage_id st' = get_or "end" (s_next stage)
      /\ st_pending st' = None)
  /\ (_detect_loop st = false ->
      active_stage_id st <> "end" ->
      forall (q : question) (rendered : string),
        py_index_list (idx + 1) (s_questions stage) = Ok q ->
        render (get_or EmptyString (q_ask q)) slots' = Ok rendered ->
        messages st' = (messages st ++ [AIMessage rendered])%list
        /\ active_stage_id st' = active_stage_id st
        /\ st_pending st'
           = Some {| p_question_id := Some (q_id q);
                     p_save_to := Some (q_save_to q);
                     p_ask := Some rendered;
                     p_clarify_if := Some (get_or [] (q_clarify_if q));
                     p_question_index := Some (idx + 1);
                     p_is_clarifying := None; p_original_answer := None;
                     p_confirm_id := None; p_summary_template := None;
                     p_on_yes := None; p_on_no := None |}).
Proof.
  intros st idx slots' Ht Hm Hp Hs Hne Hnav Hold Ha Hg Hty Hidx.
  destruct (navigable_dict _ _ Hnav) as (d & Hd).
  destruct (path_round_trip (slots st) path (VStr answer) Hne Hnav)
    as (old' & slots1 & Hold' & Hw & Hnav' & Hread).
  assert (old' = old) by congruence. subst old'.
  assert (Hsl : slots' = slots1) by (subst slots'; now rewrite Hw).
  rewrite Hsl. clear Hsl slots'.
  destruct (navigable_dict _ _ Hnav') as (d1 & Hd1).
  assert (Hcopy : py_copy (slots st) = Ok (slots st)) by (rewrite Hd; reflexivity).
  assert (Hws : write_slot (slots st) (Some path) (VStr answer) = Ok slots1)
    by (unfold write_slot; now rewrite Hw).
  unfold invoke. cbv zeta. cbn [merge sn_state]. fold st.
  rewrite (load_flow_noop st Ht).
  rewrite (ingest_writes disk st text p (Some path) stage answer (slots st) slots1
             Hm Hp Hs Hcopy Hg Ha Hws).
  unfold ingest_advance. rewrite Hty.
  change (String.eqb "questions" "questions") with true. cbv iota zeta. fold idx.
  destruct (Z.ltb_spec (idx + 1) (Z.of_nat (List.length (s_questions stage))));
    [|lia].
  set (st2 := apply_update st _).
  assert (H2 : messages st2 = messages st
               /\ flow_id st2 = flow_id st
               /\ active_stage_id st2 = active_stage_id st
               /\ slots st2 = slots1
               /\ question_cursor st2
                  = cursor_set (active_stage_id st) (idx + 1) (question_cursor st))
    by (repeat split; cbn; apply app_nil_r).
  destruct H2 as (Hm2 & Hf2 & Ha2 & Hs2 & Hc2).
  assert (Hg2 : get_stage disk (flow_id st2) (active_stage_id st2) = Ok stage)
    by (rewrite Hf2, Ha2; exact Hg).
  assert (Hty2 : (is_type "questions" (s_type stage)
                  || is_type "confirm" (s_type stage))%bool = true)
    by (rewrite Hty; reflexivity).
  destruct (auto_advance_waits st2 stage Hg2 Hty2 ltac:(rewrite Hs2, Hd1; reflexivity))
    as (Hm3 & Hf3 & Ha3 & Hs3 & _ & Hc3).
  set (st3 := apply_update st2 _) in *.
  assert (Hloop3 : _detect_loop st3 = _detect_loop st)
    by (apply detect_loop_ext; rewrite Hm3, Hm2; reflexivity).
  assert (Hg3 : get_stage disk (flow_id st3) (active_stage_id st3) = Ok stage)
    by (rewrite Hf3, Ha3; exact Hg2).
  assert (Hcur : cursor_get (active_stage_id st3) 0 (question_cursor st3) = idx + 1)
    by (rewrite Ha3, Ha2, Hc3, Hc2; apply cursor_get_set).
  destruct (render_keeps_slots st3) as (Hus & Huc).
  assert (Hslots : slots (apply_update st3 (render_prompt_node disk st3)) = slots1).
  { cbn [apply_update slots]. rewrite Hus. cbn [get_or]. now rewrite Hs3, Hs2. }
  split; [exact Hslots|]. split; [rewrite Hslots; exact Hread|].
  split; [|split].
  - cbn [apply_update question_cursor]. rewrite Huc. cbn [get_or].
    rewrite Hc3, Hc2. apply cursor_get_set.
  - intros Hloop. rewrite (render_on_loop st3 stage) by congruence.
    cbn [apply_update messages active_stage_id st_pending
         u_messages u_active_stage_id u_pending get_or].
    rewrite Hm3, Hm2. repeat split.
  - intros Hloop Hend q rendered Hq Hr.
    rewrite (render_asks st3 stage q rendered ltac:(congruence)
               ltac:(rewrite Ha3, Ha2; exact Hend)
               Hg3 Hty
               ltac:(rewrite Hcur; exact Hidx)
               ltac:(rewrite Hcur; exact Hq)
               ltac:(rewrite Hs3, Hs2; exact Hr)).
    cbn [apply_update messages active_stage_id st_pending
         u_messages u_active_stage_id u_pending get_or].
    rewrite Hcur, Hm3, Hm2, Ha3, Ha2.
    repeat split.
Qed.

End TurnProps.

Lemma invoke_leaves_no_clarification_witness :
  let s := Graph.invoke Samples.disk Samples.execute_action
             (TurnSamples.session_of
                (Samples.asking [HumanMessage "x"] 2
                   [Samples.too_short "Please say more."])) in
  Graph.sn_error s = None
  /\ exists p,
       st_pending (Graph.sn_state s) = Some p
       /\ p_is_clarifying p = None /\ p_original_answer p = None.
Proof.
  split; [reflexivity|].
  eexists. split; [reflexivity|].
  exact (invoke_leaves_no_clarification Samples.disk Samples.execute_action
           (TurnSamples.session_of
              (Samples.asking [HumanMessage "x"] 2
                 [Samples.too_short "Please say more."]))
           _ eq_refl eq_refl).
Defined.

Lemma clarification_turn_witness :
  let st := Samples.asking [HumanMessage "x"] 2
              [Samples.too_short "Please say more."] in
  let st' := Graph.sn_state (Graph.invoke Samples.disk Samples.execute_action
                         (TurnSamples.session_of st)) in
  slots st' = slots st
  /\ question_cursor st' = question_cursor st
  /\ messages st'
     = [HumanMessage "x"; AIMessage "Please say more.";
        AIMessage "Tell me about sponsor"]
  /\ active_stage_id st' = "engagement_context".
Proof.
  intros st st'.
  destruct (clarification_turn Samples.disk Samples.execute_action
              (TurnSamples.session_of st)
              "x" "Please say more." "empty_or_too_short"
              (Samples.question_pending "engagement.sponsor" 2
                 [Samples.too_short "Please say more."])
              (Some "engagement.sponsor") Samples.context_stage
              eq_refl eq_refl eq_refl eq_refl eq_refl eq_refl eq_refl eq_refl
              eq_refl eq_refl)
    as (Hs & Hc & _ & _ & Hask).
  destruct (Hask eq_refl ltac:(discriminate)
              (Samples.question_n "sponsor" "engagement.sponsor")
              "Tell me about sponsor" eq_refl eq_refl eq_refl)
    as (Hm & Ha & _).
  exact (conj Hs (conj Hc (conj Hm Ha))).
Defined.

(** The same answer on a history in which the question was already
    asked twice and the bot spoke three times: the detector fires, and
    the turn ends on the next stage with nothing pending. *)
Example clarification_turn_on_loop :
  let st := Samples.asking
              [AIMessage "Tell me about sponsor"; HumanMessage "x";
               AIMessage "Please give the full name of the sponsor.";
               AIMessage "Tell me about sponsor"; HumanMessage "y";
               AIMessage "Please give the full name of the sponsor.";
               AIMessage "Tell me about sponsor"; HumanMessage "z"] 2
              [Samples.too_short "Please give the full name of the sponsor."] in
  let st' := Graph.sn_state (Graph.invoke Samples.disk Samples.execute_action
                         (TurnSamples.session_of st)) in
  last (messages st') (HumanMessage "") = AIMessage moving_on
  /\ active_stage_id st' = "sipoc_confirm"
  /\ st_pending st' = None
  /\ slots st' = slots st.
Proof. vm_compute. repeat split. Qed.

Lemma answer_turn_witness :
  let st := Samples.asking [HumanMessage "Acme"] 0 [] in
  let st' := Graph.sn_state (Graph.invoke Samples.disk Samples.execute_action
                         (TurnSamples.session_of st)) in
  _get_nested_value (slots st') "engagement.sponsor" = Ok (VStr "Acme")
  /\ cursor_get "engagement_context" 0 (question_cursor st') = 1
  /\ messages st' = [HumanMessage "Acme"; AIMessage "Tell me about organization_type"].
Proof.
  intros st st'.
  destruct (answer_turn Samples.disk Samples.execute_action
              (TurnSamples.session_of st)
              "Acme" "engagement.sponsor" "Acme"
              (Samples.question_pending "engagement.sponsor" 0 [])
              Samples.context_stage VNone
              eq_refl eq_refl eq_refl eq_refl eq_refl eq_refl eq_refl eq_refl
              eq_refl eq_refl eq_refl)
    as (_ & Hr & Hc & _ & Hask).
  destruct (Hask eq_refl ltac:(discriminate)
              (Samples.question_n "organization_type" "engagement.organization_type")
              "Tell me about organization_type" eq_refl eq_refl)
    as (Hm & _).
  exact (conj Hr (conj Hc Hm)).
Defined.

(** The first invocation on the sample flow: the slots come from the
    flow's context, the welcome message stage is passed, and the first
    question is asked. *)
Example first_invocation :
  let s := Graph.invoke Samples.disk Samples.execute_action
             (Graph.create_initial_state "intake_sipoc_v1" 50) in
  messages (Graph.sn_state s) = [AIMessage "Tell me about process_name"]
  /\ active_stage_id (Graph.sn_state s) = "engagement_context"
  /\ slots (Graph.sn_state s) = VDict [(KStr "engagement", VDict [])]
  /\ Graph.sn_error s = None
  /\ Graph.should_continue s = "continue".
Proof. vm_compute. repeat split. Qed.

(** ** The data-element validation cycle *)

Section DataElements.
Import Spec Actions.

Lemma select_scan_spec (items : list value) :
  Forall (fun e => is_dict e = true) items ->
  forall k,
    (exists before elem after,
        items = (before ++ elem :: after)%list
        /\ needs_validation elem = true
        /\ forallb settled before = true
        /\ select_scan k items = Ok (Some (k + Z.of_nat (List.length before))))
    \/ (forallb settled items = true /\ select_scan k items = Ok None).
Proof.
  induction 1 as [|elem items Hd _ IH]; intros k; [right; split; reflexivity|].
  destruct elem as [| | | | |e]; try discriminate Hd.
  destruct (needs_validation (VDict e)) eqn:Hn.
  - left. exists [], (VDict e), items. repeat split; try assumption.
    cbn [select_scan py_get bind List.length]. rewrite Z.add_0_r.
    unfold needs_validation in Hn.
    destruct (Graph.truthy _); cbn [negb orb] in Hn |- *; [|reflexivity].
    cbn [bind]. destruct (dict_get "definition" e) as [[| | | | |]|];
      try discriminate Hn; reflexivity.
  - assert (Hstep : select_scan k (VDict e :: items) = select_scan (k + 1) items).
    { cbn [select_scan py_get bind]. unfold needs_validation in Hn.
      apply orb_false_iff in Hn as [Hv Hdef]. apply negb_false_iff in Hv.
      rewrite Hv. cbn [negb bind].
      destruct (dict_get "definition" e) as [[| | | | |]|];
        try discriminate Hdef; reflexivity. }
    destruct (IH (k + 1)) as [(before & x & after & -> & Hx & Hb & Hs)|[Hall Hs]].
    + left. exists (VDict e :: before), x, after. repeat split; try assumption.
      * cbn [forallb]. unfold settled at 1. now rewrite Hn.
      * rewrite Hstep, Hs. cbn [List.length]. do 2 f_equal. lia.
    + right. split; [|now rewrite Hstep].
      cbn [forallb]. unfold settled at 1. now rewrite Hn.
Qed.

Lemma select_found (d pp : dict) (elems : list value) (found : option Z) :
  dict_get "process_parameters" d = Some (VDict pp) ->
  dict_get "data_elements" pp = Some (VList elems) ->
  select_scan 0 elems = Ok found ->
  select_next_data_element_for_validation (VDict d)
  = Ok (match found with
        | Some i => (with_index d pp (VInt i), "element_selected")
        | None => (with_index d pp VNone, "all_validated")
        end).
Proof.
  intros Hp He Hs. unfold select_next_data_element_for_validation, set_param.
  cbn [py_copy bind py_get py_iter]. rewrite Hp. cbn [bind py_get]. rewrite He.
  cbn [bind py_iter]. rewrite Hs. cbn [bind].
  destruct found; reflexivity.
Qed.

(** X28.  The selecting action points the current index at the first
    data element that is not validated or has no definition and answers
    "element_selected"; when every element is validated and defined it
    sets the index to None and answers "all_validated".  Nothing else
    in the slots changes. *)
Theorem select_first_unvalidated (d pp : dict) (elems : list value) :
  dict_get "process_parameters" d = Some (VDict pp) ->
  dict_get "data_elements" pp = Some (VList elems) ->
  Forall (fun e => is_dict e = true) elems ->
  (exists before elem after,
      elems = (before ++ elem :: after)%list
      /\ needs_validation elem = true
      /\ forallb settled before = true
      /\ select_next_data_element_for_validation (VDict d)
         = Ok (with_index d pp (VInt (Z.of_nat (List.length before))),
               "element_selected"))
  \/ (forallb settled elems = true
      /\ select_next_data_element_for_validation (VDict d)
         = Ok (with_index d pp VNone, "all_validated")).
Proof.
  intros Hp He Hd.
  destruct (select_scan_spec elems Hd 0)
    as [(before & x & after & Heq & Hx & Hb & Hs)|[Hall Hs]].
  - left. exists before, x, after. repeat split; try assumption.
    now rewrite (select_found d pp elems _ Hp He Hs).
  - right. split; [exact Hall|]. now rewrite (select_found d pp elems _ Hp He Hs).
Qed.

Lemma definition_parts :
  path_parts definition_path
  = ["process_parameters"; "data_elements[current]"; "definition"].
Proof. reflexivity. Qed.

Lemma list_set_middle {A : Type} (before after : list A) (x y : A) :
  list_set (List.length before) x (before ++ y :: after)
  = (before ++ x :: after)%list.
Proof.
  rewrite <- (Nat.add_0_r (List.length before)). now rewrite list_set_app_r.
Qed.

Lemma nth_error_middle {A : Type} (before after : list A) (y : A) :
  nth_error (before ++ y :: after) (List.length before) = Some y.
Proof. rewrite nth_error_app2, Nat.sub_diag by lia. reflexivity. Qed.

Lemma middle_in_range {A : Type} (before after : list A) (y : A) :
  0 <= Z.of_nat (List.length before)
  < Z.of_nat (List.length (before ++ y :: after)).
Proof. rewrite List.length_app. cbn [List.length]. lia. Qed.

(** The writer on [data_elements[current].definition] inside the
    parameters. *)
Lemma write_current_definition (pp1 : dict) (before after : list value)
    (e : dict) (text : string) :
  dict_get "current_data_element_index" pp1
  = Some (VInt (Z.of_nat (List.length before))) ->
  dict_get "data_elements" pp1 = Some (VList (before ++ VDict e :: after)) ->
  exists x,
    x <> VNone
    /\ write_parts ["data_elements[current]"; "definition"] (VStr text) (VDict pp1)
       = (Returned,
          VDict (dict_set "data_elements"
                   (VList (before ++ VDict (dict_set "definition" x e) :: after))
                   pp1)).
Proof.
  intros Hi He.
  set (i := Z.of_nat (List.length before)) in *.
  pose proof (middle_in_range before after (VDict e)) as Hrange. fold i in Hrange.
  assert (Hseg : segment_index (PyStr.rstrip_char "]"%char "current]")
                   "data_elements" pp1 = Some i).
  { unfold segment_index, resolve_index.
    change (PyStr.rstrip_char "]"%char "current]") with "current".
    change (String.eqb "current" "current") with true. cbv iota.
    change (idx_key1 "data_elements") with "current_data_element_index".
    cbn [py_contains bind]. rewrite dict_mem_get, Hi. cbn [py_getitem].
    rewrite Hi. reflexivity. }
  destruct (open_index_present (VDict []) "data_elements[current]" "data_elements"
              "current]" pp1 i _ eq_refl Hseg He ltac:(lia))
    as (idx & Hopen & Hint & _).
  assert (Hfinal : exists x,
             x <> VNone
             /\ write_parts ["definition"] (VStr text) (VDict e)
                = (Returned, VDict (dict_set "definition" x e))).
  { cbn [write_parts]. unfold write_final.
    change (is_indexed "definition") with false. cbv iota.
    cbn [py_contains]. rewrite dict_mem_get.
    destruct (dict_get "definition" e) as [old|] eqn:Hold; cbn [py_getitem py_setitem].
    - rewrite Hold. cbn [is_list negb]. rewrite andb_true_r.
      destruct old; cbn [is_list py_append py_setitem];
        eexists; (split; [|reflexivity]); discriminate.
    - eexists. split; [|reflexivity]. discriminate. }
  destruct Hfinal as (x & Hx & Hw). exists x. split; [exact Hx|].
  rewrite write_parts_cons.
  change (is_indexed "data_elements[current]") with true. cbv iota.
  rewrite Hopen. unfold py_getidx_v. rewrite Hint. cbn [py_getidx].
  rewrite seq_pos_in_range by exact Hrange.
  unfold i at 1. rewrite Nat2Z.id, nth_error_middle, Hw.
  unfold put_child, py_setidx_v. rewrite Hint. cbn [py_setidx].
  rewrite seq_pos_in_range by exact Hrange.
  unfold i. rewrite Nat2Z.id, list_set_middle. reflexivity.
Qed.

Lemma write_definition (d pp : dict) (before after : list value)
    (e : dict) (text : string) :
  dict_get "data_elements" pp = Some (VList (before ++ VDict e :: after)) ->
  exists x,
    x <> VNone
    /\ write (with_index d pp (VInt (Z.of_nat (List.length before))))
         definition_path (VStr text)
       = (Returned,
          VDict (dict_set "process_parameters"
                   (VDict (dict_set "data_elements"
                             (VList (before ++ VDict (dict_set "definition" x e)
                                     :: after))
                             (dict_set "current_data_element_index"
                                (VInt (Z.of_nat (List.length before))) pp)))
                   d)).
Proof.
  intros He.
  set (pp1 := dict_set "current_data_element_index"
                (VInt (Z.of_nat (List.length before))) pp).
  destruct (write_current_definition pp1 before after e text)
    as (x & Hx & Hw).
  { unfold pp1. apply dict_get_set_same. }
  { unfold pp1. rewrite dict_get_set_other by discriminate. exact He. }
  exists x. split; [exact Hx|].
  unfold write, with_index. fold pp1.
  change (PyStr.nonempty definition_path) with true. cbv iota.
  rewrite definition_parts, write_parts_cons.
  change (is_indexed "process_parameters") with false. cbv iota zeta.
  unfold ensure_key. cbn [py_contains bind].
  rewrite dict_mem_get, dict_get_set_same. cbn [py_getitem].
  rewrite dict_get_set_same, Hw. cbn [py_setitem].
  now rewrite dict_set_twice.
Qed.


Lemma select_scan_stop (k : Z) (elem : value) (rest : list value) :
  needs_validation elem = true ->
  select_scan k (elem :: rest) = Ok (Some k).
Proof.
  intros Hn. destruct elem as [| | | | |e]; try discriminate Hn.
  cbn [select_scan py_get bind]. unfold needs_validation in Hn.
  destruct (Graph.truthy _); cbn [negb orb] in Hn |- *; [|reflexivity].
  cbn [bind]. destruct (dict_get "definition" e) as [[| | | | |]|];
    try discriminate Hn; reflexivity.
Qed.

Lemma select_scan_skip (k : Z) (elem : value) (rest : list value) :
  is_dict elem = true ->
  settled elem = true ->
  select_scan k (elem :: rest) = select_scan (k + 1) rest.
Proof.
  intros Hd Hs. destruct elem as [| | | | |e]; try discriminate Hd.
  apply negb_true_iff in Hs. unfold needs_validation in Hs.
  apply orb_false_iff in Hs as [Hv Hdef]. apply negb_false_iff in Hv.
  cbn [select_scan py_get bind]. rewrite Hv. cbn [negb bind].
  destruct (dict_get "definition" e) as [[| | | | |]|];
    try discriminate Hdef; reflexivity.
Qed.

Lemma select_scan_app (before rest : list value) :
  Forall (fun e => is_dict e = true) before ->
  forallb settled before = true ->
  forall k,
    select_scan k (before ++ rest)
    = select_scan (k + Z.of_nat (List.length before)) rest.
Proof.
  induction 1 as [|elem before Hd _ IH]; intros Hs k.
  - cbn. now rewrite Z.add_0_r.
  - cbn [forallb] in Hs. apply andb_true_iff in Hs as [Hs1 Hs2].
    cbn [app]. rewrite (select_scan_skip k elem _ Hd Hs1), (IH Hs2).
    f_equal. cbn [List.length]. lia.
Qed.

Lemma commit_at (d0 ppx : dict) (before after : list value) (e1 : dict) :
  dict_get "process_parameters" d0 = Some (VDict ppx) ->
  dict_get "current_data_element_index" ppx
  = Some (VInt (Z.of_nat (List.length before))) ->
  dict_get "data_elements" ppx = Some (VList (before ++ VDict e1 :: after)) ->
  commit_validated_data_element (VDict d0)
  = Ok (VDict (dict_set "process_parameters"
                 (VDict (dict_set "data_elements"
                           (VList (before
                                   ++ VDict (dict_set "validated" (VBool true) e1)
                                   :: after))
                           ppx))
                 d0)).
Proof.
  intros Hp Hi He. unfold commit_validated_data_element.
  cbn [py_copy bind py_get]. rewrite Hp. cbn [bind py_get]. rewrite Hi.
  cbn [bind]. rewrite He. cbn [bind as_int].
  pose proof (middle_in_range before after (VDict e1)) as Hrange.
  destruct (Z.leb_spec 0 (Z.of_nat (List.length before))); [|lia].
  cbn [py_len bind].
  destruct (Z.ltb_spec (Z.of_nat (List.length before))
              (Z.of_nat (List.length (before ++ VDict e1 :: after)))); [|lia].
  cbn [py_getidx py_setidx]. rewrite seq_pos_in_range by exact Hrange.
  rewrite Nat2Z.id, nth_error_middle. cbn [bind py_setitem].
  rewrite list_set_middle. reflexivity.
Qed.

(** X29.  One round of the validation cycle makes progress.  After the
    selection has pointed at an element, the definition the user gives
    is written through the path [data_elements[current].definition] to
    that very element, the committing action marks the same element as
    validated, and the element is then settled: the next selection
    points at a later element or answers "all_validated".  The elements
    around it are not touched. *)
Theorem validation_cycle_progress (d pp : dict) (before after : list value)
    (e : dict) (text : string) :
  dict_get "process_parameters" d = Some (VDict pp) ->
  dict_get "data_elements" pp = Some (VList (before ++ VDict e :: after)) ->
  Forall (fun x => is_dict x = true) before ->
  Forall (fun x => is_dict x = true) after ->
  forallb settled before = true ->
  needs_validation (VDict e) = true ->
  exists slots1 slots2 d3 pp3 e',
    select_next_data_element_for_validation (VDict d) = Ok (slots1, "element_selected")
    /\ write slots1 definition_path (VStr text) = (Returned, slots2)
    /\ commit_validated_data_element slots2 = Ok (VDict d3)
    /\ dict_get "process_parameters" d3 = Some (VDict pp3)
    /\ dict_get "data_elements" pp3 = Some (VList (before ++ VDict e' :: after))
    /\ settled (VDict e') = true
    /\ ((forallb settled after = true
         /\ select_next_data_element_for_validation (VDict d3)
            = Ok (with_index d3 pp3 VNone, "all_validated"))
        \/ (exists j,
               (List.length before < j)%nat
               /\ select_next_data_element_for_validation (VDict d3)
                  = Ok (with_index d3 pp3 (VInt (Z.of_nat j)), "element_selected"))).
Proof.
  intros Hp He Hb Ha Hsb Hn.
  set (i := Z.of_nat (List.length before)).
  assert (Hs1 : select_scan 0 (before ++ VDict e :: after) = Ok (Some i)).
  { rewrite (select_scan_app _ _ Hb Hsb), (select_scan_stop _ _ _ Hn). reflexivity. }
  destruct (write_definition d pp before after e text He) as (x & Hx & Hw).
  set (e1 := dict_set "definition" x e) in *.
  set (pp1 := dict_set "current_data_element_index" (VInt i) pp) in *.
  set (pp2 := dict_set "data_elements" (VList (before ++ VDict e1 :: after)) pp1) in *.
  set (d2 := dict_set "process_parameters" (VDict pp2) d) in *.
  set (e2 := dict_set "validated" (VBool true) e1).
  set (pp3 := dict_set "data_elements" (VList (before ++ VDict e2 :: after)) pp2).
  set (d3 := dict_set "process_parameters" (VDict pp3) d2).
  assert (Hc : commit_validated_data_element (VDict d2) = Ok (VDict d3)).
  { apply commit_at.
    - unfold d2. apply dict_get_set_same.
    - unfold pp2, pp1. rewrite dict_get_set_other by discriminate.
      apply dict_get_set_same.
    - unfold pp2. apply dict_get_set_same. }
  assert (Hp3 : dict_get "process_parameters" d3 = Some (VDict pp3))
    by (unfold d3; apply dict_get_set_same).
  assert (He3 : dict_get "data_elements" pp3 = Some (VList (before ++ VDict e2 :: after)))
    by (unfold pp3; apply dict_get_set_same).
  assert (Hset : settled (VDict e2) = true).
  { unfold settled, needs_validation, e2.
    rewrite dict_get_set_same, dict_get_set_other by discriminate.
    unfold e1. rewrite dict_get_set_same. cbn [Graph.truthy negb orb].
    destruct x; try reflexivity. congruence. }
  exists (with_index d pp (VInt i)), (VDict d2), d3, pp3, e2.
  split; [exact (select_found d pp _ _ Hp He Hs1)|].
  split; [exact Hw|]. split; [exact Hc|]. split; [exact Hp3|].
  split; [exact He3|]. split; [exact Hset|].
  assert (Hscan : select_scan 0 (before ++ VDict e2 :: after)
                  = select_scan (i + 1) after).
  { rewrite (select_scan_app _ _ Hb Hsb),
      (select_scan_skip _ (VDict e2) _ eq_refl Hset). reflexivity. }
  destruct (select_scan_spec after Ha (i + 1))
    as [(b' & y & a' & Heq & Hy & Hb' & Hs)|[Hall Hs]].
  - right. exists (List.length before + 1 + List.length b')%nat. split; [lia|].
    rewrite (select_found d3 pp3 _ (Some (i + 1 + Z.of_nat (List.length b'))) Hp3 He3)
      by (rewrite Hscan; exact Hs).
    do 4 f_equal. unfold i. lia.
  - left. split; [exact Hall|].
    apply (select_found d3 pp3 _ None Hp3 He3). rewrite Hscan. exact Hs.
Qed.


End DataElements.

Section LoopExit.
Import Spec Actions.

Variable disk : string -> flow_file.
Variable execute_action : string -> value -> string -> result (value * value).

Lemma select_result (slots0 slots' : value) (code : string) :
  select_next_data_element_for_validation slots0 = Ok (slots', code) ->
  exists d params idx,
    slots' = VDict (dict_set "process_parameters"
                      (VDict (dict_set "current_data_element_index" idx params)) d)
    /\ ((code = "element_selected" /\ exists i, idx = VInt i)
        \/ (code = "all_validated" /\ idx = VNone)).
Proof.
  unfold select_next_data_element_for_validation, set_param.
  destruct slots0 as [| | | | |d]; try discriminate.
  cbn [py_copy bind py_get].
  destruct (match dict_get "process_parameters" d with
            | Some v => v
            | None => VDict []
            end) as [| | | | |params]; try discriminate.
  cbn [py_get bind].
  destruct (py_iter _) as [items|]; cbn [bind]; [|discriminate].
  destruct (select_scan 0 items) as [[i|]|]; cbn [bind py_setitem];
    try discriminate; intros [= <- <-]; exists d, params; eexists;
    (split; [reflexivity|]); [left|right]; split; try reflexivity.
  now exists i.
Qed.

(** X30.  The loop stage of the data elements leaves the loop exactly
    when the selection has answered "all_validated".  On the slots that
    the selecting action returns, a loop stage whose stop signal names
    the data elements advances to [on_stop] after "all_validated" and
    to [next] after "element_selected"; it changes no slot itself. *)
Theorem loop_exit_follows_selection (st : state) (stage : stage)
    (active signal_slot code : string) (slots0 slots' : value) :
  select_next_data_element_for_validation slots0 = Ok (slots', code) ->
  get_stage disk (flow_id st) active = Ok stage ->
  s_type stage = Some "loop" ->
  s_signal_slot stage = Some signal_slot ->
  PyStr.is_infix "data_elements" signal_slot = true ->
  active <> "end" ->
  exists evs,
    loop_body disk execute_action st active slots'
    = Ok (Continue (if String.eqb code "all_validated"
                    then get_or "end" (s_on_stop stage)
                    else get_or "end" (s_next stage))
            slots' evs).
Proof.
  intros Hsel Hg Hty Hsig Hin Hend.
  destruct (select_result _ _ _ Hsel) as (d & params & idx & -> & Hcode).
  assert (Hne : PyStr.nonempty signal_slot = true)
    by (destruct signal_slot; [discriminate Hin|reflexivity]).
  apply String.eqb_neq in Hend.
  unfold loop_body. rewrite Hg. cbn [bind]. rewrite Hty, Hend.
  change (is_type "questions" (Some "loop")) with false.
  change (is_type "confirm" (Some "loop")) with false.
  change (is_type "message" (Some "loop")) with false.
  change (is_type "action" (Some "loop")) with false.
  change (is_type "gate" (Some "loop")) with false.
  change (is_type "branch" (Some "loop")) with false.
  change (is_type "loop" (Some "loop")) with true.
  cbn [orb]. cbv iota. rewrite Hsig, Hne, Hin. cbn [andb bind].
  rewrite dict_get_set_same. cbn [bind slots_get].
  rewrite dict_get_none_eq, dict_get_set_same.
  destruct Hcode as [(-> & i & ->)|(-> & ->)]; cbn [bind]; eexists; reflexivity.
Qed.

End LoopExit.

Lemma select_first_unvalidated_witness :
  (exists before elem after,
      [VDict TurnSamples.client_name; VDict TurnSamples.property_address]
      = (before ++ elem :: after)%list
      /\ Actions.needs_validation elem = true
      /\ forallb Actions.settled before = true
      /\ Actions.select_next_data_element_for_validation
           (VDict TurnSamples.element_slots)
         = Ok (Actions.with_index TurnSamples.element_slots TurnSamples.element_params
                 (VInt (Z.of_nat (List.length before))),
               "element_selected"))
  \/ (forallb Actions.settled
         [VDict TurnSamples.client_name; VDict TurnSamples.property_address] = true
      /\ Actions.select_next_data_element_for_validation
           (VDict TurnSamples.element_slots)
         = Ok (Actions.with_index TurnSamples.element_slots TurnSamples.element_params
                 VNone,
               "all_validated")).
Proof.
  exact (select_first_unvalidated TurnSamples.element_slots TurnSamples.element_params
           [VDict TurnSamples.client_name; VDict TurnSamples.property_address]
           eq_refl eq_refl
           ltac:(repeat constructor)).
Defined.

Lemma validation_cycle_progress_witness :
  exists slots1 slots2 d3 pp3 e',
    Actions.select_next_data_element_for_validation (VDict TurnSamples.element_slots)
    = Ok (slots1, "element_selected")
    /\ write slots1 Actions.definition_path (VStr "Address of property")
       = (Returned, slots2)
    /\ Actions.commit_validated_data_element slots2 = Ok (VDict d3)
    /\ dict_get "process_parameters" d3 = Some (VDict pp3)
    /\ dict_get "data_elements" pp3
       = Some (VList ([VDict TurnSamples.client_name] ++ VDict e' :: [])%list)
    /\ Actions.settled (VDict e') = true
    /\ ((forallb Actions.settled [] = true
         /\ Actions.select_next_data_element_for_validation (VDict d3)
            = Ok (Actions.with_index d3 pp3 VNone, "all_validated"))
        \/ (exists j,
               (List.length [VDict TurnSamples.client_name] < j)%nat
               /\ Actions.select_next_data_element_for_validation (VDict d3)
                  = Ok (Actions.with_index d3 pp3 (VInt (Z.of_nat j)),
                        "element_selected"))).
Proof.
  exact (validation_cycle_progress TurnSamples.element_slots TurnSamples.element_params
           [VDict TurnSamples.client_name] [] TurnSamples.property_address
           "Address of property"
           eq_refl eq_refl
           ltac:(repeat constructor) ltac:(constructor)
           eq_refl eq_refl).
Defined.

Lemma loop_exit_follows_selection_witness :
  exists evs,
    loop_body TurnSamples.mapping_disk Samples.execute_action
      (Samples.start_state "current_state_mapping_v1")
      "data_elements_validate_loop"
      (Actions.with_index TurnSamples.element_slots TurnSamples.element_params (VInt 1))
    = Ok (Continue "data_element_one_by_one"
            (Actions.with_index TurnSamples.element_slots TurnSamples.element_params
               (VInt 1))
            evs).
Proof.
  exact (loop_exit_follows_selection TurnSamples.mapping_disk Samples.execute_action
           (Samples.start_state "current_state_mapping_v1")
           TurnSamples.validate_loop
           "data_elements_validate_loop" "process_parameters.data_elements"
           "element_selected"
           (VDict TurnSamples.element_slots)
           (Actions.with_index TurnSamples.element_slots TurnSamples.element_params
              (VInt 1))
           eq_refl eq_refl eq_refl eq_refl eq_refl ltac:(discriminate)).
Defined.
